(** * DisasterEye: the local store, the AI gateway and the Aiden dispatcher

    A shallow embedding of [services/storage.ts] (the localStorage-backed mock
    database), [services/geminiService.ts] (the AI gateway), [constants.ts]
    (the fixtures), the response handling of [components/Aiden.tsx]
    (the app-control dispatcher and [handleLocationResponse]) and the
    handlers of the pages that call the store and the gateway (the news
    feed, the contacts, the emergency plan and the simulation), followed by
    the properties of these functions that the specification states and by
    further properties of the same code.

    Conventions.  A JavaScript string is a [string]; a Date's time value is
    an [option Z] (milliseconds since the epoch, [None] for NaN, i.e. an
    Invalid Date); a finite number is a [Q].  Asynchronous functions run to
    completion one at a time: [await delay ms] advances the clock of the
    browser by [ms], and every effect that leaves the function (a window
    event, a navigation, an utterance, a console line, a request sent to
    the model) is appended to a trace with the time on the clock, oldest
    first.  [localStorage.setItem] never fails. *)

From Stdlib Require Import ZArith List String Ascii Bool Lia QArith_base DecimalString.
Import ListNotations.

Local Open Scope string_scope.
Local Open Scope Z_scope.

(* ================================================================== *)
(** ** The JavaScript built-ins the sources rely on *)
(* ================================================================== *)

Module JS.

(** *** Strings *)

Definition is_digit (c : ascii) : bool :=
  let n := N_of_ascii c in ((48 <=? n) && (n <=? 57))%N.

Definition digit_val (c : ascii) : Z := Z.of_N (N_of_ascii c) - 48.

Definition digit_char (d : Z) : ascii := ascii_of_N (Z.to_N (48 + d)).

(** WhiteSpace and LineTerminator code units below 256:
    TAB, LF, VT, FF, CR, SP and NBSP. *)
Definition is_space (c : ascii) : bool :=
  let n := N_of_ascii c in
  ((9 <=? n) && (n <=? 13) || (n =? 32) || (n =? 160))%N.

Fixpoint trimStart (s : string) : string :=
  match s with
  | String c s' => if is_space c then trimStart s' else s
  | EmptyString => EmptyString
  end.

(** [trimEnd] keeps a character when it is not white space or when
    something that is kept follows it. *)
Fixpoint trimEnd (s : string) : string :=
  match s with
  | EmptyString => EmptyString
  | String c s' =>
      match trimEnd s' with
      | EmptyString => if is_space c then EmptyString else String c EmptyString
      | rest => String c rest
      end
  end.

(** [String.prototype.trim]. *)
Definition trim (s : string) : string := trimEnd (trimStart s).

(** [s.includes(p)]. *)
Fixpoint includes (p s : string) : bool :=
  prefix p s ||
  match s with
  | EmptyString => false
  | String _ s' => includes p s'
  end.

(** [s.replace(p, r)] with a string pattern: the first occurrence only. *)
Fixpoint replace (p r s : string) : string :=
  if prefix p s then r ++ substring (length p) (length s - length p) s
  else match s with
       | EmptyString => EmptyString
       | String c s' => String c (replace p r s')
       end.

Definition lower_char (c : ascii) : ascii :=
  let n := N_of_ascii c in
  if ((65 <=? n) && (n <=? 90))%N then ascii_of_N (n + 32) else c.

(** [toLowerCase] on the ASCII letters. *)
Fixpoint toLowerCase (s : string) : string :=
  match s with
  | EmptyString => EmptyString
  | String c s' => String (lower_char c) (toLowerCase s')
  end.

(** A string in a boolean position: only the empty string is falsy. *)
Definition truthy (s : string) : bool :=
  match s with EmptyString => false | _ => true end.

(** *** Day numbers and time values (ECMA-262, "Time Values and Time Range") *)

Definition msPerDay : Z := 86400000.

Definition Day (t : Z) : Z := t / msPerDay.
Definition TimeWithinDay (t : Z) : Z := t mod msPerDay.

Definition DayFromYear (y : Z) : Z :=
  365 * (y - 1970) + (y - 1969) / 4 - (y - 1901) / 100 + (y - 1601) / 400.

Definition DaysInYear (y : Z) : Z :=
  if negb (y mod 4 =? 0) then 365
  else if negb (y mod 100 =? 0) then 366
  else if negb (y mod 400 =? 0) then 365
  else 366.

Definition InLeapYear (y : Z) : Z := DaysInYear y - 365.

(** The largest [y] with [DayFromYear y <= d]: a first guess from the mean
    length of a year, moved by one where the guess is off. *)
Definition YearFromDay (d : Z) : Z :=
  let y := 1970 + (400 * d) / 146097 in
  if DayFromYear (y + 1) <=? d then y + 1
  else if d <? DayFromYear y then y - 1
  else y.

(** Number of days of the year before month [m] (0 = January). *)
Definition DaysBeforeMonth (leap m : Z) : Z :=
  match m with
  | 0 => 0
  | 1 => 31
  | 2 => 59 + leap
  | 3 => 90 + leap
  | 4 => 120 + leap
  | 5 => 151 + leap
  | 6 => 181 + leap
  | 7 => 212 + leap
  | 8 => 243 + leap
  | 9 => 273 + leap
  | 10 => 304 + leap
  | 11 => 334 + leap
  | _ => 365 + leap
  end.

(** [MonthFromTime] on the day within the year. *)
Definition MonthFromDayInYear (leap d : Z) : Z :=
  if d <? 31 then 0
  else if d <? 59 + leap then 1
  else if d <? 90 + leap then 2
  else if d <? 120 + leap then 3
  else if d <? 151 + leap then 4
  else if d <? 181 + leap then 5
  else if d <? 212 + leap then 6
  else if d <? 243 + leap then 7
  else if d <? 273 + leap then 8
  else if d <? 304 + leap then 9
  else if d <? 334 + leap then 10
  else 11.

Record DateFields : Type := mkFields {
  fYear : Z; fMonth : Z (* 1..12 *); fDate : Z (* 1..31 *);
  fHour : Z; fMin : Z; fSec : Z; fMs : Z
}.

(** The UTC fields of a time value. *)
Definition fieldsOfTime (t : Z) : DateFields :=
  let d := Day t in
  let w := TimeWithinDay t in
  let y := YearFromDay d in
  let leap := InLeapYear y in
  let diy := d - DayFromYear y in
  let m := MonthFromDayInYear leap diy in
  {| fYear := y; fMonth := m + 1; fDate := diy - DaysBeforeMonth leap m + 1;
     fHour := w / 3600000; fMin := (w / 60000) mod 60;
     fSec := (w / 1000) mod 60; fMs := w mod 1000 |}.

(** [MakeDate(MakeDay(y, m - 1, d), MakeTime(h, mi, s, ms))]. *)
Definition timeOfFields (f : DateFields) : Z :=
  (DayFromYear (fYear f)
     + DaysBeforeMonth (InLeapYear (fYear f)) (fMonth f - 1)
     + (fDate f - 1)) * msPerDay
  + fHour f * 3600000 + fMin f * 60000 + fSec f * 1000 + fMs f.

Definition DaysInMonth (y m : Z) : Z :=
  DaysBeforeMonth (InLeapYear y) m - DaysBeforeMonth (InLeapYear y) (m - 1).

(** Are the fields legal element values of the date-time string format,
    as the standard lists them?  Hour 24 is legal only as the end of a
    day.  The standard decides the time value of a string with legal
    fields only; see [Date_parse]. *)
Definition fieldsLegal (f : DateFields) : bool :=
  (1 <=? fMonth f) && (fMonth f <=? 12)
  && (1 <=? fDate f) && (fDate f <=? DaysInMonth (fYear f) (fMonth f))
  && (fMin f <=? 59) && (fSec f <=? 59)
  && ((fHour f <=? 23)
      || ((fHour f =? 24) && (fMin f =? 0) && (fSec f =? 0) && (fMs f =? 0))).

(** *** Formatting and reading the date-time string format *)

Definition pad2 (n : Z) (k : string) : string :=
  String (digit_char (n / 10)) (String (digit_char (n mod 10)) k).

Definition pad3 (n : Z) (k : string) : string :=
  String (digit_char (n / 100)) (pad2 (n mod 100) k).

Definition pad4 (n : Z) (k : string) : string :=
  pad2 (n / 100) (pad2 (n mod 100) k).

Definition pad6 (n : Z) (k : string) : string :=
  pad2 (n / 10000) (pad4 (n mod 10000) k).

(** The year of [toISOString]: four digits from 0 to 9999, else a sign and
    six digits. *)
Definition isoYear (y : Z) (k : string) : string :=
  if (0 <=? y) && (y <=? 9999) then pad4 y k
  else if y <? 0 then String "-"%char (pad6 (- y) k)
  else String "+"%char (pad6 y k).

(** The text of the fields: [YYYY-MM-DDTHH:mm:ss.sssZ]. *)
Definition formatFields (f : DateFields) : string :=
  isoYear (fYear f)
    (String "-"%char (pad2 (fMonth f)
    (String "-"%char (pad2 (fDate f)
    (String "T"%char (pad2 (fHour f)
    (String ":"%char (pad2 (fMin f)
    (String ":"%char (pad2 (fSec f)
    (String "."%char (pad3 (fMs f) "Z")))))))))))).

(** [Date.prototype.toISOString] of a finite time value. *)
Definition toISOString (t : Z) : string := formatFields (fieldsOfTime t).

(** [Date.prototype.toJSON]: the ISO string, or [null] (here [None]) for
    an Invalid Date. *)
Definition toJSON (tv : option Z) : option string :=
  match tv with
  | Some t => Some (toISOString t)
  | None => None
  end.

Definition num2 (a b : ascii) : Z := 10 * digit_val a + digit_val b.
Definition num3 (a b c : ascii) : Z := 100 * digit_val a + num2 b c.
Definition num4 (a b c d : ascii) : Z := 100 * num2 a b + num2 c d.

(** The time part after the [T], in UTC: [HH:mmZ], [HH:mm:ssZ] or
    [HH:mm:ss.sssZ].  The outer [None] means that the text is none of
    these three forms. *)
Definition readTime (s : string) : option (Z * Z * Z * Z) :=
  match s with
  | String h1 (String h2 (String ":"%char (String m1 (String m2 rest)))) =>
      if is_digit h1 && is_digit h2 && is_digit m1 && is_digit m2 then
        match rest with
        | String "Z"%char EmptyString => Some (num2 h1 h2, num2 m1 m2, 0, 0)
        | String ":"%char (String s1 (String s2 rest')) =>
            if is_digit s1 && is_digit s2 then
              match rest' with
              | String "Z"%char EmptyString =>
                  Some (num2 h1 h2, num2 m1 m2, num2 s1 s2, 0)
              | String "."%char (String f1 (String f2 (String f3
                  (String "Z"%char EmptyString)))) =>
                  if is_digit f1 && is_digit f2 && is_digit f3 then
                    Some (num2 h1 h2, num2 m1 m2, num2 s1 s2, num3 f1 f2 f3)
                  else None
              | _ => None
              end
            else None
        | _ => None
        end
      else None
  | _ => None
  end.

(** The fields of a string in the UTC date-time forms of the format,
    [YYYY-MM-DDTHH:mm[:ss[.sss]]Z]. *)
Definition readFields (s : string) : option DateFields :=
  match s with
  | String y1 (String y2 (String y3 (String y4 (String "-"%char
    (String o1 (String o2 (String "-"%char
    (String d1 (String d2 (String "T"%char rest)))))))))) =>
      if is_digit y1 && is_digit y2 && is_digit y3 && is_digit y4
         && is_digit o1 && is_digit o2 && is_digit d1 && is_digit d2 then
        match readTime rest with
        | Some (h, mi, sec, ms) =>
            Some (mkFields (num4 y1 y2 y3 y4) (num2 o1 o2) (num2 d1 d2)
                           h mi sec ms)
        | None => None
        end
      else None
  | _ => None
  end.

(** [Date.parse].  A string in one of the UTC date-time forms whose
    fields are all legal is decided by the standard: its time value.  Every
    other string is left to the engine and the host's time zone, [host]:
    the local-time forms, numeric offsets and free text, and also a string
    in a UTC form with a field that is not legal, on which engines differ
    (for the 29th of February of a common year one engine answers the 1st
    of March, another NaN). *)
Definition Date_parse (host : string -> option Z) (s : string) : option Z :=
  match readFields s with
  | Some f => if fieldsLegal f then Some (timeOfFields f) else host s
  | None => host s
  end.

(** [/^\d{4}-\d{2}-\d{2}T/.test(s)]. *)
Definition isoPrefix (s : string) : bool :=
  match s with
  | String y1 (String y2 (String y3 (String y4 (String "-"%char
    (String o1 (String o2 (String "-"%char
    (String d1 (String d2 (String "T"%char _)))))))))) =>
      is_digit y1 && is_digit y2 && is_digit y3 && is_digit y4
      && is_digit o1 && is_digit o2 && is_digit d1 && is_digit d2
  | _ => false
  end.

End JS.

(* ================================================================== *)
(** ** types.ts *)
(* ================================================================== *)

Module Types.

Inductive DisasterType : Type :=
  FLOOD | FIRE | EARTHQUAKE | LANDSLIDE | STORM | NONE.

Inductive RiskLevel : Type := LOW | MODERATE | HIGH | CRITICAL.

Record Coordinates : Type := { lat : Q; lng : Q }.

Inductive ResourceType : Type := HOSPITAL | SHELTER | POLICE | SUPPLY.
Inductive ResourceStatus : Type := AVAILABLE | FULL | CLOSED.

Record EmergencyResource : Type := {
  res_id : string;
  res_name : string;
  res_type : ResourceType;
  res_location : Coordinates;
  res_status : ResourceStatus
}.

(** A property that the interfaces declare as [string] or [Date], as it
    sits in a JSON document: [JSON.stringify] writes a string, or [null]
    for an Invalid Date. *)
Inductive json : Type :=
| JNull
| JStr (s : string).

(** The same property on the heap.  After [JSON.parse] with [dateReviver]
    it holds a string or a Date, whatever the interface declares. *)
Inductive jsval : Type :=
| VNull
| VStr (s : string)
| VDate (tv : option Z).

(** The three interfaces that are read back with [dateReviver], over the
    type [text] of their string and Date properties: [json] for the
    document in localStorage, [jsval] for the objects on the heap. *)
Record UserReportOf (text : Type) : Type := mkReport {
  id : text;
  type : DisasterType;
  description : text;
  timestamp : text;
  coordinates : Coordinates;
  verified : bool
}.

Record AlertOf (text : Type) : Type := mkAlert {
  alert_id : text;
  message : text;
  level : RiskLevel;
  alert_timestamp : text
}.

Record NewsItemOf (text : Type) : Type := mkNews {
  news_id : text;
  title : text;
  summary : text;
  source : text;
  news_timestamp : text;
  imageUrl : option text;
  url : option text
}.

Arguments mkReport {text}.
Arguments id {text}.
Arguments type {text}.
Arguments description {text}.
Arguments timestamp {text}.
Arguments coordinates {text}.
Arguments verified {text}.
Arguments mkAlert {text}.
Arguments alert_id {text}.
Arguments message {text}.
Arguments level {text}.
Arguments alert_timestamp {text}.
Arguments mkNews {text}.
Arguments news_id {text}.
Arguments title {text}.
Arguments summary {text}.
Arguments source {text}.
Arguments news_timestamp {text}.
Arguments imageUrl {text}.
Arguments url {text}.

Definition UserReport : Type := UserReportOf jsval.
Definition Alert : Type := AlertOf jsval.
Definition NewsItem : Type := NewsItemOf jsval.

Record Contact : Type := {
  contact_id : string;
  name : string;
  relation : string;
  phone : string;
  email : string
}.

(** [Omit<UserReport, 'id' | 'timestamp' | 'verified'>] *)
Record ReportInput : Type := {
  in_type : DisasterType;
  in_description : string;
  in_coordinates : Coordinates
}.

(** [Omit<Contact, 'id'>] *)
Record ContactInput : Type := {
  in_name : string;
  in_relation : string;
  in_phone : string;
  in_email : string
}.

Record PredictionResult : Type := {
  disasterType : DisasterType;
  confidence : Q;
  riskLevel : RiskLevel;
  pred_summary : string;
  immediateActions : list string;
  radiusKm : Q;
  peopleAffected : Q;
  infrastructureDamage : string
}.

End Types.

(* ================================================================== *)
(** ** constants.ts *)
(* ================================================================== *)

Module Constants.
Import Types.

Section Fixtures.

(** The time at which the module is evaluated: what [new Date()] and
    [Date.now()] return while the fixtures are built. *)
Variable loaded : Z.

Definition MOCK_RESOURCES : list EmergencyResource :=
  [ {| res_id := "1"; res_name := "Central City Hospital";
       res_type := HOSPITAL;
       res_location := {| lat := 34.0522; lng := -118.2437 |};
       res_status := AVAILABLE |};
    {| res_id := "2"; res_name := "Westside Shelter (HS Gym)";
       res_type := SHELTER;
       res_location := {| lat := 34.0622; lng := -118.2537 |};
       res_status := AVAILABLE |};
    {| res_id := "3"; res_name := "Downtown Police Precinct";
       res_type := POLICE;
       res_location := {| lat := 34.0422; lng := -118.2337 |};
       res_status := AVAILABLE |} ].

Definition MOCK_REPORTS : list UserReport :=
  [ mkReport (VStr "r1") FLOOD
      (VStr "Water rising rapidly near the river bank.")
      (VDate (Some loaded))
      {| lat := 34.055; lng := -118.245 |} true;
    mkReport (VStr "r2") FIRE
      (VStr "Smoke spotted on the northern ridge.")
      (VDate (Some (loaded - 3600000)))
      {| lat := 34.075; lng := -118.265 |} false ].

Definition MOCK_ALERTS : list Alert :=
  [ mkAlert (VStr "a1")
      (VStr "FLASH FLOOD WARNING: Sector 4 levee integrity compromised. Evacuate to high ground immediately.")
      CRITICAL (VDate (Some loaded));
    mkAlert (VStr "a2")
      (VStr "Wildfire containment dropped to 40%. Smoke advisory in effect for downtown.")
      HIGH (VDate (Some (loaded - 1000 * 60 * 30))) ].

Definition MOCK_NEWS : list NewsItem :=
  [ mkNews (VStr "n1")
      (VStr "Global Climate Summit Addresses Rising Sea Levels")
      (VStr "World leaders gather to discuss emergency protocols for coastal cities facing immediate flood risks.")
      (VStr "Global News Network")
      (VDate (Some (loaded - 1000 * 60 * 60 * 2)))
      (Some (VStr "https://images.unsplash.com/photo-1550989460-0adf9ea622e2?q=80&w=600&auto=format&fit=crop"))
      (Some (VStr "#"));
    mkNews (VStr "n2")
      (VStr "Tech Giants Unveil New Seismic Sensors")
      (VStr "A new array of AI-powered sensors promises to increase earthquake warning times by up to 30 seconds.")
      (VStr "Tech Daily")
      (VDate (Some (loaded - 1000 * 60 * 60 * 5)))
      (Some (VStr "https://images.unsplash.com/photo-1451187580459-43490279c0fa?q=80&w=600&auto=format&fit=crop"))
      (Some (VStr "#"));
    mkNews (VStr "n3")
      (VStr "Hurricane Season 2025 Predictions Released")
      (VStr "Meteorologists predict a higher-than-average number of named storms this year due to ocean warming.")
      (VStr "Weather Watch")
      (VDate (Some (loaded - 1000 * 60 * 60 * 12)))
      (Some (VStr "https://images.unsplash.com/photo-1569060368523-c9e54d6d67cf?q=80&w=600&auto=format&fit=crop"))
      (Some (VStr "#")) ].

Definition MOCK_CONTACTS : list Contact :=
  [ {| contact_id := "c1"; name := "Sarah Connor"; relation := "Mother";
       phone := "+1 (555) 019-2834"; email := "sarah@example.com" |};
    {| contact_id := "c2"; name := "Kyle Reese"; relation := "Partner";
       phone := "+1 (555) 123-4567"; email := "kyle@example.com" |} ].

Definition MAP_CENTER : Coordinates := {| lat := 34.0522; lng := -118.2437 |}.

End Fixtures.

End Constants.

(* ================================================================== *)
(** ** The browser: storage, clock, randomness, effects *)
(* ================================================================== *)

Module Browser.
Import Types.

(** The five slots of [localStorage] that the application uses.  A slot is
    [None] while [getItem] returns [null]; otherwise it holds the document
    that [JSON.stringify] wrote, kept as a tree. *)
Record Storage : Type := mkStorage {
  REPORTS : option (list (UserReportOf json));
  RESOURCES : option (list EmergencyResource);
  ALERTS : option (list (AlertOf json));
  NEWS : option (list (NewsItemOf json));
  CONTACTS : option (list Contact)
}.

Definition emptyStorage : Storage := mkStorage None None None None None.

Inductive WindowEvent : Type :=
| DbReportsUpdated                                   (* 'db-reports-updated' *)
| AidenSim (command : option string) (intensity : option Q)  (* 'aiden-sim' *)
| AidenMap (command : option string)                 (* 'aiden-map' *)
| AidenReportUi.                                     (* 'aiden-report-ui' *)

(** A turn of the conversation as the model receives it. *)
Record Turn : Type := { role : string; part : string }.

(** The calls that leave the browser for the model. *)
Inductive Request : Type :=
| AnalyzeImage (base64Image : string)
| PlanText (contents : string)
| NewsSearch
| ChatMessage (history : list Turn) (newMessage : string)
              (userLocation : option Coordinates).

Inductive Timer : Type :=
| GuidingOff                       (* () => setIsGuiding(false) *)
| NavigateTo (route : string).     (* () => navigate(route) *)

Inductive Effect : Type :=
| Dispatched (e : WindowEvent)     (* window.dispatchEvent *)
| Navigated (route : string)       (* navigate(route) *)
| SpeechCancelled                  (* speechSynthesis.cancel() *)
| Uttered (text : string)          (* speechSynthesis.speak(utterance) *)
| Logged (line : string)           (* console.error *)
| Sent (r : Request)               (* a request to the model *)
| TimerSet (ms : Z) (t : Timer).   (* setTimeout(t, ms), not awaited *)

Record World : Type := mkWorld {
  localStorage : Storage;
  clock : Z;                       (* Date.now() *)
  entropy : nat -> string;         (* what crypto.randomUUID() returns, call by call *)
  drawn : nat;                     (* number of calls so far *)
  hash : string;                   (* window.location.hash *)
  speechSynthesis : bool;          (* 'speechSynthesis' in window *)
  trace : list (Z * Effect)        (* what happened, and when *)
}.

(** Code that reads and changes a state [S] and returns an [A]. *)
Definition ST (S A : Type) : Type := S -> A * S.

Definition ret {S A} (a : A) : ST S A := fun w => (a, w).

Definition bind {S A B} (m : ST S A) (k : A -> ST S B) : ST S B :=
  fun w => let (a, w') := m w in k a w'.

Definition M (A : Type) : Type := ST World A.

Definition getStorage : M Storage := fun w => (localStorage w, w).

Definition setStorage (s : Storage) : M unit := fun w =>
  (tt, mkWorld s (clock w) (entropy w) (drawn w) (hash w)
               (speechSynthesis w) (trace w)).

(** [Date.now()] *)
Definition now : M Z := fun w => (clock w, w).

(** [await new Promise(resolve => setTimeout(resolve, ms))] *)
Definition delay (ms : Z) : M unit := fun w =>
  (tt, mkWorld (localStorage w) (clock w + ms) (entropy w) (drawn w)
               (hash w) (speechSynthesis w) (trace w)).

(** [crypto.randomUUID()] *)
Definition randomUUID : M string := fun w =>
  (entropy w (drawn w),
   mkWorld (localStorage w) (clock w) (entropy w) (S (drawn w)) (hash w)
           (speechSynthesis w) (trace w)).

Definition emit (e : Effect) : M unit := fun w =>
  (tt, mkWorld (localStorage w) (clock w) (entropy w) (drawn w) (hash w)
               (speechSynthesis w) (trace w ++ [(clock w, e)])%list).

Definition dispatchEvent (e : WindowEvent) : M unit := emit (Dispatched e).

Definition getHash : M string := fun w => (hash w, w).

(** [navigate(route)] under the HashRouter of [App.tsx]. *)
Definition navigate (route : string) : M unit := fun w =>
  (tt, mkWorld (localStorage w) (clock w) (entropy w) (drawn w)
               ("#" ++ route) (speechSynthesis w)
               (trace w ++ [(clock w, Navigated route)])%list).

Definition hasSpeech : M bool := fun w => (speechSynthesis w, w).

End Browser.

Declare Scope js_scope.
Delimit Scope js_scope with js.
Notation "x <- m ;; k" := (Browser.bind m (fun x => k))
  (at level 61, m at next level, right associativity) : js_scope.
Notation "m ;; k" := (Browser.bind m (fun _ => k))
  (at level 61, right associativity) : js_scope.

(* ================================================================== *)
(** ** services/storage.ts *)
(* ================================================================== *)

Module Api.
Import Types Browser.
Local Open Scope js_scope.

Section Store.

(** When the fixtures were built, and what the engine's [Date.parse]
    makes of the strings that the standard leaves to it. *)
Variable loaded : Z.
Variable host : string -> option Z.

(** [dateReviver], on the value of one string property. *)
Definition dateReviver (value : json) : jsval :=
  match value with
  | JStr s => if JS.isoPrefix s then VDate (JS.Date_parse host s) else VStr s
  | JNull => VNull
  end.

(** [JSON.stringify] on the value of one property: a Date goes through
    its [toJSON]. *)
Definition stringify (v : jsval) : json :=
  match v with
  | VNull => JNull
  | VStr s => JStr s
  | VDate tv =>
      match JS.toJSON tv with
      | Some s => JStr s
      | None => JNull
      end
  end.

Definition mapReport {A B} (f : A -> B) (r : UserReportOf A) : UserReportOf B :=
  mkReport (f (id r)) (type r) (f (description r)) (f (timestamp r))
           (coordinates r) (verified r).

Definition mapAlert {A B} (f : A -> B) (a : AlertOf A) : AlertOf B :=
  mkAlert (f (alert_id a)) (f (message a)) (level a) (f (alert_timestamp a)).

Definition mapNews {A B} (f : A -> B) (n : NewsItemOf A) : NewsItemOf B :=
  mkNews (f (news_id n)) (f (title n)) (f (summary n)) (f (source n))
         (f (news_timestamp n)) (option_map f (imageUrl n))
         (option_map f (url n)).

Definition setReports (doc : list (UserReportOf json)) : M unit :=
  s <- getStorage ;;
  setStorage (mkStorage (Some doc) (RESOURCES s) (ALERTS s) (NEWS s) (CONTACTS s)).

Definition setResources (doc : list EmergencyResource) : M unit :=
  s <- getStorage ;;
  setStorage (mkStorage (REPORTS s) (Some doc) (ALERTS s) (NEWS s) (CONTACTS s)).

Definition setAlerts (doc : list (AlertOf json)) : M unit :=
  s <- getStorage ;;
  setStorage (mkStorage (REPORTS s) (RESOURCES s) (Some doc) (NEWS s) (CONTACTS s)).

Definition setNews (doc : list (NewsItemOf json)) : M unit :=
  s <- getStorage ;;
  setStorage (mkStorage (REPORTS s) (RESOURCES s) (ALERTS s) (Some doc) (CONTACTS s)).

Definition setContacts (doc : list Contact) : M unit :=
  s <- getStorage ;;
  setStorage (mkStorage (REPORTS s) (RESOURCES s) (ALERTS s) (NEWS s) (Some doc)).

(** [if (!localStorage.getItem(key)) localStorage.setItem(key, ...)] *)
Definition seed {A} (slot : Storage -> option A) (write : M unit) : M unit :=
  s <- getStorage ;;
  match slot s with
  | None => write
  | Some _ => ret tt
  end.

Definition init : M unit :=
  seed REPORTS (setReports (map (mapReport stringify) (Constants.MOCK_REPORTS loaded))) ;;
  seed RESOURCES (setResources Constants.MOCK_RESOURCES) ;;
  seed ALERTS (setAlerts (map (mapAlert stringify) (Constants.MOCK_ALERTS loaded))) ;;
  seed NEWS (setNews (map (mapNews stringify) (Constants.MOCK_NEWS loaded))) ;;
  seed CONTACTS (setContacts Constants.MOCK_CONTACTS).

Definition getReports : M (list UserReport) :=
  delay 300 ;;
  init ;;
  s <- getStorage ;;
  match REPORTS s with
  | Some raw => ret (map (mapReport dateReviver) raw)
  | None => ret []
  end.

Definition createReport (report : ReportInput) : M UserReport :=
  delay 600 ;;
  reports <- getReports ;;
  uuid <- randomUUID ;;
  t <- now ;;
  let newReport :=
    mkReport (VStr uuid) (in_type report) (VStr (in_description report))
             (VDate (Some t)) (in_coordinates report) false in
  let reports := (reports ++ [newReport])%list in
  setReports (map (mapReport stringify) reports) ;;
  dispatchEvent DbReportsUpdated ;;
  ret newReport.

Definition getResources : M (list EmergencyResource) :=
  delay 200 ;;
  init ;;
  s <- getStorage ;;
  match RESOURCES s with
  | Some raw => ret raw
  | None => ret []
  end.

Definition getAlerts : M (list Alert) :=
  delay 200 ;;
  init ;;
  s <- getStorage ;;
  match ALERTS s with
  | Some raw => ret (map (mapAlert dateReviver) raw)
  | None => ret []
  end.

Definition getNews : M (list NewsItem) :=
  delay 250 ;;
  init ;;
  s <- getStorage ;;
  match NEWS s with
  | Some raw => ret (map (mapNews dateReviver) raw)
  | None => ret []
  end.

(** [r.id === reportId] *)
Definition idIs (reportId : string) (r : UserReport) : bool :=
  match id r with
  | VStr s => String.eqb s reportId
  | _ => false
  end.

(** [{ ...r, verified: true }] *)
Definition markVerified (r : UserReport) : UserReport :=
  mkReport (id r) (type r) (description r) (timestamp r) (coordinates r) true.

Definition verifyReport (reportId : string) : M unit :=
  delay 400 ;;
  reports <- getReports ;;
  let updatedReports :=
    map (fun r => if idIs reportId r then markVerified r else r) reports in
  setReports (map (mapReport stringify) updatedReports) ;;
  dispatchEvent DbReportsUpdated.

Definition getContacts : M (list Contact) :=
  delay 200 ;;
  init ;;
  s <- getStorage ;;
  match CONTACTS s with
  | Some raw => ret raw
  | None => ret []
  end.

Definition addContact (contact : ContactInput) : M Contact :=
  delay 400 ;;
  contacts <- getContacts ;;
  uuid <- randomUUID ;;
  let newContact :=
    {| contact_id := uuid; name := in_name contact;
       relation := in_relation contact; phone := in_phone contact;
       email := in_email contact |} in
  setContacts (contacts ++ [newContact])%list ;;
  ret newContact.

Definition deleteContact (id : string) : M unit :=
  delay 300 ;;
  contacts <- getContacts ;;
  let filtered :=
    filter (fun c => negb (String.eqb (contact_id c) id)) contacts in
  setContacts filtered.

End Store.

End Api.

(* ================================================================== *)
(** ** services/geminiService.ts *)
(* ================================================================== *)

Module Gemini.
Import Types Browser.
Local Open Scope js_scope.

Record WebChunk : Type := { uri : option string; chunk_title : option string }.
Record Chunk : Type := { web : option WebChunk }.
Record Grounding : Type := { groundingChunks : option (list Chunk) }.

(** The arguments of a [controlApp] call, as [appControlTool] declares
    them; only [action] is required. *)
Record ControlArgs : Type := {
  action : string;
  route : option string;
  alertActive : option bool;
  simulationCommand : option string;
  intensityValue : option Q;
  mapCommand : option string
}.

(** A function call of the model, by the three declared tools; a call of
    any other name carries nothing that the application looks at. *)
Inductive FunctionCall : Type :=
| controlApp (args : ControlArgs)
| getUserLocation
| reportIncident (type : DisasterType) (description : string)
| otherCall (name : string).

(** What the service answers: [text], [functionCalls] and
    [candidates?.[0]?.groundingMetadata]. *)
Record GenerateContentResponse : Type := {
  text : option string;
  functionCalls : option (list FunctionCall);
  groundingMetadata : option Grounding
}.

Inductive Reply : Type :=
| Threw
| Answered (response : GenerateContentResponse).

Inductive Client : Type := GoogleGenAI (apiKey : string).

Record ChatResponse : Type := {
  chat_text : string;
  functionCall : option FunctionCall;
  chat_grounding : option Grounding
}.

(** [Array.prototype.findIndex] *)
Fixpoint findIndex {A} (p : A -> bool) (l : list A) : Z :=
  match l with
  | [] => -1
  | x :: l' =>
      if p x then 0
      else let i := findIndex p l' in if i <? 0 then -1 else i + 1
  end.

(** [Array.prototype.filter] with a callback that looks at the index. *)
Fixpoint filterFrom {A} (i : Z) (p : A -> Z -> bool) (l : list A) : list A :=
  match l with
  | [] => []
  | x :: l' => if p x i then x :: filterFrom (i + 1) p l' else filterFrom (i + 1) p l'
  end.

Definition filteri {A} (p : A -> Z -> bool) (l : list A) : list A :=
  filterFrom 0 p l.

(** [Array.prototype.map] with a callback that looks at the index and may
    throw: [None] as soon as one call throws. *)
Fixpoint mapFrom {A B} (i : Z) (f : A -> Z -> option B) (l : list A)
  : option (list B) :=
  match l with
  | [] => Some []
  | x :: l' =>
      match f x i with
      | None => None
      | Some y =>
          match mapFrom (i + 1) f l' with
          | None => None
          | Some ys => Some (y :: ys)
          end
      end
  end.

(** [a === b] on two property values.  Two Dates are two objects. *)
Definition strictEq (a b : option jsval) : bool :=
  match a, b with
  | None, None => true
  | Some VNull, Some VNull => true
  | Some (VStr s), Some (VStr s') => String.eqb s s'
  | _, _ => false
  end.

(** The number in a template literal. *)
Definition showZ (z : Z) : string := NilZero.string_of_int (Z.to_int z).

(** [chunk.web?.uri && chunk.web?.title] *)
Definition hasUriAndTitle (c : Chunk) : bool :=
  match web c with
  | Some w =>
      match uri w, chunk_title w with
      | Some u, Some t => JS.truthy u && JS.truthy t
      | _, _ => false
      end
  | None => false
  end.

(** The deduplication and the cap at the end of [fetchRealTimeNews]. *)
Definition unique (items : list NewsItem) : list NewsItem :=
  filteri (fun item index =>
             index =? findIndex (fun t => strictEq (url t) (url item)) items)
          items.

Definition slice_0_10 {A} (l : list A) : list A := firstn 10 l.

Section Gateway.

(** [process.env.API_KEY]; the behaviour of the service, which may
    depend on everything that happened before the request; the host
    name of a URL, [None] when [new URL] throws. *)
Variable API_KEY : option string.
Variable service : World -> Request -> Reply.
Variable hostname : string -> option string.
(** [JSON.parse(text) as PredictionResult], [None] when it throws. *)
Variable parsePrediction : string -> option PredictionResult.

Definition initializeGemini : M (option Client) :=
  match API_KEY with
  | Some apiKey =>
      if JS.truthy apiKey then ret (Some (GoogleGenAI apiKey))
      else emit (Logged "API_KEY is missing from environment variables") ;;
           ret None
  | None =>
      emit (Logged "API_KEY is missing from environment variables") ;;
      ret None
  end.

(** [ai.models.generateContent] and [chat.sendMessage]: the request
    leaves the browser, the service answers or the call throws. *)
Definition send (ai : Client) (r : Request) : M Reply :=
  emit (Sent r) ;;
  fun w => (service w r, w).

Definition analyzeDisasterImage (base64Image : string)
  : M (option PredictionResult) :=
  ai <- initializeGemini ;;
  match ai with
  | None => ret None
  | Some ai =>
      reply <- send ai (AnalyzeImage base64Image) ;;
      match reply with
      | Answered response =>
          match text response with
          | Some t =>
              if JS.truthy t then
                match parsePrediction t with
                | Some p => ret (Some p)
                | None =>
                    emit (Logged "Error analyzing image with Gemini:") ;;
                    ret None
                end
              else ret None
          | None => ret None
          end
      | Threw =>
          emit (Logged "Error analyzing image with Gemini:") ;;
          ret None
      end
  end.

Definition generateEmergencyPlanText (context : string) : M string :=
  ai <- initializeGemini ;;
  match ai with
  | None => ret "AI Service Unavailable"
  | Some ai =>
      reply <- send ai (PlanText
        ("Generate a concise, step-by-step emergency evacuation and resource plan for the following situation: "
           ++ context ++ ". Include specific resource allocation advice.")) ;;
      match reply with
      | Answered response =>
          match text response with
          | Some t => ret (if JS.truthy t then t else "Could not generate plan.")
          | None => ret "Could not generate plan."
          end
      | Threw => emit (Logged "error") ;; ret "Error generating plan."
      end
  end.

Definition chatWithAssistant (history : list Turn) (newMessage : string)
    (userLocation : option Coordinates) : M ChatResponse :=
  ai <- initializeGemini ;;
  match ai with
  | None => ret {| chat_text := "System offline."; functionCall := None;
                   chat_grounding := None |}
  | Some ai =>
      reply <- send ai (ChatMessage history newMessage userLocation) ;;
      match reply with
      | Answered result =>
          let funcCallData :=
            match functionCalls result with
            | Some (call :: _) => Some call
            | _ => None
            end in
          ret {| chat_text := match text result with
                              | Some t => t
                              | None => ""
                              end;
                 functionCall := funcCallData;
                 chat_grounding := groundingMetadata result |}
      | Threw =>
          emit (Logged "error") ;;
          ret {| chat_text := "Communication error."; functionCall := None;
                 chat_grounding := None |}
      end
  end.

(** The news item of one grounding chunk; [None] when [new URL] throws. *)
Definition newsItemOfChunk (t : Z) (chunk : Chunk) (index : Z)
  : option NewsItem :=
  match web chunk with
  | Some w =>
      match uri w, chunk_title w with
      | Some u, Some ti =>
          match hostname u with
          | Some h =>
              Some (mkNews
                (VStr ("live-" ++ showZ index ++ "-" ++ showZ t))
                (VStr ti)
                (VStr "Live report retrieved from global monitoring network.")
                (VStr (JS.replace "www." "" h))
                (VDate (Some t))
                None
                (Some (VStr u)))
          | None => None
          end
      | _, _ => None
      end
  | None => None
  end.

Definition fetchRealTimeNews : M (list NewsItem) :=
  ai <- initializeGemini ;;
  match ai with
  | None => ret []
  | Some ai =>
      reply <- send ai NewsSearch ;;
      match reply with
      | Answered response =>
          match groundingMetadata response with
          | Some {| groundingChunks := Some chunks |} =>
              t <- now ;;
              match mapFrom 0 (newsItemOfChunk t)
                            (filter hasUriAndTitle chunks) with
              | Some items => ret (slice_0_10 (unique items))
              | None => emit (Logged "News fetch error:") ;; ret []
              end
          | _ => ret []
          end
      | Threw => emit (Logged "News fetch error:") ;; ret []
      end
  end.

End Gateway.

End Gemini.

(* ================================================================== *)
(** ** components/Aiden.tsx: [speak] and [handleSend] *)
(* ================================================================== *)

Module Aiden.
Import Types Browser Gemini.
Local Open Scope js_scope.

Inductive Sender : Type := user | ai.

Record Message : Type := {
  msg_text : string;
  sender : Sender;
  msg_grounding : option Grounding
}.

Inductive SimulationType : Type := SIM_NONE | SIM_FLOOD | SIM_FIRE | SIM_STORM.

(** The React state of the component that [handleSend] reads or sets. *)
Record State : Type := mkState {
  messages : list Message;
  inputText : string;
  isProcessing : bool;
  alertMode : bool;
  locationRequest : bool;
  userCoords : option Coordinates;
  isGuiding : bool;
  simMode : SimulationType
}.

(** The component on its page: its own state and the browser around it. *)
Record Page : Type := mkPage { ui : State; world : World }.

Definition C (A : Type) : Type := ST Page A.

(** Code of the browser, run from the component. *)
Definition lift {A} (m : M A) : C A := fun p =>
  let (a, w) := m (world p) in (a, mkPage (ui p) w).

Definition getState : C State := fun p => (ui p, p).

Definition setState (f : State -> State) : C unit := fun p =>
  (tt, mkPage (f (ui p)) (world p)).

(** [setMessages(prev => [...prev, m])] *)
Definition addMessage (m : Message) : C unit :=
  setState (fun s => mkState (messages s ++ [m])%list (inputText s)
    (isProcessing s) (alertMode s) (locationRequest s) (userCoords s)
    (isGuiding s) (simMode s)).

Definition setIsProcessing (b : bool) : C unit :=
  setState (fun s => mkState (messages s) (inputText s) b (alertMode s)
    (locationRequest s) (userCoords s) (isGuiding s) (simMode s)).

Definition setAlertMode (b : bool) : C unit :=
  setState (fun s => mkState (messages s) (inputText s) (isProcessing s) b
    (locationRequest s) (userCoords s) (isGuiding s) (simMode s)).

Definition setLocationRequest (b : bool) : C unit :=
  setState (fun s => mkState (messages s) (inputText s) (isProcessing s)
    (alertMode s) b (userCoords s) (isGuiding s) (simMode s)).

Definition setIsGuiding (b : bool) : C unit :=
  setState (fun s => mkState (messages s) (inputText s) (isProcessing s)
    (alertMode s) (locationRequest s) (userCoords s) b (simMode s)).

Definition setSimMode (m : SimulationType) : C unit :=
  setState (fun s => mkState (messages s) (inputText s) (isProcessing s)
    (alertMode s) (locationRequest s) (userCoords s) (isGuiding s) m).

Definition when (b : bool) (c : C unit) : C unit := if b then c else ret tt.

Definition speak (text : string) : C unit :=
  available <- lift hasSpeech ;;
  when available
    (lift (emit SpeechCancelled) ;;
     when (JS.truthy text) (lift (emit (Uttered text)))).

Definition triggerGuiding : C unit :=
  setIsGuiding true ;;
  lift (emit (TimerSet 2500 GuidingOff)).

Definition validRoutes : list string :=
  ["/"; "/map"; "/prediction"; "/simulation"; "/emergency-plan"; "/ar-view";
   "/settings"; "/contacts"].

(** [validRoutes.includes(r)] *)
Definition isValidRoute (r : string) : bool :=
  existsb (String.eqb r) validRoutes.

(** [a || b] on strings. *)
Definition orElse (a b : string) : string := if JS.truthy a then a else b.

(** An optional string inside a template literal. *)
Definition showOpt (o : option string) : string :=
  match o with
  | Some s => s
  | None => "undefined"
  end.

Definition showType (t : DisasterType) : string :=
  match t with
  | FLOOD => "FLOOD"
  | FIRE => "FIRE"
  | EARTHQUAKE => "EARTHQUAKE"
  | LANDSLIDE => "LANDSLIDE"
  | STORM => "STORM"
  | NONE => "NONE"
  end.

(** [o === s] for an optional string property. *)
Definition isStr (o : option string) (s : string) : bool :=
  match o with
  | Some s' => String.eqb s' s
  | None => false
  end.

(** [window.location.hash !== h] *)
Definition notAt (h : string) : C bool :=
  here <- lift getHash ;;
  ret (negb (String.eqb here h)).

(** The five [if]s of the [controlApp] branch.  Each returns the
    [feedbackText] that it leaves behind. *)

Definition onNavigate (args : ControlArgs) (feedbackText : string) : C string :=
  match route args with
  | Some r =>
      if String.eqb (action args) "NAVIGATE" && JS.truthy r then
        let targetRoute := JS.trim r in
        if isValidRoute targetRoute then
          triggerGuiding ;;
          lift (navigate targetRoute) ;;
          ret (orElse feedbackText
                 ("Routing to "
                    ++ orElse (JS.replace "/" "" targetRoute) "Dashboard"
                    ++ "."))
        else ret feedbackText
      else ret feedbackText
  | None => ret feedbackText
  end.

Definition onSetAlertMode (args : ControlArgs) (feedbackText : string) : C string :=
  if String.eqb (action args) "SET_ALERT_MODE" then
    let isActive := match alertActive args with
                    | Some true => true
                    | _ => false
                    end in
    setAlertMode isActive ;;
    ret (orElse feedbackText
           (if isActive then "Red Alert activated." else "Alerts cancelled."))
  else ret feedbackText.

Definition onSimulationControl (args : ControlArgs) (feedbackText : string)
  : C string :=
  if String.eqb (action args) "SIMULATION_CONTROL" then
    away <- notAt "#/simulation" ;;
    when (isStr (simulationCommand args) "START" && away)
      (lift (navigate "/simulation") ;;
       lift (delay 500)) ;;
    lift (dispatchEvent
            (AidenSim (simulationCommand args) (intensityValue args))) ;;
    ret (orElse feedbackText
           ("Simulation protocol " ++ showOpt (simulationCommand args)
              ++ " executed."))
  else ret feedbackText.

Definition onMapControl (args : ControlArgs) (feedbackText : string) : C string :=
  if String.eqb (action args) "MAP_CONTROL" then
    away <- notAt "#/map" ;;
    when away
      (lift (navigate "/map") ;;
       lift (delay 500)) ;;
    lift (dispatchEvent (AidenMap (mapCommand args))) ;;
    ret (orElse feedbackText
           ("Map view updating: " ++ showOpt (mapCommand args) ++ "."))
  else ret feedbackText.

Definition onOpenReport (args : ControlArgs) (feedbackText : string) : C string :=
  if String.eqb (action args) "OPEN_REPORT" then
    away <- notAt "#/map" ;;
    when away
      (lift (navigate "/map") ;;
       lift (delay 500)) ;;
    lift (dispatchEvent AidenReportUi) ;;
    ret (orElse feedbackText "Opening report interface.")
  else ret feedbackText.

(** [if (name === 'controlApp') { ... }] *)
Definition onControlApp (response : ChatResponse) (args : ControlArgs) : C unit :=
  let feedbackText := chat_text response in
  feedbackText <- onNavigate args feedbackText ;;
  feedbackText <- onSetAlertMode args feedbackText ;;
  feedbackText <- onSimulationControl args feedbackText ;;
  feedbackText <- onMapControl args feedbackText ;;
  feedbackText <- onOpenReport args feedbackText ;;
  when (negb (JS.truthy (chat_text response)) && JS.truthy feedbackText)
    (addMessage {| msg_text := feedbackText; sender := ai;
                   msg_grounding := None |} ;;
     speak feedbackText).

Section Component.

Variable loaded : Z.
Variable host : string -> option Z.
Variable API_KEY : option string.
Variable service : World -> Request -> Reply.

(** What [handleSend] does with the response of the gateway: from
    [if (response.text)] to the end of the function. *)
Definition onResponse (response : ChatResponse) : C unit :=
  when (JS.truthy (chat_text response))
    (addMessage {| msg_text := chat_text response; sender := ai;
                   msg_grounding := chat_grounding response |} ;;
     speak (chat_text response)) ;;
  match functionCall response with
  | Some (controlApp args) =>
      onControlApp response args ;;
      setIsProcessing false
  | Some getUserLocation =>
      let requestMsg :=
        orElse (chat_text response)
          "I need to access your GPS coordinates to find accurate local information." in
      addMessage {| msg_text := requestMsg; sender := ai;
                    msg_grounding := None |} ;;
      speak requestMsg ;;
      setLocationRequest true ;;
      setIsProcessing false
  | Some (reportIncident type description) =>
      s <- getState ;;
      let report :=
        {| in_type := type; in_description := description;
           in_coordinates :=
             match userCoords s with
             | Some c => c
             | None => {| lat := 34.0522; lng := -118.2437 |}
             end |} in
      lift (Api.createReport loaded host report) ;;
      let feedback :=
        orElse (chat_text response)
          ("Report filed: " ++ showType type ++ " - " ++ description
             ++ ". Broadcasted to local network.") in
      addMessage {| msg_text := feedback; sender := ai;
                    msg_grounding := None |} ;;
      speak feedback ;;
      lift (emit (TimerSet 3000 (NavigateTo "/map"))) ;;
      setIsProcessing false
  | Some (otherCall _) => setIsProcessing false
  | None => setIsProcessing false
  end.

(** The history sent to the model: every message but a leading one of
    the assistant. *)
Definition historyOf (ms : list Message) : list Turn :=
  map (fun m => {| role := match sender m with
                           | user => "user"
                           | ai => "model"
                           end;
                   part := msg_text m |})
      (filteri (fun m i => negb ((i =? 0) && match sender m with
                                             | ai => true
                                             | user => false
                                             end)) ms).

Definition handleSend (text : string) : C unit :=
  if negb (JS.truthy (JS.trim text)) then ret tt
  else
    let userMsg := text in
    s <- getState ;;
    addMessage {| msg_text := userMsg; sender := user;
                  msg_grounding := None |} ;;
    setIsProcessing true ;;
    let lowerMsg := JS.toLowerCase userMsg in
    when (JS.includes "flood" lowerMsg) (setSimMode SIM_FLOOD) ;;
    when (JS.includes "fire" lowerMsg || JS.includes "wildfire" lowerMsg)
      (setSimMode SIM_FIRE) ;;
    when (JS.includes "storm" lowerMsg || JS.includes "hurricane" lowerMsg)
      (setSimMode SIM_STORM) ;;
    when (JS.includes "stop" lowerMsg || JS.includes "clear simulation" lowerMsg)
      (setSimMode SIM_NONE) ;;
    response <- lift (chatWithAssistant API_KEY service
                        (historyOf (messages s)) userMsg (userCoords s)) ;;
    onResponse response.

End Component.

End Aiden.

(* ================================================================== *)
(** ** components/Aiden.tsx: [handleLocationResponse] *)
(* ================================================================== *)

Module AidenLocation.
Import Types Browser Gemini Aiden.
Local Open Scope js_scope.






(** [if (response.text) { setMessages(...); speak(response.text); }] *)
Definition showReply (response : ChatResponse) (g : option Grounding) : C unit :=
  when (JS.truthy (chat_text response))
    (addMessage {| msg_text := chat_text response; sender := ai;
                   msg_grounding := g |} ;;
     speak (chat_text response)).

Section Component.

Variable API_KEY : option string.
Variable service : World -> Request -> Reply.

(** [navigator.geolocation]: absent, or a [getCurrentPosition] that
    resolves with the coordinates of a position or rejects ([None]). *)
Variable geolocation : option (World -> option Coordinates).

(** A number inside a template literal. *)
Variable showNumber : Q -> string.


End Component.

End AidenLocation.

(* ================================================================== *)
(** ** The pages that call the store and the gateway *)
(* ================================================================== *)

(** A mounted component: its React state and the browser around it. *)
Module React.
Import Browser.

Record Mounted (S : Type) : Type := mount { state : S; browser : World }.

Arguments mount {S}.
Arguments state {S}.
Arguments browser {S}.

Definition R (S A : Type) : Type := ST (Mounted S) A.

Definition lift {S A} (m : M A) : R S A := fun p =>
  let (a, w) := m (browser p) in (a, mount (state p) w).

Definition getState {S} : R S S := fun p => (state p, p).

Definition setState {S} (f : S -> S) : R S unit := fun p =>
  (tt, mount (f (state p)) (browser p)).

Definition when {S} (b : bool) (c : R S unit) : R S unit :=
  if b then c else ret tt.

End React.

(** *** components/NewsFeed.tsx *)

Module NewsFeed.
Import Types Browser Gemini React.
Local Open Scope js_scope.

Record State : Type := mkState {
  news : list NewsItem;
  isLoading : bool;
  isLive : bool
}.

Definition setNews (l : list NewsItem) : R State unit :=
  setState (fun s => mkState l (isLoading s) (isLive s)).

Definition setIsLoading (b : bool) : R State unit :=
  setState (fun s => mkState (news s) b (isLive s)).

Definition setIsLive (b : bool) : R State unit :=
  setState (fun s => mkState (news s) (isLoading s) b).

Section Component.

Variable loaded : Z.
Variable host : string -> option Z.
Variable API_KEY : option string.
Variable service : World -> Request -> Reply.
Variable hostname : string -> option string.

(** Neither [fetchRealTimeNews] nor [api.getNews] throws, so the [catch]
    of the source is never entered; the [finally] is the last line. *)
Definition fetchNews : R State unit :=
  setIsLoading true ;;
  liveNews <- lift (fetchRealTimeNews API_KEY service hostname) ;;
  (if (0 <? List.length liveNews)%nat then
     setNews liveNews ;;
     setIsLive true
   else
     mockNews <- lift (Api.getNews loaded host) ;;
     setNews mockNews ;;
     setIsLive false) ;;
  setIsLoading false.

End Component.

End NewsFeed.

(** *** pages/Contacts.tsx *)

Module ContactsPage.
Import Types Browser React.
Local Open Scope js_scope.

(** The state that [loadContacts], [handleAddContact] and [handleDelete]
    read or set. *)
Record State : Type := mkState {
  contacts : list Contact;
  loading : bool;
  isAdding : bool;
  newContact : ContactInput
}.

Definition setContacts (l : list Contact) : R State unit :=
  setState (fun s => mkState l (loading s) (isAdding s) (newContact s)).

Definition setLoading (b : bool) : R State unit :=
  setState (fun s => mkState (contacts s) b (isAdding s) (newContact s)).

Definition setIsAdding (b : bool) : R State unit :=
  setState (fun s => mkState (contacts s) (loading s) b (newContact s)).

Definition setNewContact (c : ContactInput) : R State unit :=
  setState (fun s => mkState (contacts s) (loading s) (isAdding s) c).

Section Component.

Variable loaded : Z.

(** [window.confirm]: what the user answers to a question. *)
Variable confirm : string -> bool.

Definition loadContacts : R State unit :=
  setLoading true ;;
  data <- lift (Api.getContacts loaded) ;;
  setContacts data ;;
  setLoading false.

Definition handleAddContact : R State unit :=
  s <- getState ;;
  if negb (JS.truthy (in_name (newContact s)))
     || negb (JS.truthy (in_phone (newContact s)))
  then ret tt
  else
    lift (Api.addContact loaded (newContact s)) ;;
    setNewContact {| in_name := ""; in_relation := ""; in_phone := "";
                     in_email := "" |} ;;
    setIsAdding false ;;
    loadContacts.

Definition handleDelete (id : string) : R State unit :=
  if confirm "Are you sure you want to delete this contact?" then
    lift (Api.deleteContact loaded id) ;;
    loadContacts
  else ret tt.

End Component.

End ContactsPage.

(** *** pages/EmergencyPlan.tsx *)

Module EmergencyPlan.
Import Types Browser Gemini React.
Local Open Scope js_scope.

(** The state that [handleGenerate] reads or sets. *)
Record State : Type := mkState {
  context : string;
  plan : string;
  loading : bool
}.

Definition setPlan (text : string) : R State unit :=
  setState (fun s => mkState (context s) text (loading s)).

Definition setLoading (b : bool) : R State unit :=
  setState (fun s => mkState (context s) (plan s) b).

Section Component.

Variable API_KEY : option string.
Variable service : World -> Request -> Reply.

Definition handleGenerate : R State unit :=
  s <- getState ;;
  if negb (JS.truthy (context s)) then ret tt
  else
    setLoading true ;;
    text <- lift (generateEmergencyPlanText API_KEY service (context s)) ;;
    setPlan text ;;
    setLoading false.

End Component.

End EmergencyPlan.

(** *** pages/Simulation.tsx: the listener of ['aiden-sim'] and the timer *)

Module Simulation.
Import Types Browser React.
Local Open Scope js_scope.

(** The state that the listener and the timer set. *)
Record State : Type := mkState {
  intensity : Q;
  isPlaying : bool
}.

Definition setIntensity (f : Q -> Q) : R State unit :=
  setState (fun s => mkState (f (intensity s)) (isPlaying s)).

Definition setIsPlaying (b : bool) : R State unit :=
  setState (fun s => mkState (intensity s) b).

(** [command === s] for the [command] of the event's detail. *)
Definition commandIs (command : option string) (s : string) : bool :=
  match command with
  | Some c => String.eqb c s
  | None => false
  end.

(** [handleAIControl], on the detail of the event.  [console.log] writes
    its line to the console as [console.error] does. *)
Definition handleAIControl (command : option string) (aiIntensity : option Q)
  : R State unit :=
  lift (emit (Logged "Sim Control Received:")) ;;
  when (commandIs command "START") (setIsPlaying true) ;;
  when (commandIs command "STOP") (setIsPlaying false) ;;
  when (commandIs command "RESET") (setIntensity (fun _ => 0%Q)) ;;
  match aiIntensity with
  | Some v =>
      when (commandIs command "SET_INTENSITY") (setIntensity (fun _ => v))
  | None => ret tt
  end.

(** What the page does with an event dispatched on [window]: it listens
    to ['aiden-sim'] only. *)
Definition onWindowEvent (e : WindowEvent) : R State unit :=
  match e with
  | AidenSim command aiIntensity => handleAIControl command aiIntensity
  | _ => ret tt
  end.

(** One turn of the interval that runs while [isPlaying]:
    [setIntensity(prev => (prev >= 100 ? 0 : prev + 0.5))]. *)
Definition tick : R State unit :=
  setIntensity (fun prev => if Qle_bool 100 prev then 0 else prev + 0.5)%Q.

End Simulation.

(* ================================================================== *)
(** ** Vocabulary of the statements *)
(* ================================================================== *)

Module Spec.
Import Types Browser.

(** The time values whose year [toISOString] writes with four digits:
    from 0000-01-01T00:00:00.000Z to 9999-12-31T23:59:59.999Z. *)
Definition T_MIN : Z := -62167219200000.
Definition T_MAX : Z := 253402300799999.

Record fieldsInRange (f : JS.DateFields) : Prop := {
  month_range : 1 <= JS.fMonth f <= 12;
  date_range : 1 <= JS.fDate f <= JS.DaysInMonth (JS.fYear f) (JS.fMonth f);
  date_le_31 : JS.fDate f <= 31;
  hour_range : 0 <= JS.fHour f <= 23;
  min_range : 0 <= JS.fMin f <= 59;
  sec_range : 0 <= JS.fSec f <= 59;
  ms_range : 0 <= JS.fMs f <= 999
}.

(** The shape of what [crypto.randomUUID] returns: 36 characters, hyphens
    after the 8th, 12th, 16th and 20th of 32 lower-case hexadecimal
    digits. *)
Definition is_hex (c : ascii) : bool :=
  let n := N_of_ascii c in
  JS.is_digit c || ((97 <=? n) && (n <=? 102))%N.

Fixpoint shaped (pattern s : string) : bool :=
  match pattern, s with
  | EmptyString, EmptyString => true
  | String "x" pattern', String c s' => is_hex c && shaped pattern' s'
  | String p pattern', String c s' => Ascii.eqb p c && shaped pattern' s'
  | _, _ => false
  end.

Definition isUUID (s : string) : bool :=
  shaped "xxxxxxxx-xxxx-xxxx-xxxx-xxxxxxxxxxxx" s.

(** The generator of the browser returns UUIDs, and the value that it
    returns next is none of those that it returned before. *)
Definition uuidsShaped (w : World) : Prop :=
  forall k, isUUID (entropy w k) = true.

Definition freshDraw (w : World) : Prop :=
  forall k, (k < drawn w)%nat -> entropy w k <> entropy w (drawn w).

(** An identifier that the application gave out: that of a fixture, or a
    value that the generator returned. *)
Definition issued (w : World) (i : json) : Prop :=
  i = JStr "r1" \/ i = JStr "r2"
  \/ exists k, (k < drawn w)%nat /\ i = JStr (entropy w k).

(** The world [ms] later, with [s] in localStorage. *)
Definition later (ms : Z) (s : Storage) (w : World) : World :=
  mkWorld s (clock w + ms) (entropy w) (drawn w) (hash w)
          (speechSynthesis w) (trace w).

(** The events dispatched on [window] in a trace, oldest first. *)
Fixpoint dispatched (tr : list (Z * Effect)) : list WindowEvent :=
  match tr with
  | [] => []
  | (_, Dispatched e) :: tr' => e :: dispatched tr'
  | _ :: tr' => dispatched tr'
  end.

(** The requests sent to the model in a trace. *)
Fixpoint sent (tr : list (Z * Effect)) : list Request :=
  match tr with
  | [] => []
  | (_, Sent r) :: tr' => r :: sent tr'
  | _ :: tr' => sent tr'
  end.

(** The navigations in a trace. *)
Fixpoint navigations (tr : list (Z * Effect)) : list string :=
  match tr with
  | [] => []
  | (_, Navigated r) :: tr' => r :: navigations tr'
  | _ :: tr' => navigations tr'
  end.

Section Store.

Variable loaded : Z.
Variable host : string -> option Z.

(** What [init] leaves in localStorage: the slots that were empty hold
    the fixtures, the others are as they were. *)
Definition seeded (s : Storage) : Storage :=
  mkStorage
    (Some match REPORTS s with
          | Some doc => doc
          | None => map (Api.mapReport Api.stringify) (Constants.MOCK_REPORTS loaded)
          end)
    (Some match RESOURCES s with
          | Some doc => doc
          | None => Constants.MOCK_RESOURCES
          end)
    (Some match ALERTS s with
          | Some doc => doc
          | None => map (Api.mapAlert Api.stringify) (Constants.MOCK_ALERTS loaded)
          end)
    (Some match NEWS s with
          | Some doc => doc
          | None => map (Api.mapNews Api.stringify) (Constants.MOCK_NEWS loaded)
          end)
    (Some match CONTACTS s with
          | Some doc => doc
          | None => Constants.MOCK_CONTACTS
          end).

(** The reports and the contacts that a read finds. *)
Definition reportsOf (s : Storage) : list (UserReportOf json) :=
  match REPORTS (seeded s) with
  | Some doc => doc
  | None => []
  end.

Definition contactsOf (s : Storage) : list Contact :=
  match CONTACTS (seeded s) with
  | Some doc => doc
  | None => []
  end.

(** Every stored report bears an identifier that the application gave
    out: so it is in a store that only the application wrote. *)
Definition issuedOnly (w : World) : Prop :=
  Forall (fun r => issued w (id r)) (reportsOf (localStorage w)).

(** What a property becomes when it is read with [dateReviver] and
    written again. *)
Definition rewritten (v : json) : json := Api.stringify (Api.dateReviver host v).

(** A stored report whose properties a read and a write leave alone. *)
Definition stable (r : UserReportOf json) : Prop :=
  Api.mapReport rewritten r = r.

(** The objects that [JSON.parse] with [dateReviver] makes of a stored
    collection, and the document that [JSON.stringify] makes of them. *)
Definition revived (doc : list (UserReportOf json)) : list UserReport :=
  map (Api.mapReport (Api.dateReviver host)) doc.

Definition written (l : list UserReport) : list (UserReportOf json) :=
  map (Api.mapReport Api.stringify) l.

(** A stored report as the application writes it: nothing in it changes
    when it is read and written again, and its identifier is a string
    that [dateReviver] leaves a string. *)
Definition wellFormed (r : UserReportOf json) : Prop :=
  stable r /\ exists s, id r = JStr s /\ JS.isoPrefix s = false.

(** [r] with its [verified] flag set when its identifier is [reportId]. *)
Definition verifiedIn (reportId : string) (r : UserReportOf json)
  : UserReportOf json :=
  match id r with
  | JStr s =>
      if String.eqb s reportId
      then mkReport (id r) (type r) (description r) (timestamp r)
                    (coordinates r) true
      else r
  | JNull => r
  end.

Definition withReports (doc : list (UserReportOf json)) (s : Storage) : Storage :=
  mkStorage (Some doc) (RESOURCES s) (ALERTS s) (NEWS s) (CONTACTS s).

Definition withContacts (doc : list Contact) (s : Storage) : Storage :=
  mkStorage (REPORTS s) (RESOURCES s) (ALERTS s) (NEWS s) (Some doc).

End Store.

End Spec.

(** Vocabulary for the gateway and the dispatcher. *)
Module Words.
Import Types Browser Gemini Aiden.

(** A news item whose link is a string, as [fetchRealTimeNews] builds
    them. *)
Definition hasLink (n : NewsItem) : Prop := exists u, url n = Some (VStr u).

(** The first item of every link, in the order of the list: an item is
    kept unless one of the items before it has its link. *)
Fixpoint firstOccurrences (before items : list NewsItem) : list NewsItem :=
  match items with
  | [] => []
  | item :: rest =>
      if existsb (fun t => strictEq (url t) (url item)) before
      then firstOccurrences (before ++ [item]) rest
      else item :: firstOccurrences (before ++ [item]) rest
  end.

(** [process.env.API_KEY] is undefined or empty. *)
Definition noCredential (API_KEY : option string) : Prop :=
  API_KEY = None \/ API_KEY = Some "".

(** The utterances in a trace. *)
Fixpoint uttered (tr : list (Z * Effect)) : list string :=
  match tr with
  | [] => []
  | (_, Uttered text) :: tr' => text :: uttered tr'
  | _ :: tr' => uttered tr'
  end.

(** Does the dispatcher act on a [controlApp] call?  A navigation needs a
    route that is in the list once it is trimmed; the four other actions
    are always carried out. *)
Definition executes (args : ControlArgs) : bool :=
  (String.eqb (action args) "NAVIGATE"
   && match route args with
      | Some r => isValidRoute (JS.trim r)
      | None => false
      end)
  || String.eqb (action args) "SET_ALERT_MODE"
  || String.eqb (action args) "SIMULATION_CONTROL"
  || String.eqb (action args) "MAP_CONTROL"
  || String.eqb (action args) "OPEN_REPORT".

(** The acknowledgement of a navigation to [targetRoute]. *)
Definition routing (targetRoute : string) : string :=
  "Routing to " ++ orElse (JS.replace "/" "" targetRoute) "Dashboard" ++ ".".

(** The feedback that the dispatcher synthesizes for a call that it
    carries out. *)
Definition acknowledgement (args : ControlArgs) : string :=
  if String.eqb (action args) "NAVIGATE" then
    routing (JS.trim (match route args with Some r => r | None => "" end))
  else if String.eqb (action args) "SET_ALERT_MODE" then
    match alertActive args with
    | Some true => "Red Alert activated."
    | _ => "Alerts cancelled."
    end
  else if String.eqb (action args) "SIMULATION_CONTROL" then
    "Simulation protocol " ++ showOpt (simulationCommand args) ++ " executed."
  else if String.eqb (action args) "MAP_CONTROL" then
    "Map view updating: " ++ showOpt (mapCommand args) ++ "."
  else "Opening report interface.".

(** What [speak] adds to the trace at time [t]. *)
Definition speech (available : bool) (t : Z) (text : string)
  : list (Z * Effect) :=
  if available then
    (t, SpeechCancelled) :: (if JS.truthy text then [(t, Uttered text)] else [])
  else [].

Definition fromAssistant (text : string) (g : option Grounding) : Message :=
  {| msg_text := text; sender := ai; msg_grounding := g |}.

(** The assistant messages that one [controlApp] response shows. *)
Definition shown (text : string) (g : option Grounding) (args : ControlArgs)
  : list Message :=
  if JS.truthy text then [fromAssistant text g]
  else if executes args then [fromAssistant (acknowledgement args) None]
  else [].

End Words.

(** A browser to run the code in: nothing stored yet, the clock at
    2024-05-01T10:00:00.000Z, the fixtures built ten minutes before, and an
    engine whose [Date.parse] gives NaN for every string that the standard
    leaves to it. *)
Module Scenario.
Import Types Browser.

Definition loaded : Z := 1714557000000.

Definition noHost (_ : string) : option Z := None.

Definition uuids (n : nat) : string :=
  match n with
  | O => "3b241101-e2bb-4255-8caf-4136c566a962"
  | S O => "9f8b7c6d-5e4f-4a3b-8c2d-1e0f9a8b7c6d"
  | _ => "6ec0bd7f-11c0-43da-975e-2a8ad9ebae0b"
  end.

Definition start : World :=
  mkWorld emptyStorage 1714557600000 uuids 0 "#/" true [].

(** A report whose description is a time written in the date-time string
    format. *)
Definition timed : ReportInput :=
  {| in_type := FIRE; in_description := "2024-05-01T10:00Z";
     in_coordinates := Constants.MAP_CENTER |}.

(** The component as it is mounted, on the dashboard. *)
Definition page : Aiden.Page :=
  Aiden.mkPage
    (Aiden.mkState
       [ {| Aiden.msg_text :=
              "Identity Verified. Interface initialized. Ready for command.";
            Aiden.sender := Aiden.ai; Aiden.msg_grounding := None |} ]
       "" false false false None false Aiden.SIM_NONE)
    start.

(** A [controlApp] call that asks for a navigation and nothing else, in a
    response without narration. *)
Definition navigateTo (route : string) : Gemini.ChatResponse :=
  {| Gemini.chat_text := "";
     Gemini.functionCall :=
       Some (Gemini.controlApp
               {| Gemini.action := "NAVIGATE"; Gemini.route := Some route;
                  Gemini.alertActive := None;
                  Gemini.simulationCommand := None;
                  Gemini.intensityValue := None;
                  Gemini.mapCommand := None |});
     Gemini.chat_grounding := None |}.

Definition startSimulation : Gemini.ChatResponse :=
  {| Gemini.chat_text := "";
     Gemini.functionCall :=
       Some (Gemini.controlApp
               {| Gemini.action := "SIMULATION_CONTROL"; Gemini.route := None;
                  Gemini.alertActive := None;
                  Gemini.simulationCommand := Some "START";
                  Gemini.intensityValue := None;
                  Gemini.mapCommand := None |});
     Gemini.chat_grounding := None |}.

(** Three fetched items, the third with the link of the first. *)
Definition fetched (n : string) (link : string) : NewsItem :=
  mkNews (VStr n) (VStr "Flooding reported")
         (VStr "Live report retrieved from global monitoring network.")
         (VStr "example.org") (VDate (Some 1714557600000)) None
         (Some (VStr link)).

Definition news : list NewsItem :=
  [ fetched "live-0-1714557600000" "https://example.org/flood";
    fetched "live-1-1714557600000" "https://example.org/fire";
    fetched "live-2-1714557600000" "https://example.org/flood" ].

Definition smoke : ReportInput :=
  {| in_type := FIRE; in_description := "Smoke over the east ridge";
     in_coordinates := Constants.MAP_CENTER |}.

End Scenario.

(** Vocabulary for the further properties of the store. *)
Module StoreWords.
Import Types Browser Spec.

(** Does [verifyReport] find [reportId] on a stored report?  It compares
    with the identifier as [dateReviver] read it: a string that looks like
    a date has become a Date, which is identical to no string. *)
Definition bears (reportId : string) (r : UserReportOf json) : bool :=
  match id r with
  | JStr s => String.eqb s reportId && negb (JS.isoPrefix s)
  | JNull => false
  end.

(** The contacts that [deleteContact] keeps. *)
Definition others (id : string) (l : list Contact) : list Contact :=
  filter (fun c => negb (String.eqb (contact_id c) id)) l.

Section Store.

Variable loaded : Z.
Variable host : string -> option Z.

(** What the five reads return in a world. *)
Definition answers (w : World)
  : list UserReport * list EmergencyResource * list Alert * list NewsItem
    * list Contact :=
  (fst (Api.getReports loaded host w), fst (Api.getResources loaded w),
   fst (Api.getAlerts loaded host w), fst (Api.getNews loaded host w),
   fst (Api.getContacts loaded w)).

End Store.

End StoreWords.

(** Vocabulary for the further properties of the gateway. *)
Module GatewayWords.
Import Types Browser Gemini.

(** [process.env.API_KEY] is a string that is not empty. *)
Definition hasCredential (API_KEY : option string) : bool :=
  match API_KEY with
  | Some k => JS.truthy k
  | None => false
  end.

(** The first function call of a reply, when it has one. *)
Definition firstCall (r : GenerateContentResponse) : option FunctionCall :=
  match functionCalls r with
  | Some (call :: _) => Some call
  | _ => None
  end.

(** Two replies that differ at most in the function calls after the
    first. *)
Definition agreeOnFirst (r r' : Reply) : Prop :=
  match r, r' with
  | Threw, Threw => True
  | Answered a, Answered a' =>
      text a = text a' /\ firstCall a = firstCall a'
      /\ groundingMetadata a = groundingMetadata a'
  | _, _ => False
  end.

(** The request of [generateEmergencyPlanText]. *)
Definition planRequest (context : string) : Request :=
  PlanText
    ("Generate a concise, step-by-step emergency evacuation and resource plan for the following situation: "
       ++ context ++ ". Include specific resource allocation advice.").

(** What [fetchRealTimeNews] puts in every item, at time [t]. *)
Definition liveItem (t : Z) (n : NewsItem) : Prop :=
  (exists u, url n = Some (VStr u))
  /\ (exists i, news_id n = VStr ("live-" ++ showZ i ++ "-" ++ showZ t))
  /\ summary n = VStr "Live report retrieved from global monitoring network."
  /\ news_timestamp n = VDate (Some t)
  /\ imageUrl n = None.

(** The world in which the service receives the request [r] that was sent
    from [w]. *)
Definition asked (r : Request) (w : World) : World :=
  mkWorld (localStorage w) (clock w) (entropy w) (drawn w) (hash w)
          (speechSynthesis w) (trace w ++ [(clock w, Sent r)])%list.

End GatewayWords.

(** A search that answers thirteen chunks: one without title, then twelve
    with eleven different links, the third link being the first again. *)
Module Scenes.
Import Types Browser Gemini.

Definition links : list string :=
  [ "https://example.org/flood"; "https://example.org/fire";
    "https://example.org/flood"; "https://example.org/quake";
    "https://example.org/storm"; "https://example.org/slide";
    "https://example.org/surge"; "https://example.org/smoke";
    "https://example.org/levee"; "https://example.org/ridge";
    "https://example.org/coast"; "https://example.org/delta" ].

Definition chunkOf (link : string) : Chunk :=
  {| web := Some {| uri := Some link; chunk_title := Some "Breaking" |} |}.

Definition untitled : Chunk :=
  {| web := Some {| uri := Some "https://example.org/untitled";
                    chunk_title := None |} |}.

Definition chunks : list Chunk := untitled :: map chunkOf links.

Definition answer : GenerateContentResponse :=
  {| text := None; functionCalls := None;
     groundingMetadata := Some {| groundingChunks := Some chunks |} |}.

Definition newsService (_ : World) (_ : Request) : Reply := Answered answer.

Definition hostnames (_ : string) : option string := Some "www.example.org".

Definition itemOf (index : Z) (link : string) : NewsItem :=
  mkNews (VStr ("live-" ++ showZ index ++ "-1714557600000"))
         (VStr "Breaking")
         (VStr "Live report retrieved from global monitoring network.")
         (VStr "example.org") (VDate (Some 1714557600000)) None
         (Some (VStr link)).

Fixpoint numbered (index : Z) (l : list string) : list NewsItem :=
  match l with
  | [] => []
  | link :: l' => itemOf index link :: numbered (index + 1) l'
  end.

(** The twelve items that [fetchRealTimeNews] builds from the chunks. *)
Definition items : list NewsItem := numbered 0 links.

(** A search that answers two chunks, the second with a link that is no
    URL. *)
Definition badLink : string := "not a url".

Definition badChunks : list Chunk :=
  [chunkOf "https://example.org/flood"; chunkOf badLink].

Definition badAnswer : GenerateContentResponse :=
  {| text := None; functionCalls := None;
     groundingMetadata := Some {| groundingChunks := Some badChunks |} |}.

Definition strictHostnames (u : string) : option string :=
  if String.eqb u badLink then None else Some "example.org".

(** A service that is down. *)
Definition down (_ : World) (_ : Request) : Reply := Threw.

(** Two services that answer with a navigation to the map, one of them
    with a report after it. *)
Definition toTheMap : FunctionCall :=
  controlApp {| action := "NAVIGATE"; route := Some "/map";
                alertActive := None; simulationCommand := None;
                intensityValue := None; mapCommand := None |}.

Definition oneCall (_ : World) (_ : Request) : Reply :=
  Answered {| text := Some "On it."; functionCalls := Some [toTheMap];
              groundingMetadata := None |}.

Definition twoCalls (_ : World) (_ : Request) : Reply :=
  Answered {| text := Some "On it.";
              functionCalls := Some [toTheMap; reportIncident FIRE "Smoke"];
              groundingMetadata := None |}.

(** Calls of the assistant. *)
Definition zoomIn : ControlArgs :=
  {| action := "MAP_CONTROL"; route := None; alertActive := None;
     simulationCommand := None; intensityValue := None;
     mapCommand := Some "ZOOM_IN" |}.

Definition simulation (command : string) : ControlArgs :=
  {| action := "SIMULATION_CONTROL"; route := None; alertActive := None;
     simulationCommand := Some command; intensityValue := None;
     mapCommand := None |}.

Definition calling (args : ControlArgs) : ChatResponse :=
  {| chat_text := ""; functionCall := Some (controlApp args);
     chat_grounding := None |}.

(** A new contact. *)
Definition ripley : ContactInput :=
  {| in_name := "Ellen Ripley"; in_relation := "Friend";
     in_phone := "+1 (555) 426-0000"; in_email := "ripley@example.com" |}.

End Scenes.

(** Vocabulary for the further properties of the assistant. *)
Module AidenWords.
Import Types Browser Gemini Aiden Spec.

(** A text of white space only. *)
Fixpoint blank (s : string) : bool :=
  match s with
  | EmptyString => true
  | String c s' => JS.is_space c && blank s'
  end.

(** The simulation that the key words of a message select, in the order
    of their precedence: a message that stops wins over one that names a
    storm, a storm over a fire, a fire over a flood; a message without key
    word leaves the simulation as it is. *)
Definition keywordMode (lowerMsg : string) (before : SimulationType)
  : SimulationType :=
  if JS.includes "stop" lowerMsg || JS.includes "clear simulation" lowerMsg
  then SIM_NONE
  else if JS.includes "storm" lowerMsg || JS.includes "hurricane" lowerMsg
  then SIM_STORM
  else if JS.includes "fire" lowerMsg || JS.includes "wildfire" lowerMsg
  then SIM_FIRE
  else if JS.includes "flood" lowerMsg then SIM_FLOOD
  else before.

(** A message as the model receives it. *)
Definition turnOf (m : Message) : Turn :=
  {| role := match sender m with
             | user => "user"
             | ai => "model"
             end;
     part := msg_text m |}.

Definition fromUser (text : string) : Message :=
  {| msg_text := text; sender := user; msg_grounding := None |}.

(** The text of a response, shown when there is one. *)
Definition narration (text : string) (g : option Grounding) : list Message :=
  if JS.truthy text then [Words.fromAssistant text g] else [].

(** What a trace shows of the timers that were set. *)
Fixpoint timers (tr : list (Z * Effect)) : list (Z * Timer) :=
  match tr with
  | [] => []
  | (_, TimerSet ms t) :: tr' => (ms, t) :: timers tr'
  | _ :: tr' => timers tr'
  end.



(** A relation [R] between the page before and the page after that a
    computation keeps, whatever the page. *)
Definition keeps (R : Page -> Page -> Prop) {A} (c : C A) : Prop :=
  forall p, R p (snd (c p)).

(** The simulation on display is the same. *)
Definition sameSim (p q : Page) : Prop := simMode (ui q) = simMode (ui p).

(** The alert is the same. *)
Definition sameAlert (p q : Page) : Prop := alertMode (ui q) = alertMode (ui p).

(** The store, the generator, the requests sent, and the state of the
    component that no [controlApp] call sets, are the same. *)
Definition quiet (p q : Page) : Prop :=
  localStorage (world q) = localStorage (world p)
  /\ entropy (world q) = entropy (world p)
  /\ drawn (world q) = drawn (world p)
  /\ sent (trace (world q)) = sent (trace (world p))
  /\ userCoords (ui q) = userCoords (ui p)
  /\ locationRequest (ui q) = locationRequest (ui p)
  /\ simMode (ui q) = simMode (ui p)
  /\ inputText (ui q) = inputText (ui p).

End AidenWords.

(** Vocabulary for the properties of the pages. *)
Module PageWords.
Import Types Browser React.
Local Open Scope js_scope.

(** The contact form as it is cleared. *)
Definition emptyForm : ContactInput :=
  {| in_name := ""; in_relation := ""; in_phone := ""; in_email := "" |}.

(** Is the contact form filled in as [handleAddContact] wants it: a name
    and a phone number? *)
Definition filled (c : ContactInput) : bool :=
  JS.truthy (in_name c) && JS.truthy (in_phone c).

(** [n] turns of the interval of the simulation. *)
Fixpoint ticks (n : nat) : R Simulation.State unit :=
  match n with
  | O => ret tt
  | S n' => ticks n' ;; Simulation.tick
  end.

End PageWords.

(* ================================================================== *)
(** ** The built-ins on a few inputs *)
(* ================================================================== *)

Example toISOString_epoch : JS.toISOString 0 = "1970-01-01T00:00:00.000Z".
Proof. reflexivity. Qed.

Example toISOString_before_epoch :
  JS.toISOString (-1) = "1969-12-31T23:59:59.999Z".
Proof. reflexivity. Qed.

Example toISOString_2024 :
  JS.toISOString 1714557600000 = "2024-05-01T10:00:00.000Z".
Proof. reflexivity. Qed.

Example toISOString_first :
  JS.toISOString Spec.T_MIN = "0000-01-01T00:00:00.000Z".
Proof. reflexivity. Qed.

Example toISOString_last :
  JS.toISOString Spec.T_MAX = "9999-12-31T23:59:59.999Z".
Proof. reflexivity. Qed.

Example toISOString_year_10000 :
  JS.toISOString (Spec.T_MAX + 1) = "+010000-01-01T00:00:00.000Z".
Proof. reflexivity. Qed.

Example Date_parse_minutes :
  JS.Date_parse Scenario.noHost "2024-05-01T10:00Z" = Some 1714557600000.
Proof. reflexivity. Qed.

Example Date_parse_leap_day :
  JS.Date_parse Scenario.noHost "2024-02-29T23:59:59.999Z" = Some 1709251199999.
Proof. reflexivity. Qed.

(** A day past the end of its month is left to the engine: one that rolls
    over to the 1st of March, one that answers NaN. *)
Example Date_parse_no_leap_day :
  JS.Date_parse (fun _ => Some 1677664800000) "2023-02-29T10:00Z"
  = Some 1677664800000
  /\ JS.Date_parse Scenario.noHost "2023-02-29T10:00Z" = None.
Proof. split; reflexivity. Qed.

Example Date_parse_free_text :
  JS.Date_parse (fun _ => Some 7) "2024-05-01T flood" = Some 7.
Proof. reflexivity. Qed.

Example trim_route : JS.trim "  /map " = "/map".
Proof. reflexivity. Qed.

Example replace_first_slash :
  JS.replace "/" "" "/emergency-plan" = "emergency-plan".
Proof. reflexivity. Qed.

Example replace_first_www :
  JS.replace "www." "" "www.news.www.org" = "news.www.org".
Proof. reflexivity. Qed.

Example includes_wildfire : JS.includes "fire" "a wildfire nearby" = true.
Proof. reflexivity. Qed.

Example findIndex_no_hit :
  Gemini.findIndex (Z.eqb 3) [1; 2] = -1.
Proof. reflexivity. Qed.

Example findIndex_first_hit :
  Gemini.findIndex (Z.eqb 2) [1; 2; 2] = 1.
Proof. reflexivity. Qed.

Example showZ_index : Gemini.showZ 12 = "12".
Proof. reflexivity. Qed.

(* ================================================================== *)
(** ** Dates survive [toISOString] and [Date.parse] *)
(* ================================================================== *)

Module DateFacts.
Import JS Spec.

Lemma YearFromDay_bracket d :
  DayFromYear (YearFromDay d) <= d < DayFromYear (YearFromDay d + 1).
Proof.
  unfold YearFromDay.
  set (y := 1970 + 400 * d / 146097).
  assert (Hlo : DayFromYear (y - 1) <= d).
  { unfold DayFromYear, y. Z.div_mod_to_equations. lia. }
  assert (Hhi : d < DayFromYear (y + 2)).
  { unfold DayFromYear, y. Z.div_mod_to_equations. lia. }
  destruct (DayFromYear (y + 1) <=? d) eqn:E1.
  - apply Z.leb_le in E1. replace (y + 1 + 1) with (y + 2) by lia. lia.
  - apply Z.leb_gt in E1.
    destruct (d <? DayFromYear y) eqn:E2.
    + apply Z.ltb_lt in E2. replace (y - 1 + 1) with y by lia. lia.
    + apply Z.ltb_ge in E2. lia.
Qed.

Lemma DayFromYear_succ y : DayFromYear (y + 1) = DayFromYear y + DaysInYear y.
Proof.
  unfold DayFromYear, DaysInYear.
  destruct (y mod 4 =? 0) eqn:E4; cbn [negb];
  destruct (y mod 100 =? 0) eqn:E100; cbn [negb];
  destruct (y mod 400 =? 0) eqn:E400; cbn [negb];
  rewrite ?Z.eqb_eq, ?Z.eqb_neq in *;
  Z.div_mod_to_equations; lia.
Qed.

Lemma InLeapYear_cases y : InLeapYear y = 0 \/ InLeapYear y = 1.
Proof.
  unfold InLeapYear, DaysInYear.
  destruct (negb (y mod 4 =? 0)), (negb (y mod 100 =? 0)),
           (negb (y mod 400 =? 0)); lia.
Qed.

Lemma DayFromYear_mono y y' : y <= y' -> DayFromYear y <= DayFromYear y'.
Proof.
  intros H. unfold DayFromYear. Z.div_mod_to_equations. lia.
Qed.

Lemma month_bracket leap d :
  (leap = 0 \/ leap = 1) -> 0 <= d < 365 + leap ->
  let m := MonthFromDayInYear leap d in
  0 <= m <= 11 /\
  DaysBeforeMonth leap m <= d < DaysBeforeMonth leap (m + 1).
Proof.
  intros Hl Hd. unfold MonthFromDayInYear.
  repeat match goal with
  | |- context [if ?a <? ?b then _ else _] => destruct (Z.ltb_spec a b)
  end; cbn; destruct Hl; subst; cbn; lia.
Qed.

Lemma DaysBeforeMonth_step leap m :
  (leap = 0 \/ leap = 1) -> 0 <= m <= 11 ->
  DaysBeforeMonth leap (m + 1) - DaysBeforeMonth leap m <= 31.
Proof.
  intros Hl Hm.
  assert (m = 0 \/ m = 1 \/ m = 2 \/ m = 3 \/ m = 4 \/ m = 5 \/ m = 6
          \/ m = 7 \/ m = 8 \/ m = 9 \/ m = 10 \/ m = 11) as Hc by lia.
  destruct Hl; subst leap;
  repeat (destruct Hc as [-> | Hc]; [cbn; lia|]); subst; cbn; lia.
Qed.

Lemma time_split w :
  0 <= w < msPerDay ->
  w / 3600000 * 3600000 + (w / 60000) mod 60 * 60000
    + (w / 1000) mod 60 * 1000 + w mod 1000 = w
  /\ 0 <= w / 3600000 <= 23 /\ 0 <= (w / 60000) mod 60 <= 59
  /\ 0 <= (w / 1000) mod 60 <= 59 /\ 0 <= w mod 1000 <= 999.
Proof.
  unfold msPerDay. intros H. Z.div_mod_to_equations. lia.
Qed.

Lemma TimeWithinDay_range t : 0 <= TimeWithinDay t < msPerDay.
Proof. unfold TimeWithinDay. apply Z.mod_pos_bound. reflexivity. Qed.

Ltac month_minus_one :=
  match goal with
  | |- context [?m + 1 - 1] => replace (m + 1 - 1) with m by lia
  end.

(** The fields of every time value are legal. *)
Lemma fieldsOfTime_range t : fieldsInRange (fieldsOfTime t).
Proof.
  pose proof (YearFromDay_bracket (Day t)) as Hy.
  rewrite DayFromYear_succ in Hy.
  pose proof (InLeapYear_cases (YearFromDay (Day t))) as Hl.
  assert (Hd : 0 <= Day t - DayFromYear (YearFromDay (Day t))
               < 365 + InLeapYear (YearFromDay (Day t))).
  { unfold InLeapYear. lia. }
  pose proof (month_bracket _ _ Hl Hd) as [Hm Hb]. cbv zeta in Hm, Hb.
  pose proof (DaysBeforeMonth_step _ _ Hl Hm) as Hs.
  pose proof (time_split _ (TimeWithinDay_range t)) as (_ & Hh & Hmi & Hsec & Hms).
  constructor; cbn [fieldsOfTime fYear fMonth fDate fHour fMin fSec fMs];
    try lia.
  unfold DaysInMonth. month_minus_one. lia.
Qed.

Lemma fieldsInRange_legal f : fieldsInRange f -> fieldsLegal f = true.
Proof.
  intros [].
  unfold fieldsLegal.
  repeat (apply andb_true_intro; split); try (apply Z.leb_le; lia).
  apply orb_true_intro. left. apply Z.leb_le. lia.
Qed.

(** [MakeDate] undoes the decomposition into fields. *)
Lemma timeOfFields_fieldsOfTime t : timeOfFields (fieldsOfTime t) = t.
Proof.
  pose proof (time_split _ (TimeWithinDay_range t)) as (Hsum & _).
  unfold timeOfFields.
  cbn [fieldsOfTime fYear fMonth fDate fHour fMin fSec fMs].
  month_minus_one.
  pose proof (Z.div_mod t msPerDay ltac:(discriminate)) as Ht.
  unfold Day, TimeWithinDay in *. lia.
Qed.

Lemma year_range t :
  T_MIN <= t <= T_MAX -> 0 <= fYear (fieldsOfTime t) <= 9999.
Proof.
  unfold T_MIN, T_MAX. intros Ht.
  cbn [fieldsOfTime fYear].
  pose proof (YearFromDay_bracket (Day t)) as Hy.
  assert (Hd : DayFromYear 0 <= Day t < DayFromYear 10000).
  { unfold Day, msPerDay. change (DayFromYear 0) with (-719528).
    change (DayFromYear 10000) with 2932897.
    Z.div_mod_to_equations. lia. }
  set (y := YearFromDay (Day t)) in *.
  split.
  - destruct (Z.le_gt_cases 0 y) as [|Hlt]; [assumption|].
    pose proof (DayFromYear_mono (y + 1) 0 ltac:(lia)). lia.
  - destruct (Z.le_gt_cases y 9999) as [|Hgt]; [assumption|].
    pose proof (DayFromYear_mono 10000 y ltac:(lia)). lia.
Qed.

Lemma digit_char_ok d :
  0 <= d <= 9 -> is_digit (digit_char d) = true /\ digit_val (digit_char d) = d.
Proof.
  intros H.
  assert (d = 0 \/ d = 1 \/ d = 2 \/ d = 3 \/ d = 4 \/ d = 5 \/ d = 6
          \/ d = 7 \/ d = 8 \/ d = 9) as Hc by lia.
  repeat (destruct Hc as [-> | Hc]; [split; reflexivity|]).
  subst. split; reflexivity.
Qed.

Lemma is_digit_digit_char d : 0 <= d <= 9 -> is_digit (digit_char d) = true.
Proof. intros H. apply digit_char_ok, H. Qed.

Lemma digit_val_digit_char d : 0 <= d <= 9 -> digit_val (digit_char d) = d.
Proof. intros H. apply digit_char_ok, H. Qed.

Ltac digits := Z.div_mod_to_equations; lia.

Ltac four_digit_year y :=
  unfold formatFields, isoYear;
  cbn [fYear fMonth fDate fHour fMin fSec fMs];
  replace ((0 <=? y) && (y <=? 9999)) with true
    by (symmetry; apply andb_true_intro; split; apply Z.leb_le; lia).

(** Reading the text of legal fields gives the fields back. *)
Lemma readFields_formatFields f :
  0 <= fYear f <= 9999 -> fieldsInRange f ->
  readFields (formatFields f) = Some f.
Proof.
  destruct f as [y mo d h mi s ms]. intros Hy [Hmo [Hd0 _] Hd Hh Hmi Hs Hms].
  cbn [fYear fMonth fDate fHour fMin fSec fMs] in *.
  four_digit_year y.
  cbv beta iota delta [pad4 pad3 pad2 readFields readTime].
  rewrite !is_digit_digit_char by digits.
  cbv beta iota delta [andb].
  unfold num4, num3, num2.
  rewrite !digit_val_digit_char by digits.
  f_equal. f_equal; digits.
Qed.

Lemma isoPrefix_formatFields f :
  0 <= fYear f <= 9999 -> fieldsInRange f -> isoPrefix (formatFields f) = true.
Proof.
  destruct f as [y mo d h mi s ms]. intros Hy [Hmo [Hd0 _] Hd Hh Hmi Hs Hms].
  cbn [fYear fMonth fDate fHour fMin fSec fMs] in *.
  four_digit_year y.
  cbv beta iota delta [pad4 pad3 pad2 isoPrefix].
  rewrite !is_digit_digit_char by digits.
  reflexivity.
Qed.

(** [Date.parse(x.toISOString())] is [x.valueOf()], and the text has the
    shape that [dateReviver] looks for. *)
Lemma Date_parse_toISOString host t :
  T_MIN <= t <= T_MAX ->
  isoPrefix (toISOString t) = true
  /\ Date_parse host (toISOString t) = Some t.
Proof.
  intros Ht. unfold toISOString, Date_parse.
  pose proof (year_range t Ht) as Hy.
  pose proof (fieldsOfTime_range t) as Hr.
  split.
  - apply isoPrefix_formatFields; assumption.
  - rewrite readFields_formatFields by assumption.
    rewrite (fieldsInRange_legal _ Hr).
    f_equal. apply timeOfFields_fieldsOfTime.
Qed.

End DateFacts.

(* ================================================================== *)
(** ** The local store *)
(* ================================================================== *)

Local Open Scope list_scope.

Module StoreFacts.
Import Types Browser Spec.

Lemma dispatched_app tr tr' :
  dispatched (tr ++ tr') = (dispatched tr ++ dispatched tr')%list.
Proof.
  induction tr as [|[t e] tr IH]; [reflexivity|].
  destruct e; cbn; rewrite IH; reflexivity.
Qed.

(** A UUID does not look like a date, and is not the identifier of a
    fixture. *)
Lemma isUUID_not_date s : isUUID s = true -> JS.isoPrefix s = false.
Proof.
  destruct s as [|c1 [|c2 [|c3 [|c4 [|c5 s]]]]]; try reflexivity.
  unfold isUUID. cbn [shaped]. intros H.
  assert (Hhex : is_hex c5 = true).
  { do 4 (apply andb_prop in H; destruct H as [_ H]).
    apply andb_prop in H. exact (proj1 H). }
  clear H.
  destruct c5 as [[] [] [] [] [] [] [] []];
    first [reflexivity | discriminate Hhex].
Qed.

Lemma rewritten_uuid host s :
  isUUID s = true -> rewritten host (JStr s) = JStr s.
Proof.
  intros H. unfold rewritten. cbn. rewrite (isUUID_not_date s H). reflexivity.
Qed.

(** Filtering out the one element with a given key cuts it out of the
    list; filtering out a key that is not there changes nothing. *)
Section FilterKey.

Context {A : Type} (key : A -> string).

Let others (k : string) (l : list A) : list A :=
  filter (fun x => negb (String.eqb (key x) k)) l.

Lemma filter_key_absent k l :
  ~ In k (map key l) -> others k l = l.
Proof.
  induction l as [|x l IH]; cbn; intros Hn; [reflexivity|].
  destruct (String.eqb_spec (key x) k) as [E|E]; cbn.
  - exfalso. apply Hn. left. exact E.
  - f_equal. apply IH. intros H. apply Hn. right. exact H.
Qed.

Lemma filter_key_present k l :
  NoDup (map key l) -> In k (map key l) ->
  exists before x after,
    l = before ++ x :: after /\ key x = k /\ others k l = before ++ after.
Proof.
  induction l as [|x l IH]; cbn; intros Hnd Hin; [contradiction|].
  inversion Hnd as [|? ? Hx Hnd']; subst.
  destruct (String.eqb_spec (key x) k) as [E|E]; cbn.
  - exists [], x, l. repeat split; [exact E|].
    cbn. apply filter_key_absent. rewrite <- E. exact Hx.
  - destruct Hin as [Hin|Hin]; [contradiction|].
    destruct (IH Hnd' Hin) as (before & y & after & Hl & Hy & Hf).
    exists (x :: before), y, after. repeat split.
    + cbn. f_equal. exact Hl.
    + exact Hy.
    + cbn. f_equal. exact Hf.
Qed.

End FilterKey.

Section Store.

Variable loaded : Z.
Variable host : string -> option Z.

Lemma init_eq w :
  Api.init loaded w = setStorage (seeded loaded (localStorage w)) w.
Proof.
  destruct w as [[r e a n c] clk ent dr h sp tr].
  destruct r, e, a, n, c; reflexivity.
Qed.

Lemma seeded_idem s : seeded loaded (seeded loaded s) = seeded loaded s.
Proof. destruct s as [r e a n c]. reflexivity. Qed.

Lemma getReports_eq w :
  Api.getReports loaded host w
  = (revived host (reportsOf loaded (localStorage w)),
     later 300 (seeded loaded (localStorage w)) w).
Proof.
  unfold Api.getReports, bind. cbn [delay].
  rewrite init_eq. reflexivity.
Qed.

Lemma getContacts_eq w :
  Api.getContacts loaded w
  = (contactsOf loaded (localStorage w),
     later 200 (seeded loaded (localStorage w)) w).
Proof.
  unfold Api.getContacts, bind. cbn [delay].
  rewrite init_eq. reflexivity.
Qed.

Lemma createReport_eq report w :
  Api.createReport loaded host report w
  = let t := clock w + 600 + 300 in
    let newReport :=
      mkReport (VStr (entropy w (drawn w))) (in_type report)
               (VStr (in_description report)) (VDate (Some t))
               (in_coordinates report) false in
    (newReport,
     mkWorld
       (withReports
          (written (revived host (reportsOf loaded (localStorage w))
                    ++ [newReport]))
          (seeded loaded (localStorage w)))
       t (entropy w) (S (drawn w)) (hash w) (speechSynthesis w)
       (trace w ++ [(t, Dispatched DbReportsUpdated)])).
Proof.
  unfold Api.createReport, bind. cbn [delay].
  rewrite getReports_eq. reflexivity.
Qed.

Lemma verifyReport_eq reportId w :
  Api.verifyReport loaded host reportId w
  = let t := clock w + 400 + 300 in
    (tt,
     mkWorld
       (withReports
          (written
             (map (fun r => if Api.idIs reportId r
                            then Api.markVerified r else r)
                  (revived host (reportsOf loaded (localStorage w)))))
          (seeded loaded (localStorage w)))
       t (entropy w) (drawn w) (hash w) (speechSynthesis w)
       (trace w ++ [(t, Dispatched DbReportsUpdated)])).
Proof.
  unfold Api.verifyReport, bind. cbn [delay].
  rewrite getReports_eq. reflexivity.
Qed.

Lemma deleteContact_eq id w :
  Api.deleteContact loaded id w
  = (tt,
     mkWorld
       (withContacts
          (filter (fun c => negb (String.eqb (contact_id c) id))
                  (contactsOf loaded (localStorage w)))
          (seeded loaded (localStorage w)))
       (clock w + 300 + 200) (entropy w) (drawn w) (hash w)
       (speechSynthesis w) (trace w)).
Proof.
  unfold Api.deleteContact, bind. cbn [delay].
  rewrite getContacts_eq. reflexivity.
Qed.

Lemma getResources_eq w :
  Api.getResources loaded w
  = (match RESOURCES (seeded loaded (localStorage w)) with
     | Some doc => doc
     | None => []
     end,
     later 200 (seeded loaded (localStorage w)) w).
Proof.
  unfold Api.getResources, bind. cbn [delay].
  rewrite init_eq. reflexivity.
Qed.

Lemma getAlerts_eq w :
  Api.getAlerts loaded host w
  = (match ALERTS (seeded loaded (localStorage w)) with
     | Some doc => map (Api.mapAlert (Api.dateReviver host)) doc
     | None => []
     end,
     later 200 (seeded loaded (localStorage w)) w).
Proof.
  unfold Api.getAlerts, bind. cbn [delay].
  rewrite init_eq. reflexivity.
Qed.

Lemma getNews_eq w :
  Api.getNews loaded host w
  = (match NEWS (seeded loaded (localStorage w)) with
     | Some doc => map (Api.mapNews (Api.dateReviver host)) doc
     | None => []
     end,
     later 250 (seeded loaded (localStorage w)) w).
Proof.
  unfold Api.getNews, bind. cbn [delay].
  rewrite init_eq. reflexivity.
Qed.

(** A Date of the four-digit years comes back from the store as it
    went in. *)
Lemma revive_date t :
  T_MIN <= t <= T_MAX ->
  Api.dateReviver host (Api.stringify (VDate (Some t))) = VDate (Some t).
Proof.
  intros Ht.
  destruct (DateFacts.Date_parse_toISOString host t Ht) as [Hp Hd].
  cbn. rewrite Hp, Hd. reflexivity.
Qed.

Lemma rewritten_date t :
  T_MIN <= t <= T_MAX ->
  rewritten host (JStr (JS.toISOString t)) = JStr (JS.toISOString t).
Proof.
  intros Ht. unfold rewritten.
  change (JStr (JS.toISOString t)) with (Api.stringify (VDate (Some t))) at 1.
  rewrite revive_date by assumption. reflexivity.
Qed.

Lemma rewritten_plain s :
  JS.isoPrefix s = false -> rewritten host (JStr s) = JStr s.
Proof. intros H. unfold rewritten. cbn. rewrite H. reflexivity. Qed.

Lemma stable_map doc :
  Forall (stable host) doc -> map (Api.mapReport (rewritten host)) doc = doc.
Proof.
  induction 1 as [|r doc Hr _ IH]; cbn; [reflexivity|].
  rewrite IH. f_equal. exact Hr.
Qed.

Lemma written_revived doc :
  written (revived host doc) = map (Api.mapReport (rewritten host)) doc.
Proof.
  unfold written, revived. rewrite map_map.
  apply map_ext. intros []. reflexivity.
Qed.

(** The record that [createReport] writes is well formed when the
    identifier and the description do not look like dates. *)
Lemma created_wellFormed u ty d t c :
  JS.isoPrefix u = false -> JS.isoPrefix d = false ->
  T_MIN <= t <= T_MAX ->
  wellFormed host
    (Api.mapReport Api.stringify
       (mkReport (VStr u) ty (VStr d) (VDate (Some t)) c false)).
Proof.
  intros Hu Hd Ht. split.
  - unfold stable, Api.mapReport.
    cbn [id type description timestamp coordinates verified].
    change (Api.stringify (VStr u)) with (JStr u).
    change (Api.stringify (VStr d)) with (JStr d).
    change (Api.stringify (VDate (Some t))) with (JStr (JS.toISOString t)).
    rewrite !rewritten_plain, rewritten_date by assumption.
    reflexivity.
  - exists u. split; [reflexivity | assumption].
Qed.

(** On well-formed records, setting the flag on the heap and writing is
    setting the flag in the document. *)
Lemma verify_wellFormed reportId r :
  wellFormed host r ->
  Api.mapReport Api.stringify
    (let r' := Api.mapReport (Api.dateReviver host) r in
     if Api.idIs reportId r' then Api.markVerified r' else r')
  = verifiedIn reportId r.
Proof.
  intros [Hst (s & Hid & Hs)].
  unfold stable in Hst. unfold verifiedIn. cbv zeta.
  destruct r as [i ty d ts c v].
  cbn [id] in Hid. subst i.
  unfold Api.mapReport, rewritten in Hst.
  cbn [id type description timestamp coordinates verified] in Hst.
  injection Hst as _ Hd Hts.
  assert (Hi : Api.dateReviver host (JStr s) = VStr s)
    by (cbn; rewrite Hs; reflexivity).
  unfold Api.idIs, Api.markVerified, Api.mapReport.
  cbn [id type description timestamp coordinates verified].
  rewrite Hi.
  destruct (String.eqb s reportId);
    cbn [id type description timestamp coordinates verified];
    rewrite Hd, Hts; reflexivity.
Qed.

Lemma verify_wellFormed_map reportId doc :
  Forall (wellFormed host) doc ->
  written
    (map (fun r => if Api.idIs reportId r then Api.markVerified r else r)
         (revived host doc))
  = map (verifiedIn reportId) doc.
Proof.
  unfold written, revived. rewrite !map_map.
  induction 1 as [|r doc Hr _ IH]; cbn [map]; [reflexivity|].
  rewrite IH. f_equal. apply (verify_wellFormed reportId r Hr).
Qed.

(** On a store of well-formed reports [verifyReport] sets the flag of
    the records with the given identifier and leaves everything else as
    it was. *)
Lemma verifyReport_frame reportId w :
  Forall (wellFormed host) (reportsOf loaded (localStorage w)) ->
  REPORTS (localStorage (snd (Api.verifyReport loaded host reportId w)))
  = Some (map (verifiedIn reportId) (reportsOf loaded (localStorage w))).
Proof.
  intros Hwf. rewrite verifyReport_eq.
  cbv zeta. cbn [snd localStorage]. unfold withReports. cbn [REPORTS].
  rewrite (verify_wellFormed_map reportId _ Hwf). reflexivity.
Qed.

Lemma verifiedIn_absent reportId doc :
  ~ In (JStr reportId) (map id doc) -> map (verifiedIn reportId) doc = doc.
Proof.
  induction doc as [|r doc IH]; cbn [map]; intros Hn; [reflexivity|].
  rewrite IH by (intros H; apply Hn; right; exact H).
  f_equal. unfold verifiedIn.
  destruct (id r) as [|s] eqn:E; [reflexivity|].
  destruct (String.eqb_spec s reportId) as [->|]; [|reflexivity].
  exfalso. apply Hn. left. reflexivity.
Qed.

(** Identifiers that the application gave out come back from a read and
    a write as they were, and none of them is the value that the generator
    returns next. *)
Lemma issued_rewritten w i :
  uuidsShaped w -> issued w i -> rewritten host i = i.
Proof.
  intros Hs [->|[->|(k & _ & ->)]]; [reflexivity | reflexivity |].
  apply rewritten_uuid, Hs.
Qed.

Lemma issued_not_next w i :
  uuidsShaped w -> freshDraw w -> issued w i ->
  i <> JStr (entropy w (drawn w)).
Proof.
  intros Hs Hf [->|[->|(k & Hk & ->)]] Heq; injection Heq as Heq.
  - pose proof (Hs (drawn w)) as H. rewrite <- Heq in H. discriminate H.
  - pose proof (Hs (drawn w)) as H. rewrite <- Heq in H. discriminate H.
  - exact (Hf k Hk Heq).
Qed.

Lemma issued_ids_rewritten w doc :
  uuidsShaped w -> Forall (fun r => issued w (id r)) doc ->
  map id (map (Api.mapReport (rewritten host)) doc) = map id doc.
Proof.
  intros Hs. induction 1 as [|r doc Hr _ IH]; cbn [map]; [reflexivity|].
  rewrite IH. f_equal. cbn [Api.mapReport id].
  exact (issued_rewritten w _ Hs Hr).
Qed.

Lemma issued_later w w' i :
  entropy w' = entropy w -> (drawn w <= drawn w')%nat ->
  issued w i -> issued w' i.
Proof.
  intros He Hd [->|[->|(k & Hk & ->)]].
  - left. reflexivity.
  - right. left. reflexivity.
  - right. right. exists k. split; [lia | rewrite He; reflexivity].
Qed.

(** A store that holds no reports yet holds the two fixtures once it is
    read: their identifiers are given out. *)
Lemma issuedOnly_unseeded w :
  REPORTS (localStorage w) = None -> issuedOnly loaded w.
Proof.
  intros H. unfold issuedOnly, reportsOf, seeded. rewrite H.
  cbn [REPORTS map Constants.MOCK_REPORTS].
  constructor; [left; reflexivity|].
  constructor; [right; left; reflexivity | constructor].
Qed.

(** [verifyReport] keeps the identifiers of such a store. *)
Lemma issuedOnly_verifyReport reportId w :
  uuidsShaped w -> issuedOnly loaded w ->
  issuedOnly loaded (snd (Api.verifyReport loaded host reportId w)).
Proof.
  intros Hs Hi. unfold issuedOnly in *. rewrite verifyReport_eq.
  cbv zeta. cbn [snd localStorage]. unfold reportsOf at 1, withReports.
  cbn [seeded REPORTS]. unfold written, revived. rewrite !map_map.
  apply Forall_map. revert Hi. apply Forall_impl. intros r Hr. cbv beta.
  assert (Hid : Api.stringify (Api.dateReviver host (id r)) = id r)
    by exact (issued_rewritten w _ Hs Hr).
  destruct (Api.idIs reportId (Api.mapReport (Api.dateReviver host) r));
    unfold Api.markVerified, Api.mapReport;
    cbn [id type description timestamp coordinates verified];
    rewrite Hid;
    (apply (issued_later w); [reflexivity | cbn; lia | exact Hr]).
Qed.

(** The identifiers in the store after [createReport]: those that were
    there, then the new one, which was not among them.  So identifiers
    that were pairwise distinct stay so. *)
Lemma createReport_ids report w :
  uuidsShaped w -> freshDraw w -> issuedOnly loaded w ->
  map id (reportsOf loaded
            (localStorage (snd (Api.createReport loaded host report w))))
  = map id (reportsOf loaded (localStorage w)) ++ [JStr (entropy w (drawn w))]
  /\ ~ In (JStr (entropy w (drawn w)))
          (map id (reportsOf loaded (localStorage w))).
Proof.
  intros Hs Hf Hi. split.
  - rewrite createReport_eq. cbv zeta. cbn [snd localStorage].
    unfold reportsOf at 1, withReports. cbn [seeded REPORTS].
    unfold written. rewrite map_app.
    fold (written (revived host (reportsOf loaded (localStorage w)))).
    rewrite written_revived, map_app, (issued_ids_rewritten w _ Hs Hi).
    reflexivity.
  - intros Hin. apply in_map_iff in Hin. destruct Hin as (r & Hr & Hin).
    unfold issuedOnly in Hi. rewrite Forall_forall in Hi.
    exact (issued_not_next w _ Hs Hf (Hi r Hin) Hr).
Qed.

Lemma createReport_keeps_ids_distinct report w :
  uuidsShaped w -> freshDraw w -> issuedOnly loaded w ->
  NoDup (map id (reportsOf loaded (localStorage w))) ->
  NoDup (map id (reportsOf loaded
                   (localStorage (snd (Api.createReport loaded host report w))))).
Proof.
  intros Hs Hf Hi Hnd.
  destruct (createReport_ids report w Hs Hf Hi) as [-> Hn].
  apply NoDup_app; [exact Hnd | repeat constructor; intros [] |].
  intros i Hin [<-|[]]. exact (Hn Hin).
Qed.

(** An identifier that no report bears: the store holds after
    [verifyReport] what it held before. *)
Lemma verifyReport_unmatched reportId w :
  Forall (wellFormed host) (reportsOf loaded (localStorage w)) ->
  ~ In (JStr reportId) (map id (reportsOf loaded (localStorage w))) ->
  REPORTS (localStorage (snd (Api.verifyReport loaded host reportId w)))
  = Some (reportsOf loaded (localStorage w)).
Proof.
  intros Hwf Hn. rewrite (verifyReport_frame reportId w Hwf).
  rewrite (verifiedIn_absent reportId _ Hn). reflexivity.
Qed.

(** On a store of stable reports [createReport] leaves the reports that
    were there as they were, and adds its own at the end. *)
Lemma createReport_appends_to_stable report w :
  Forall (stable host) (reportsOf loaded (localStorage w)) ->
  REPORTS (localStorage (snd (Api.createReport loaded host report w)))
  = Some (reportsOf loaded (localStorage w)
          ++ [Api.mapReport Api.stringify
                (fst (Api.createReport loaded host report w))]).
Proof.
  intros Hst. rewrite createReport_eq. cbv zeta. cbn [fst snd localStorage].
  unfold withReports. cbn [REPORTS]. unfold written at 1. rewrite map_app.
  fold (written (revived host (reportsOf loaded (localStorage w)))).
  rewrite written_revived, (stable_map _ Hst). reflexivity.
Qed.

End Store.

End StoreFacts.

(* ================================================================== *)
(** ** Properties of the local store *)
(* ================================================================== *)

Section StoreProperties.
Import Types Browser Spec.

Variable loaded : Z.
Variable host : string -> option Z.

(** C10.  Whatever the identifier, [verifyReport] dispatches
    ['db-reports-updated'] exactly once, after its two delays. *)
Theorem verifyReport_dispatches_once (reportId : string) (w : World) :
  let w' := snd (Api.verifyReport loaded host reportId w) in
  trace w' = trace w ++ [(clock w + 700, Dispatched DbReportsUpdated)]
  /\ dispatched (trace w') = dispatched (trace w) ++ [DbReportsUpdated].
Proof.
  intros w'. subst w'. rewrite StoreFacts.verifyReport_eq.
  cbv zeta. cbn [snd trace]. split.
  - do 3 f_equal. lia.
  - rewrite StoreFacts.dispatched_app. reflexivity.
Qed.

(** C7.  On contacts with pairwise distinct identifiers, [deleteContact]
    stores the contacts it read without the one record that bears the
    identifier, the others in their order; when no record bears it, it
    stores them all. *)
Theorem deleteContact_removes_one (id : string) (w : World) :
  let contacts := contactsOf loaded (localStorage w) in
  NoDup (map contact_id contacts) ->
  let w' := snd (Api.deleteContact loaded id w) in
  exists contacts',
    CONTACTS (localStorage w') = Some contacts'
    /\ ((~ In id (map contact_id contacts) /\ contacts' = contacts)
        \/ (exists before c after,
              contacts = before ++ c :: after
              /\ contact_id c = id
              /\ contacts' = before ++ after
              /\ ~ In id (map contact_id contacts')
              /\ S (List.length contacts') = List.length contacts)).
Proof.
  intros contacts Hnd w'. subst w'.
  rewrite StoreFacts.deleteContact_eq. cbn [snd localStorage].
  unfold withContacts. cbn [CONTACTS]. fold contacts.
  eexists. split; [reflexivity|].
  destruct (in_dec string_dec id (map contact_id contacts)) as [Hin|Hn].
  - right.
    destruct (StoreFacts.filter_key_present contact_id id contacts Hnd Hin)
      as (before & c & after & Hl & Hc & Hf).
    exists before, c, after. rewrite Hf. repeat split; try assumption.
    + rewrite Hl, map_app in Hnd. cbn in Hnd.
      apply NoDup_remove_2 in Hnd. rewrite Hc in Hnd.
      rewrite map_app. exact Hnd.
    + rewrite Hl, !List.length_app. cbn. lia.
  - left. split; [exact Hn|].
    apply StoreFacts.filter_key_absent. exact Hn.
Qed.

(** C8.  A first read finds the fixtures, collection by collection;
    [init] run twice leaves what [init] run once leaves; and a second read
    leaves the store as the first read left it. *)
Theorem seeding_idempotent (w : World) :
  T_MIN + 43200000 <= loaded <= T_MAX ->
  localStorage w = emptyStorage ->
  fst (Api.getReports loaded host w) = Constants.MOCK_REPORTS loaded
  /\ fst (Api.getResources loaded w) = Constants.MOCK_RESOURCES
  /\ fst (Api.getAlerts loaded host w) = Constants.MOCK_ALERTS loaded
  /\ fst (Api.getNews loaded host w) = Constants.MOCK_NEWS loaded
  /\ fst (Api.getContacts loaded w) = Constants.MOCK_CONTACTS
  /\ (forall v : World,
        snd (Api.init loaded (snd (Api.init loaded v)))
        = snd (Api.init loaded v))
  /\ (forall v : World,
        localStorage (snd (Api.getReports loaded host
                             (snd (Api.getReports loaded host v))))
        = localStorage (snd (Api.getReports loaded host v))).
Proof.
  unfold T_MIN, T_MAX. intros Hl Hw.
  assert (Hd : forall k, 0 <= k <= 43200000 ->
            Api.dateReviver host (Api.stringify (VDate (Some (loaded - k))))
            = VDate (Some (loaded - k))).
  { intros k Hk. apply StoreFacts.revive_date. unfold T_MIN, T_MAX. lia. }
  pose proof (Hd 0 ltac:(lia)) as H0. rewrite Z.sub_0_r in H0.
  rewrite StoreFacts.getReports_eq, StoreFacts.getResources_eq,
    StoreFacts.getAlerts_eq, StoreFacts.getNews_eq, StoreFacts.getContacts_eq.
  unfold reportsOf, contactsOf. rewrite Hw.
  cbn [fst seeded emptyStorage REPORTS RESOURCES ALERTS NEWS CONTACTS].
  unfold revived, Constants.MOCK_REPORTS, Constants.MOCK_ALERTS,
    Constants.MOCK_NEWS.
  cbn [map]. unfold Api.mapReport, Api.mapAlert, Api.mapNews.
  cbn [option_map id type description timestamp coordinates verified
       alert_id message level alert_timestamp
       news_id title summary source news_timestamp imageUrl url].
  rewrite !H0, !Hd by lia.
  repeat split.
  - intros v. rewrite !StoreFacts.init_eq.
    unfold setStorage. cbn [snd localStorage clock entropy drawn hash
                            speechSynthesis trace].
    rewrite StoreFacts.seeded_idem. reflexivity.
  - intros v. rewrite !StoreFacts.getReports_eq.
    unfold later. cbn [snd localStorage].
    apply StoreFacts.seeded_idem.
Qed.

End StoreProperties.

(** C2.  A report is filed whose description is a time in the date-time
    string format.  Whatever the engine, [verifyReport] of another record,
    or of an identifier that no record bears, then rewrites that description
    in the store: reading revives it as a Date, writing spells the Date
    out. *)
Theorem verifyReport_rewrites_description (host : string -> option Z) :
  let w1 := snd (Api.createReport Scenario.loaded host
                   Scenario.timed Scenario.start) in
  let stored (w : Browser.World) :=
    option_map (map Types.description)
      (Browser.REPORTS (Browser.localStorage w)) in
  stored w1
  = Some [Types.JStr "Water rising rapidly near the river bank.";
          Types.JStr "Smoke spotted on the northern ridge.";
          Types.JStr "2024-05-01T10:00Z"]
  /\ stored (snd (Api.verifyReport Scenario.loaded host "r2" w1))
     = Some [Types.JStr "Water rising rapidly near the river bank.";
             Types.JStr "Smoke spotted on the northern ridge.";
             Types.JStr "2024-05-01T10:00:00.000Z"]
  /\ stored (snd (Api.verifyReport Scenario.loaded host
                    "no-such-report" w1))
     = Some [Types.JStr "Water rising rapidly near the river bank.";
             Types.JStr "Smoke spotted on the northern ridge.";
             Types.JStr "2024-05-01T10:00:00.000Z"].
Proof. repeat split; vm_compute; reflexivity. Qed.

(** C1.  A report is filed whose description is a time in the date-time
    string format, and then a second report.  Whatever the engine, the
    second [createReport] does not only append its record: it writes the
    reports back as it read them, and the description of the first report
    is in the store as another text.  The new record is as
    [createReport] returned it, unverified and under the identifier that
    the generator gave, and the event was dispatched once per call. *)
Theorem createReport_rewrites_stored_description (host : string -> option Z) :
  let w1 := snd (Api.createReport Scenario.loaded host
                   Scenario.timed Scenario.start) in
  let second := Api.createReport Scenario.loaded host Scenario.smoke w1 in
  let stored (w : Browser.World) :=
    option_map (map Types.description)
      (Browser.REPORTS (Browser.localStorage w)) in
  stored w1
  = Some [Types.JStr "Water rising rapidly near the river bank.";
          Types.JStr "Smoke spotted on the northern ridge.";
          Types.JStr "2024-05-01T10:00Z"]
  /\ stored (snd second)
     = Some [Types.JStr "Water rising rapidly near the river bank.";
             Types.JStr "Smoke spotted on the northern ridge.";
             Types.JStr "2024-05-01T10:00:00.000Z";
             Types.JStr "Smoke over the east ridge"]
  /\ (forall before,
        Browser.REPORTS (Browser.localStorage w1) = Some before ->
        Browser.REPORTS (Browser.localStorage (snd second))
        <> Some (before ++ [Api.mapReport Api.stringify (fst second)]))
  /\ option_map (@List.length _)
       (Browser.REPORTS (Browser.localStorage (snd second))) = Some 4%nat
  /\ Types.id (fst second)
     = Types.VStr "9f8b7c6d-5e4f-4a3b-8c2d-1e0f9a8b7c6d"
  /\ Types.verified (fst second) = false
  /\ Types.timestamp (fst second) = Types.VDate (Some 1714557601800)
  /\ Spec.dispatched (Browser.trace (snd second))
     = [Browser.DbReportsUpdated; Browser.DbReportsUpdated].
Proof.
  cbv zeta. split; [vm_compute; reflexivity|].
  split; [vm_compute; reflexivity|].
  split; [|repeat split; vm_compute; reflexivity].
  intros before Hb Ha.
  assert (Hd : option_map (map Types.description)
                 (Browser.REPORTS
                    (Browser.localStorage
                       (snd (Api.createReport Scenario.loaded host
                               Scenario.smoke
                               (snd (Api.createReport Scenario.loaded host
                                       Scenario.timed Scenario.start))))))
               = option_map (map Types.description)
                   (Some (before
                          ++ [Api.mapReport Api.stringify
                                (fst (Api.createReport Scenario.loaded host
                                        Scenario.smoke
                                        (snd (Api.createReport Scenario.loaded
                                                host Scenario.timed
                                                Scenario.start))))])))
    by (rewrite Ha; reflexivity).
  vm_compute in Hb. injection Hb as <-.
  vm_compute in Hd. discriminate Hd.
Qed.

(* ================================================================== *)
(** ** The AI gateway *)
(* ================================================================== *)

Module GatewayFacts.
Import Types Browser Gemini Spec Words GatewayWords.

Lemma strictEq_eq a b : strictEq a b = true -> a = b.
Proof.
  destruct a as [[| s | tv]|], b as [[| s' | tv']|]; cbn;
    try discriminate; try reflexivity.
  intros H. apply String.eqb_eq in H. subst. reflexivity.
Qed.

Lemma strictEq_link n : hasLink n -> strictEq (url n) (url n) = true.
Proof. intros [u ->]. cbn. apply String.eqb_refl. Qed.

Section FindIndex.

Context {A : Type} (p : A -> bool).

Lemma findIndex_none l :
  forallb (fun x => negb (p x)) l = true -> findIndex p l = -1.
Proof.
  induction l as [|x l IH]; cbn; [reflexivity|].
  destruct (p x); cbn; [discriminate|].
  intros H. rewrite (IH H). reflexivity.
Qed.

Lemma findIndex_range l :
  existsb p l = true -> 0 <= findIndex p l < Z.of_nat (List.length l).
Proof.
  induction l as [|x l IH]; cbn [existsb findIndex List.length];
    [discriminate|].
  destruct (p x); cbn [orb].
  - intros _. lia.
  - intros H. specialize (IH H).
    destruct (Z.ltb_spec (findIndex p l) 0); lia.
Qed.

(** The index of the first hit in [pre ++ x :: rest], when [x] is a
    hit, is the length of [pre] exactly when nothing in [pre] is one. *)
Lemma findIndex_at pre x rest :
  p x = true ->
  (findIndex p (pre ++ x :: rest) =? Z.of_nat (List.length pre))
  = negb (existsb p pre).
Proof.
  intros Hx. induction pre as [|y pre IH].
  - cbn. rewrite Hx. reflexivity.
  - cbn [app findIndex existsb List.length].
    destruct (p y) eqn:Hy; cbn [orb negb].
    + apply Z.eqb_neq. lia.
    + assert (Hr : 0 <= findIndex p (pre ++ x :: rest)).
      { apply findIndex_range. rewrite existsb_app. cbn. rewrite Hx.
        apply orb_true_r. }
      destruct (Z.ltb_spec (findIndex p (pre ++ x :: rest)) 0); [lia|].
      rewrite <- IH.
      destruct (Z.eqb_spec (findIndex p (pre ++ x :: rest))
                           (Z.of_nat (List.length pre)));
        [apply Z.eqb_eq | apply Z.eqb_neq]; lia.
Qed.

End FindIndex.

(** The filter of [unique], started in the middle of the list. *)
Lemma unique_from pre rest :
  Forall hasLink rest ->
  filterFrom (Z.of_nat (List.length pre))
    (fun item index =>
       index =? findIndex (fun t => strictEq (url t) (url item)) (pre ++ rest))
    rest
  = firstOccurrences pre rest.
Proof.
  revert pre. induction rest as [|x rest IH]; intros pre Hl; [reflexivity|].
  inversion Hl as [|? ? Hx Hrest]; subst.
  cbn [filterFrom firstOccurrences].
  rewrite (Z.eqb_sym (Z.of_nat (List.length pre))).
  match goal with
  | |- context [?a =? ?b] =>
      replace (a =? b)
        with (negb (existsb (fun t => strictEq (url t) (url x)) pre))
        by (symmetry;
            exact (findIndex_at (fun t => strictEq (url t) (url x))
                     pre x rest (strictEq_link x Hx)))
  end.
  specialize (IH (pre ++ [x]) Hrest).
  rewrite <- app_assoc, List.length_app in IH. cbn [app List.length] in IH.
  replace (Z.of_nat (List.length pre + 1))
    with (Z.of_nat (List.length pre) + 1) in IH by lia.
  rewrite IH.
  destruct (existsb (fun t => strictEq (url t) (url x)) pre); reflexivity.
Qed.

Lemma unique_firstOccurrences items :
  Forall hasLink items -> unique items = firstOccurrences [] items.
Proof. intros H. exact (unique_from [] items H). Qed.

(** What [firstOccurrences] keeps comes from the list. *)
Lemma firstOccurrences_incl before items x :
  In x (firstOccurrences before items) -> In x items.
Proof.
  revert before. induction items as [|y items IH]; intros before;
    cbn [firstOccurrences]; [intros []|].
  destruct (existsb (fun t => strictEq (url t) (url y)) before); cbn [In].
  - intros H. right. exact (IH _ H).
  - intros [H|H]; [left; exact H | right; exact (IH _ H)].
Qed.

Lemma seen_link before y :
  hasLink y ->
  existsb (fun t => strictEq (url t) (url y)) before = false ->
  forall t, In t before -> url t <> url y.
Proof.
  intros Hy E t Ht Heq.
  assert (Hex : existsb (fun t => strictEq (url t) (url y)) before = true).
  { apply existsb_exists. exists t. split; [exact Ht|].
    rewrite Heq. apply strictEq_link, Hy. }
  congruence.
Qed.

(** No kept item has the link of an item that came before, and no two
    kept items have the same link. *)
Lemma firstOccurrences_distinct before items :
  Forall hasLink items ->
  (forall x t, In x (firstOccurrences before items) -> In t before ->
               url t <> url x)
  /\ NoDup (map url (firstOccurrences before items)).
Proof.
  intros Hl. revert before.
  induction Hl as [|y items Hy _ IH]; intros before; cbn [firstOccurrences].
  - split; [intros x t [] | constructor].
  - destruct (IH (before ++ [y])) as [Hun Hnd].
    destruct (existsb (fun t => strictEq (url t) (url y)) before) eqn:E.
    + split; [|exact Hnd].
      intros x t Hx Ht. apply (Hun x t Hx). apply in_or_app. left. exact Ht.
    + split.
      * intros x t [<-|Hx] Ht.
        -- exact (seen_link before y Hy E t Ht).
        -- apply (Hun x t Hx). apply in_or_app. left. exact Ht.
      * cbn [map]. constructor; [|exact Hnd].
        intros Hin. apply in_map_iff in Hin. destruct Hin as (x & Hxy & Hx).
        apply (Hun x y Hx); [|symmetry; exact Hxy].
        apply in_or_app. right. left. reflexivity.
Qed.

(** Every link of the list is the link of a kept item, or of an item that
    came before. *)
Lemma firstOccurrences_covers before items x :
  In x items ->
  (exists t, In t before /\ url t = url x)
  \/ In (url x) (map url (firstOccurrences before items)).
Proof.
  revert before. induction items as [|y items IH]; intros before;
    [intros []|].
  cbn [firstOccurrences]. intros [->|Hx].
  - destruct (existsb (fun t => strictEq (url t) (url x)) before) eqn:E.
    + left. apply existsb_exists in E. destruct E as (t & Ht & Heq).
      exists t. split; [exact Ht | exact (strictEq_eq _ _ Heq)].
    + right. left. reflexivity.
  - destruct (IH (before ++ [y]) Hx) as [(t & Ht & Heq)|Hin].
    + apply in_app_or in Ht. destruct Ht as [Ht|[<-|[]]].
      * left. exists t. split; assumption.
      * destruct (existsb (fun t => strictEq (url t) (url y)) before) eqn:E.
        -- left. apply existsb_exists in E. destruct E as (t & Ht & Hty).
           exists t. split; [exact Ht|].
           rewrite <- Heq. exact (strictEq_eq _ _ Hty).
        -- right. left. exact Heq.
    + right.
      destruct (existsb (fun t => strictEq (url t) (url y)) before);
        [exact Hin | right; exact Hin].
Qed.

(** The items that [fetchRealTimeNews] builds carry their links. *)
Lemma newsItemOfChunk_link hostname t chunk index item :
  newsItemOfChunk hostname t chunk index = Some item -> hasLink item.
Proof.
  unfold newsItemOfChunk.
  destruct (web chunk) as [[[u|] [ti|]]|]; try discriminate.
  cbn. destruct (hostname u); [|discriminate].
  intros H. injection H as <-. exists u. reflexivity.
Qed.

Lemma mapFrom_links hostname t chunks :
  forall i items,
    mapFrom i (newsItemOfChunk hostname t) chunks = Some items ->
    Forall hasLink items.
Proof.
  induction chunks as [|c chunks IH]; intros i items; cbn [mapFrom].
  - intros H. injection H as <-. constructor.
  - destruct (newsItemOfChunk hostname t c i) as [item|] eqn:E; [|discriminate].
    destruct (mapFrom (i + 1) (newsItemOfChunk hostname t) chunks)
      as [rest|] eqn:Er; [|discriminate].
    intros H. injection H as <-. constructor.
    + exact (newsItemOfChunk_link _ _ _ _ _ E).
    + exact (IH _ _ Er).
Qed.

Lemma In_firstn {A} n (l : list A) x : In x (firstn n l) -> In x l.
Proof.
  revert n. induction l as [|y l IH]; intros [|n]; cbn; try tauto.
  intros [H|H]; [left; exact H | right; exact (IH _ H)].
Qed.

Lemma NoDup_firstn {A} n (l : list A) : NoDup l -> NoDup (firstn n l).
Proof.
  intros H. revert n. induction H as [|x l Hx _ IH]; intros [|n]; cbn;
    try constructor.
  - intros Hin. apply Hx. exact (In_firstn n l x Hin).
  - apply IH.
Qed.

(** With a credential, an answer that carries chunks, and links that all
    parse, [fetchRealTimeNews] returns the first ten of the deduplicated
    items that it built. *)
Lemma fetchRealTimeNews_answered API_KEY service hostname w answer chunks items :
  hasCredential API_KEY = true ->
  service (asked NewsSearch w) NewsSearch = Answered answer ->
  groundingMetadata answer = Some {| groundingChunks := Some chunks |} ->
  mapFrom 0 (newsItemOfChunk hostname (clock w))
          (filter hasUriAndTitle chunks) = Some items ->
  fst (fetchRealTimeNews API_KEY service hostname w)
  = slice_0_10 (unique items).
Proof.
  intros Hk Hs Hg Hm. unfold hasCredential in Hk.
  destruct API_KEY as [k|]; [|discriminate Hk].
  unfold fetchRealTimeNews, initializeGemini, send, bind, ret, emit, now.
  rewrite Hk. unfold asked in Hs. rewrite Hs, Hg. cbn [clock].
  rewrite Hm. reflexivity.
Qed.

End GatewayFacts.

Section GatewayProperties.
Import Types Browser Gemini Spec Words GatewayWords.

(** C5.  The items that [fetchRealTimeNews] fetched are those that it
    built from the chunks of the answer.  The list that it returns is the
    first ten of the items kept by the deduplication; an item is kept
    exactly when no item before it has its link, so the kept items are the
    first occurrences in their order, no two of them with the same link
    and every fetched link among them; the returned list has no two items
    with the same link and at most ten items, and fewer than ten only when
    fewer were kept. *)
Theorem dedupe_keeps_first_and_caps
    (API_KEY : option string) (service : World -> Request -> Reply)
    (hostname : string -> option string) (w : World)
    (answer : GenerateContentResponse) (chunks : list Chunk)
    (items : list NewsItem) :
  hasCredential API_KEY = true ->
  service (asked NewsSearch w) NewsSearch = Answered answer ->
  groundingMetadata answer = Some {| groundingChunks := Some chunks |} ->
  mapFrom 0 (newsItemOfChunk hostname (clock w))
          (filter hasUriAndTitle chunks) = Some items ->
  let returned := fst (fetchRealTimeNews API_KEY service hostname w) in
  let kept := firstOccurrences [] items in
  returned = firstn 10 kept
  /\ NoDup (map url kept)
  /\ (forall x, In x items -> In (url x) (map url kept))
  /\ (forall x, In x kept -> In x items)
  /\ NoDup (map url returned)
  /\ (List.length returned <= 10)%nat
  /\ List.length returned = Nat.min 10 (List.length kept).
Proof.
  intros Hk Hs Hg Hm returned kept. subst returned kept.
  assert (Hl : Forall hasLink items)
    by exact (GatewayFacts.mapFrom_links _ _ _ _ _ Hm).
  rewrite (GatewayFacts.fetchRealTimeNews_answered API_KEY service hostname w
             answer chunks items Hk Hs Hg Hm).
  rewrite (GatewayFacts.unique_firstOccurrences items Hl).
  unfold slice_0_10.
  assert (Hnd : NoDup (map url (firstOccurrences [] items)))
    by (apply GatewayFacts.firstOccurrences_distinct, Hl).
  split; [reflexivity|]. split; [exact Hnd|]. split; [|split; [|split; [|split]]].
  - intros x Hx.
    destruct (GatewayFacts.firstOccurrences_covers [] items x Hx)
      as [(t & [] & _)|H]; exact H.
  - intros x. apply GatewayFacts.firstOccurrences_incl.
  - rewrite <- firstn_map. apply GatewayFacts.NoDup_firstn. exact Hnd.
  - apply firstn_le_length.
  - apply List.length_firstn.
Qed.

(** C6.  Without a credential each of the four capabilities returns its
    fallback, logs one line and sends nothing to the model. *)
Theorem no_credential_fallbacks
    (API_KEY : option string) (service : World -> Request -> Reply)
    (hostname : string -> option string)
    (parsePrediction : string -> option PredictionResult)
    (base64Image context newMessage : string) (history : list Turn)
    (userLocation : option Coordinates) (w : World) :
  noCredential API_KEY ->
  let missing := (clock w, Logged "API_KEY is missing from environment variables") in
  let image := analyzeDisasterImage API_KEY service parsePrediction base64Image w in
  let plan := generateEmergencyPlanText API_KEY service context w in
  let news := fetchRealTimeNews API_KEY service hostname w in
  let chat := chatWithAssistant API_KEY service history newMessage userLocation w in
  fst image = None
  /\ fst plan = "AI Service Unavailable"%string
  /\ fst news = []
  /\ fst chat = {| chat_text := "System offline."; functionCall := None;
                   chat_grounding := None |}
  /\ trace (snd image) = trace w ++ [missing]
  /\ trace (snd plan) = trace w ++ [missing]
  /\ trace (snd news) = trace w ++ [missing]
  /\ trace (snd chat) = trace w ++ [missing]
  /\ sent (trace (snd image)) = sent (trace w)
  /\ sent (trace (snd plan)) = sent (trace w)
  /\ sent (trace (snd news)) = sent (trace w)
  /\ sent (trace (snd chat)) = sent (trace w).
Proof.
  assert (Hsent : forall tr line,
            sent (tr ++ [(clock w, Logged line)]) = sent tr).
  { intros tr line. induction tr as [|[t e] tr IH]; [reflexivity|].
    destruct e; cbn; rewrite IH; reflexivity. }
  intros [-> | ->]; cbn; rewrite ?Hsent; repeat split; reflexivity.
Qed.

End GatewayProperties.

(* ================================================================== *)
(** ** The dispatcher *)
(* ================================================================== *)

Module AidenFacts.
Import Types Browser Gemini Aiden Spec Words.

Lemma uttered_app tr tr' : uttered (tr ++ tr') = uttered tr ++ uttered tr'.
Proof.
  induction tr as [|[t e] tr IH]; [reflexivity|].
  destruct e; cbn; rewrite IH; reflexivity.
Qed.

Lemma navigations_app tr tr' :
  navigations (tr ++ tr') = navigations tr ++ navigations tr'.
Proof.
  induction tr as [|[t e] tr IH]; [reflexivity|].
  destruct e; cbn; rewrite IH; reflexivity.
Qed.

(** The routes of the list have no white space around them. *)
Lemma trim_validRoute r : In r validRoutes -> JS.trim r = r.
Proof.
  intros H. repeat (destruct H as [<-|H]; [reflexivity|]). destruct H.
Qed.

Lemma truthy_routing r : JS.truthy (routing r) = true.
Proof. reflexivity. Qed.

Lemma truthy_acknowledgement args : JS.truthy (acknowledgement args) = true.
Proof.
  unfold acknowledgement, routing.
  destruct (String.eqb (action args) "NAVIGATE"); [reflexivity|].
  destruct (String.eqb (action args) "SET_ALERT_MODE").
  - destruct (alertActive args) as [[]|]; reflexivity.
  - destruct (String.eqb (action args) "SIMULATION_CONTROL"); [reflexivity|].
    destruct (String.eqb (action args) "MAP_CONTROL"); reflexivity.
Qed.

(** Running the dispatcher: unfold the monad and the helpers, leave the
    string functions alone. *)
Ltac run :=
  cbv beta iota zeta delta
    [onResponse onControlApp onNavigate onSetAlertMode onSimulationControl
     onMapControl onOpenReport speak triggerGuiding notAt when lift
     addMessage setIsProcessing setAlertMode setIsGuiding setState getState
     bind ret emit navigate delay dispatchEvent getHash hasSpeech
     fst snd ui world messages inputText isProcessing alertMode
     locationRequest userCoords isGuiding simMode
     localStorage clock entropy drawn hash speechSynthesis trace
     chat_text functionCall chat_grounding].

(** Use the case at hand wherever the code tests it. *)
Ltac decide_tests :=
  repeat match goal with
  | H : ?b = true |- context [?b] => rewrite H
  | H : ?b = false |- context [?b] => rewrite H
  end;
  cbn [andb orb negb].

Ltac step := run; decide_tests; run.

Ltac literals := cbn [String.eqb Ascii.eqb Bool.eqb andb orb negb].

(** A handler leaves everything alone when the action is not its own. *)

Lemma onNavigate_skip args fb (q : Page) :
  (String.eqb (action args) "NAVIGATE"
   && match route args with
      | Some r => isValidRoute (JS.trim r)
      | None => false
      end) = false ->
  onNavigate args fb q = (fb, q).
Proof.
  unfold onNavigate. destruct (route args) as [r|]; [|reflexivity].
  destruct (String.eqb (action args) "NAVIGATE"); [|reflexivity].
  cbn [andb]. intros ->. destruct (JS.truthy r); reflexivity.
Qed.

Lemma onSetAlertMode_skip args fb (q : Page) :
  String.eqb (action args) "SET_ALERT_MODE" = false ->
  onSetAlertMode args fb q = (fb, q).
Proof. unfold onSetAlertMode. intros ->. reflexivity. Qed.

Lemma onSimulationControl_skip args fb (q : Page) :
  String.eqb (action args) "SIMULATION_CONTROL" = false ->
  onSimulationControl args fb q = (fb, q).
Proof. unfold onSimulationControl. intros ->. reflexivity. Qed.

Lemma onMapControl_skip args fb (q : Page) :
  String.eqb (action args) "MAP_CONTROL" = false ->
  onMapControl args fb q = (fb, q).
Proof. unfold onMapControl. intros ->. reflexivity. Qed.

Lemma onOpenReport_skip args fb (q : Page) :
  String.eqb (action args) "OPEN_REPORT" = false ->
  onOpenReport args fb q = (fb, q).
Proof. unfold onOpenReport. intros ->. reflexivity. Qed.


Section Handlers.

Variables (s : State) (st : Storage) (clk : Z) (ent : nat -> string)
          (dr : nat) (h : string) (sp : bool) (tr : list (Z * Effect)).

Let p : Page := mkPage s (mkWorld st clk ent dr h sp tr).

Lemma speak_eq text :
  speak text p
  = (tt, mkPage s (mkWorld st clk ent dr h sp (tr ++ speech sp clk text))).
Proof.
  subst p. unfold speech.
  destruct sp; [destruct (JS.truthy text) eqn:E|]; step;
    rewrite <- ?app_assoc, ?app_nil_r; reflexivity.
Qed.

Lemma addMessage_eq m :
  addMessage m p
  = (tt, mkPage (mkState (messages s ++ [m]) (inputText s) (isProcessing s)
                   (alertMode s) (locationRequest s) (userCoords s)
                   (isGuiding s) (simMode s))
                (mkWorld st clk ent dr h sp tr)).
Proof. reflexivity. Qed.

(** What each handler does when the action is its own. *)

Lemma onNavigate_go args fb r :
  action args = "NAVIGATE"%string -> route args = Some r ->
  isValidRoute (JS.trim r) = true ->
  onNavigate args fb p
  = (orElse fb (routing (JS.trim r)),
     mkPage (mkState (messages s) (inputText s) (isProcessing s)
               (alertMode s) (locationRequest s) (userCoords s) true
               (simMode s))
            (mkWorld st clk ent dr ("#" ++ JS.trim r)%string sp
               (tr ++ [(clk, TimerSet 2500 GuidingOff);
                       (clk, Navigated (JS.trim r))]))).
Proof.
  intros Ha Hr Hv. unfold onNavigate. rewrite Ha, Hr, Hv. literals.
  assert (Ht : JS.truthy r = true).
  { destruct r; [discriminate Hv | reflexivity]. }
  rewrite Ht. subst p. run. rewrite <- app_assoc. reflexivity.
Qed.

Lemma onSetAlertMode_go args fb :
  action args = "SET_ALERT_MODE"%string ->
  let isActive := match alertActive args with
                  | Some true => true
                  | _ => false
                  end in
  onSetAlertMode args fb p
  = (orElse fb (if isActive then "Red Alert activated."
                else "Alerts cancelled."),
     mkPage (mkState (messages s) (inputText s) (isProcessing s) isActive
               (locationRequest s) (userCoords s) (isGuiding s) (simMode s))
            (mkWorld st clk ent dr h sp tr)).
Proof. intros Ha. unfold onSetAlertMode. rewrite Ha. reflexivity. Qed.

Lemma onSimulationControl_go args fb :
  action args = "SIMULATION_CONTROL"%string ->
  let event := Dispatched (AidenSim (simulationCommand args)
                                    (intensityValue args)) in
  onSimulationControl args fb p
  = (orElse fb ("Simulation protocol " ++ showOpt (simulationCommand args)
                  ++ " executed.")%string,
     if isStr (simulationCommand args) "START"
        && negb (String.eqb h "#/simulation")
     then mkPage s (mkWorld st (clk + 500) ent dr "#/simulation" sp
                      (tr ++ [(clk, Navigated "/simulation");
                              (clk + 500, event)]))
     else mkPage s (mkWorld st clk ent dr h sp (tr ++ [(clk, event)]))).
Proof.
  intros Ha. unfold onSimulationControl. rewrite Ha. literals.
  subst p.
  destruct (isStr (simulationCommand args) "START") eqn:E1;
    destruct (String.eqb h "#/simulation") eqn:E2; step;
    rewrite <- ?app_assoc; reflexivity.
Qed.

Lemma onMapControl_go args fb :
  action args = "MAP_CONTROL"%string ->
  let event := Dispatched (AidenMap (mapCommand args)) in
  onMapControl args fb p
  = (orElse fb ("Map view updating: " ++ showOpt (mapCommand args) ++ ".")%string,
     if negb (String.eqb h "#/map")
     then mkPage s (mkWorld st (clk + 500) ent dr "#/map" sp
                      (tr ++ [(clk, Navigated "/map"); (clk + 500, event)]))
     else mkPage s (mkWorld st clk ent dr h sp (tr ++ [(clk, event)]))).
Proof.
  intros Ha. unfold onMapControl. rewrite Ha. literals.
  subst p.
  destruct (String.eqb h "#/map") eqn:E; step;
    rewrite <- ?app_assoc; reflexivity.
Qed.

Lemma onOpenReport_go args fb :
  action args = "OPEN_REPORT"%string ->
  onOpenReport args fb p
  = (orElse fb "Opening report interface.",
     if negb (String.eqb h "#/map")
     then mkPage s (mkWorld st (clk + 500) ent dr "#/map" sp
                      (tr ++ [(clk, Navigated "/map");
                              (clk + 500, Dispatched AidenReportUi)]))
     else mkPage s (mkWorld st clk ent dr h sp
                      (tr ++ [(clk, Dispatched AidenReportUi)]))).
Proof.
  intros Ha. unfold onOpenReport. rewrite Ha. literals.
  subst p.
  destruct (String.eqb h "#/map") eqn:E; step;
    rewrite <- ?app_assoc; reflexivity.
Qed.

End Handlers.

(** The two places where the component shows and speaks a text. *)
Section Showing.

Variables (s : State) (st : Storage) (clk : Z) (ent : nat -> string)
          (dr : nat) (h : string) (sp : bool) (tr : list (Z * Effect)).

Lemma show_and_speak (b : bool) text g :
  when b (bind (addMessage (fromAssistant text g)) (fun _ => speak text))
       (mkPage s (mkWorld st clk ent dr h sp tr))
  = (tt,
     if b then
       mkPage (mkState (messages s ++ [fromAssistant text g]) (inputText s)
                 (isProcessing s) (alertMode s) (locationRequest s)
                 (userCoords s) (isGuiding s) (simMode s))
              (mkWorld st clk ent dr h sp (tr ++ speech sp clk text))
     else mkPage s (mkWorld st clk ent dr h sp tr)).
Proof.
  destruct b; [|reflexivity].
  unfold when, bind. rewrite addMessage_eq. apply speak_eq.
Qed.

End Showing.

Lemma bind_eq {S A B} (m : ST S A) (k : A -> ST S B) (q : S) :
  bind m k q = k (fst (m q)) (snd (m q)).
Proof. unfold bind. destruct (m q). reflexivity. Qed.

(** Side conditions on the action of a call. *)
Ltac side :=
  first
    [ assumption
    | reflexivity
    | apply String.eqb_neq; assumption
    | match goal with
      | H : action _ = _ |- _ =>
          rewrite H; literals;
          repeat match goal with
                 | H' : ?x = _ |- context [?x] => rewrite H'
                 end;
          reflexivity
      end
    | match goal with
      | H : action ?a <> ?x |- context [String.eqb (action ?a) ?x] =>
          rewrite (proj2 (String.eqb_neq _ _) H); reflexivity
      end ].

(** One handler of the [controlApp] branch, by the lemma that applies. *)
Ltac handler lemma :=
  rewrite bind_eq; cbv beta; rewrite lemma by side; cbn [fst snd].

Ltac skip_rest :=
  repeat first
    [ handler onSetAlertMode_skip
    | handler onSimulationControl_skip
    | handler onMapControl_skip
    | handler onOpenReport_skip ].

(** The end of the branch: the feedback, then [setIsProcessing(false)]. *)
Ltac finish :=
  match goal with
  | |- context [when ?b (bind (addMessage ?m) ?k) (mkPage ?s (mkWorld ?st ?clk ?ent ?dr ?h ?sp ?tr))] =>
      let H := fresh in
      pose proof (show_and_speak s st clk ent dr h sp tr b (msg_text m) None) as H;
      unfold fromAssistant in H; cbn [msg_text] in H; rewrite H; clear H
  end;
  cbn [fst snd].

Ltac split_tests :=
  repeat match goal with
  | |- context [if ?b then mkPage _ _ else mkPage _ _] => destruct b
  end.

Lemma uttered_speech sp t text :
  JS.truthy text = true ->
  uttered (speech sp t text) = if sp then [text] else [].
Proof. intros H. unfold speech. rewrite H. destruct sp; reflexivity. Qed.

(** Both sides computed, case by case on the narration. *)
Ltac close text sp :=
  unfold orElse in *;
  try match goal with H : action _ = _ |- _ => rewrite ?H end;
  repeat match goal with
         | H : action ?a <> ?x |- context [String.eqb (action ?a) ?x] =>
             rewrite (proj2 (String.eqb_neq _ _) H)
         end;
  literals;
  destruct (JS.truthy text) eqn:?;
  cbn [negb andb orb];
  rewrite ?Bool.andb_false_r;
  try match goal with H : JS.truthy ?t = true |- context [JS.truthy ?t] => rewrite H end;
  cbn [ui world messages trace map fst snd];
  rewrite ?uttered_app, ?navigations_app, ?StoreFacts.dispatched_app;
  cbn [uttered];
  rewrite ?uttered_speech by assumption;
  rewrite ?app_nil_r;
  split; try destruct sp; cbn [uttered speech app]; rewrite ?app_nil_r;
  reflexivity.



Lemma quiet_speech sp t text :
  navigations (speech sp t text) = [] /\ dispatched (speech sp t text) = [].
Proof.
  unfold speech. destruct sp; [destruct (JS.truthy text)|]; split; reflexivity.
Qed.

(** What the [controlApp] branch shows and speaks. *)
Lemma onControlApp_shows text g args s st clk ent dr h sp tr :
  let response :=
    {| chat_text := text; functionCall := Some (controlApp args);
       chat_grounding := g |} in
  let q' := snd (onControlApp response args
                   (mkPage s (mkWorld st clk ent dr h sp tr))) in
  let feedback :=
    if JS.truthy text then []
    else if executes args then [acknowledgement args] else [] in
  messages (ui q')
  = messages s ++ map (fun t => fromAssistant t None) feedback
  /\ uttered (trace (world q'))
     = uttered tr ++ (if sp then feedback else []).
Proof.
  intros response q' feedback. subst response q' feedback.
  unfold onControlApp. cbn [chat_text].
  pose proof (truthy_acknowledgement args) as Hack.
  unfold executes, acknowledgement in *.
  destruct (String.eqb_spec (action args) "NAVIGATE") as [Ha|Hn1].
  - destruct (route args) as [r|] eqn:Hr;
      [destruct (isValidRoute (JS.trim r)) eqn:Hv|].
    + handler (onNavigate_go s st clk ent dr h sp tr args text r Ha Hr Hv).
      skip_rest. finish. close text sp.
    + handler onNavigate_skip. skip_rest. finish. close text sp.
    + handler onNavigate_skip. skip_rest. finish. close text sp.
  - handler onNavigate_skip.
    destruct (String.eqb_spec (action args) "SET_ALERT_MODE") as [Ha|Hn2].
    + handler (onSetAlertMode_go s st clk ent dr h sp tr args text Ha).
      skip_rest. cbv zeta.
      destruct (alertActive args) as [[]|]; finish; close text sp.
    + handler onSetAlertMode_skip.
      destruct (String.eqb_spec (action args) "SIMULATION_CONTROL") as [Ha|Hn3].
      * handler (onSimulationControl_go s st clk ent dr h sp tr args text Ha).
        skip_rest. split_tests; finish; close text sp.
      * handler onSimulationControl_skip.
        destruct (String.eqb_spec (action args) "MAP_CONTROL") as [Ha|Hn4].
        -- handler (onMapControl_go s st clk ent dr h sp tr args text Ha).
           skip_rest. split_tests; finish; close text sp.
        -- handler onMapControl_skip.
           destruct (String.eqb_spec (action args) "OPEN_REPORT") as [Ha|Hn5].
           ++ handler (onOpenReport_go s st clk ent dr h sp tr args text Ha).
              split_tests; finish; close text sp.
           ++ handler onOpenReport_skip. finish. close text sp.
Qed.

(** Outside the [controlApp] branch the narration is not guarded: with a
    [getUserLocation] call the text of the response is shown once as the
    narration and once more as the request. *)
Lemma getUserLocation_repeats_narration loaded host text g s w :
  JS.truthy text = true ->
  let response :=
    {| chat_text := text; functionCall := Some getUserLocation;
       chat_grounding := g |} in
  messages (ui (snd (onResponse loaded host response (mkPage s w))))
  = messages s ++ [fromAssistant text g; fromAssistant text None].
Proof.
  intros Ht response. subst response. destruct w as [st clk ent dr h sp tr].
  unfold onResponse, orElse.
  cbn [chat_text functionCall chat_grounding]. rewrite Ht.
  rewrite bind_eq.
  pose proof (show_and_speak s st clk ent dr h sp tr true text g) as H1.
  unfold fromAssistant in H1. rewrite H1. clear H1. cbn [fst snd].
  rewrite bind_eq, addMessage_eq. cbn [fst snd].
  rewrite bind_eq, speak_eq. cbn [fst snd].
  cbn [bind setLocationRequest setIsProcessing setState snd ui messages].
  rewrite <- app_assoc. reflexivity.
Qed.

End AidenFacts.



Section DispatcherProperties.
Import Types Browser Gemini Aiden Spec Words.

Variable loaded : Z.
Variable host : string -> option Z.

(** C9, as the code has it.  For one [controlApp] response the component
    shows the narration when there is one; when there is none it shows
    the synthesized feedback of a call that it carries out, and nothing
    for a call that it ignores: never two messages; and what it shows is
    what it speaks, where the browser can speak. *)
Theorem controlApp_shows_at_most_one
    (text : string) (g : option Grounding) (args : ControlArgs) (p : Page) :
  let response :=
    {| chat_text := text; functionCall := Some (controlApp args);
       chat_grounding := g |} in
  let p' := snd (onResponse loaded host response p) in
  messages (ui p') = messages (ui p) ++ shown text g args
  /\ (List.length (shown text g args) <= 1)%nat
  /\ uttered (trace (world p'))
     = uttered (trace (world p))
       ++ (if speechSynthesis (world p)
           then map msg_text (shown text g args) else []).
Proof.
  destruct p as [s [st clk ent dr h sp tr]].
  intros response p'. subst response p'.
  unfold onResponse.
  cbn [chat_text functionCall chat_grounding].
  rewrite AidenFacts.bind_eq.
  pose proof (AidenFacts.show_and_speak s st clk ent dr h sp tr
                (JS.truthy text) text g) as H1.
  unfold fromAssistant in H1. rewrite H1. clear H1. cbn [fst snd].
  rewrite AidenFacts.bind_eq.
  cbn [setIsProcessing setState snd ui world messages].
  unfold shown.
  destruct (JS.truthy text) eqn:Ht;
    match goal with
    | |- context [onControlApp ?r args (mkPage ?s1 (mkWorld _ _ _ _ _ _ ?tr1))] =>
        destruct (AidenFacts.onControlApp_shows text g args s1 st clk ent dr
                    h sp tr1) as [Hm Hu]
    end;
    rewrite Ht in Hm, Hu; rewrite Hm, Hu; cbn [messages map].
  - rewrite AidenFacts.uttered_app, (AidenFacts.uttered_speech sp clk text Ht).
    repeat split; [rewrite app_nil_r; reflexivity | cbn; lia |].
    destruct sp; rewrite ?app_nil_r; reflexivity.
  - destruct (executes args); cbn [map List.length fromAssistant msg_text];
      repeat split; lia.
Qed.

(** C3.  A [controlApp] call with action SIMULATION_CONTROL and command
    START, received while the hash is not [#/simulation]: the component
    navigates to [/simulation] and, 500 ms later, dispatches ['aiden-sim']
    with the command; nothing else in the turn navigates or dispatches,
    so the navigation comes first in the trace. *)
Theorem simulation_start_navigates_first
    (text : string) (g : option Grounding) (args : ControlArgs) (p : Page) :
  action args = "SIMULATION_CONTROL"%string ->
  simulationCommand args = Some "START"%string ->
  hash (world p) <> "#/simulation"%string ->
  let response :=
    {| chat_text := text; functionCall := Some (controlApp args);
       chat_grounding := g |} in
  let p' := snd (onResponse loaded host response p) in
  let t := clock (world p) in
  exists before after,
    trace (world p')
    = trace (world p) ++ before
        ++ [(t, Navigated "/simulation");
            (t + 500, Dispatched (AidenSim (Some "START"%string)
                                           (intensityValue args)))]
        ++ after
    /\ navigations before = [] /\ dispatched before = []
    /\ navigations after = [] /\ dispatched after = []
    /\ hash (world p') = "#/simulation"%string.
Proof.
  intros Ha Hc Hh response p' t. subst response p' t.
  destruct p as [s [st clk ent dr h sp tr]].
  cbn [world hash clock trace] in *.
  apply String.eqb_neq in Hh.
  unfold onResponse.
  cbn [chat_text functionCall chat_grounding].
  rewrite AidenFacts.bind_eq.
  pose proof (AidenFacts.show_and_speak s st clk ent dr h sp tr
                (JS.truthy text) text g) as H1.
  unfold fromAssistant in H1. rewrite H1. clear H1. cbn [fst snd].
  rewrite AidenFacts.bind_eq.
  cbn [setIsProcessing setState snd ui world trace hash].
  unfold onControlApp. cbn [chat_text].
  exists (if JS.truthy text then speech sp clk text else []).
  exists (if JS.truthy text then []
          else speech sp (clk + 500) "Simulation protocol START executed.").
  destruct (JS.truthy text) eqn:Ht.
  all: AidenFacts.handler AidenFacts.onNavigate_skip.
  all: AidenFacts.handler AidenFacts.onSetAlertMode_skip.
  all: match goal with
       | Ha' : action ?a = _
         |- context [bind (onSimulationControl ?a ?fb) _
                       (mkPage ?s1 (mkWorld ?st1 ?c1 ?e1 ?d1 ?h1 ?sp1 ?tr1))] =>
           AidenFacts.handler
             (AidenFacts.onSimulationControl_go s1 st1 c1 e1 d1 h1 sp1 tr1
                a fb Ha')
       end.
  all: rewrite Hc; unfold isStr; rewrite Hh; cbn [String.eqb Ascii.eqb Bool.eqb andb negb].
  all: AidenFacts.handler AidenFacts.onMapControl_skip.
  all: AidenFacts.handler AidenFacts.onOpenReport_skip.
  all: AidenFacts.finish.
  all: unfold orElse, showOpt; rewrite ?Ht;
    cbn [negb andb JS.truthy String.append].
  all: cbn [ui world trace hash].
  all: match goal with
       | |- context [speech ?b ?c1 ?t1] =>
           pose proof (AidenFacts.quiet_speech b c1 t1) as [Hn1 Hd1]
       end.
  all: repeat split; try assumption; try reflexivity.
  all: rewrite <- ?app_assoc; cbn [app]; rewrite ?app_nil_r; reflexivity.
Qed.

(** C4, as the code has it.  A [controlApp] call with action NAVIGATE in a
    response without narration: when the route, with the white space
    around it trimmed, is one of the eight routes of the list, the
    component navigates to the trimmed route and shows "Routing to"
    followed by the route without its slash ("Dashboard" for [/]); in
    every other case it navigates nowhere and shows nothing: the trace,
    the hash and the messages are as they were.  Trimming changes none of
    the eight routes. *)
Theorem navigate_without_narration
    (g : option Grounding) (r : option string) (a : option bool)
    (sc : option string) (iv : option Q) (mc : option string) (p : Page) :
  let args :=
    {| action := "NAVIGATE"; route := r; alertActive := a;
       simulationCommand := sc; intensityValue := iv; mapCommand := mc |} in
  let response :=
    {| chat_text := ""; functionCall := Some (controlApp args);
       chat_grounding := g |} in
  let p' := snd (onResponse loaded host response p) in
  let target := JS.trim (match r with Some r => r | None => ""%string end) in
  map JS.trim validRoutes = validRoutes
  /\ if isValidRoute target then
       navigations (trace (world p'))
       = navigations (trace (world p)) ++ [target]
       /\ hash (world p') = ("#" ++ target)%string
       /\ messages (ui p')
          = messages (ui p) ++ [fromAssistant (routing target) None]
     else
       trace (world p') = trace (world p)
       /\ hash (world p') = hash (world p)
       /\ messages (ui p') = messages (ui p).
Proof.
  destruct p as [s [st clk ent dr h sp tr]].
  intros args response p' target. split; [reflexivity|].
  subst response p'.
  unfold onResponse.
  cbn [chat_text functionCall chat_grounding].
  rewrite AidenFacts.bind_eq. cbn [JS.truthy when ret fst snd].
  rewrite AidenFacts.bind_eq.
  cbn [setIsProcessing setState snd ui world trace hash messages].
  unfold onControlApp. cbn [chat_text].
  destruct (isValidRoute target) eqn:Hv.
  - destruct r as [r|]; [|discriminate Hv]. subst target.
    AidenFacts.handler
      (AidenFacts.onNavigate_go s st clk ent dr h sp tr args "" r
         eq_refl eq_refl Hv).
    AidenFacts.skip_rest. AidenFacts.finish.
    unfold orElse. cbn [JS.truthy negb andb].
    rewrite (AidenFacts.truthy_routing (JS.trim r)).
    cbn [ui world trace hash messages].
    pose proof (AidenFacts.quiet_speech sp clk (routing (JS.trim r))) as [Hn _].
    rewrite !AidenFacts.navigations_app, Hn. cbn [navigations].
    rewrite app_nil_r. repeat split; reflexivity.
  - assert (Hs : (String.eqb (action args) "NAVIGATE"
                  && match route args with
                     | Some r => isValidRoute (JS.trim r)
                     | None => false
                     end) = false).
    { subst args target. cbn [action route]. destruct r; [exact Hv | reflexivity]. }
    rewrite AidenFacts.bind_eq; cbv beta.
    rewrite (AidenFacts.onNavigate_skip args "" _ Hs). cbn [fst snd].
    AidenFacts.skip_rest. AidenFacts.finish.
    cbn [JS.truthy negb andb ui world trace hash messages].
    repeat split; reflexivity.
Qed.

End DispatcherProperties.

(* ================================================================== *)
(** ** The theorems at work *)
(* ================================================================== *)

Section Instances.
Import Types Browser Gemini Aiden Spec Words GatewayWords.

(** The two contacts of the fixtures have distinct identifiers; deleting
    the first leaves the second. *)
Lemma deleteContact_removes_one_witness :
  NoDup (map contact_id (contactsOf Scenario.loaded (localStorage Scenario.start)))
  /\ exists contacts',
       CONTACTS (localStorage (snd (Api.deleteContact Scenario.loaded "c1"
                                      Scenario.start)))
       = Some contacts'.
Proof.
  assert (H : NoDup (map contact_id
                       (contactsOf Scenario.loaded (localStorage Scenario.start)))).
  { cbn. constructor.
    - intros [H|[]]; discriminate H.
    - constructor; [intros [] | constructor]. }
  split; [exact H|].
  destruct (deleteContact_removes_one Scenario.loaded "c1" Scenario.start H)
    as (contacts' & Hc & _).
  exists contacts'. exact Hc.
Defined.

(** The fixtures of the example were built in 2024; a first read of the
    reports finds them. *)
Lemma seeding_idempotent_witness :
  (T_MIN + 43200000 <= Scenario.loaded <= T_MAX)
  /\ localStorage Scenario.start = emptyStorage
  /\ fst (Api.getReports Scenario.loaded Scenario.noHost Scenario.start)
     = Constants.MOCK_REPORTS Scenario.loaded.
Proof.
  assert (Hl : T_MIN + 43200000 <= Scenario.loaded <= T_MAX).
  { unfold T_MIN, T_MAX, Scenario.loaded. lia. }
  split; [exact Hl|]. split; [reflexivity|].
  apply (seeding_idempotent Scenario.loaded Scenario.noHost Scenario.start
           Hl eq_refl).
Defined.

(** A search answers thirteen chunks: the one without title is skipped,
    the third of the twelve others repeats the link of the first and is
    dropped, and of the eleven kept the first ten are returned. *)
Lemma dedupe_keeps_first_and_caps_witness :
  hasCredential (Some "key"%string) = true
  /\ Scenes.newsService (asked NewsSearch Scenario.start) NewsSearch
     = Answered Scenes.answer
  /\ groundingMetadata Scenes.answer
     = Some {| groundingChunks := Some Scenes.chunks |}
  /\ mapFrom 0 (newsItemOfChunk Scenes.hostnames (clock Scenario.start))
             (filter hasUriAndTitle Scenes.chunks) = Some Scenes.items
  /\ map news_id (fst (fetchRealTimeNews (Some "key"%string)
                         Scenes.newsService Scenes.hostnames Scenario.start))
     = map (fun i => VStr ("live-" ++ showZ i ++ "-1714557600000"))
           [0; 1; 3; 4; 5; 6; 7; 8; 9; 10].
Proof.
  assert (Hm : mapFrom 0 (newsItemOfChunk Scenes.hostnames (clock Scenario.start))
                 (filter hasUriAndTitle Scenes.chunks) = Some Scenes.items)
    by (vm_compute; reflexivity).
  split; [reflexivity|]. split; [reflexivity|]. split; [reflexivity|].
  split; [exact Hm|].
  destruct (dedupe_keeps_first_and_caps (Some "key"%string) Scenes.newsService
              Scenes.hostnames Scenario.start Scenes.answer Scenes.chunks
              Scenes.items eq_refl eq_refl eq_refl Hm) as (Hr & _).
  rewrite Hr. vm_compute. reflexivity.
Defined.

(** Without [API_KEY] the plan is the fixed string. *)
Lemma no_credential_fallbacks_witness :
  noCredential None
  /\ fst (generateEmergencyPlanText None (fun _ _ => Threw)
            "river flooding downtown" Scenario.start)
     = "AI Service Unavailable"%string.
Proof.
  assert (H : noCredential None) by (left; reflexivity).
  split; [exact H|].
  apply (no_credential_fallbacks None (fun _ _ => Threw) (fun _ => None)
           (fun _ => None) "" "river flooding downtown" "" [] None
           Scenario.start H).
Defined.

(** On the dashboard, a START call takes the component to the
    simulation. *)
Lemma simulation_start_navigates_first_witness :
  hash (world Scenario.page) <> "#/simulation"%string
  /\ hash (world (snd (onResponse Scenario.loaded Scenario.noHost
                         Scenario.startSimulation Scenario.page)))
     = "#/simulation"%string.
Proof.
  assert (H : hash (world Scenario.page) <> "#/simulation"%string)
    by discriminate.
  split; [exact H|].
  destruct (simulation_start_navigates_first Scenario.loaded Scenario.noHost
              "" None
              {| action := "SIMULATION_CONTROL"; route := None;
                 alertActive := None; simulationCommand := Some "START"%string;
                 intensityValue := None; mapCommand := None |}
              Scenario.page eq_refl eq_refl H)
    as (before & after & _ & _ & _ & _ & _ & Hh).
  exact Hh.
Defined.

(** C4, as the specification has it, fails: the route ["/map "], with a
    space at its end, is not one of the eight routes of the list, and yet
    the component navigates to [/map] and acknowledges it. *)
Lemma padded_route_is_followed :
  let p' := snd (onResponse Scenario.loaded Scenario.noHost
                   (Scenario.navigateTo "/map ") Scenario.page) in
  ~ In "/map "%string validRoutes
  /\ navigations (trace (world p')) = ["/map"%string]
  /\ messages (ui p')
     = messages (ui Scenario.page)
         ++ [fromAssistant "Routing to map." None].
Proof.
  cbv zeta. split; [|split; vm_compute; reflexivity].
  intros H. repeat (destruct H as [H|H]; [discriminate H|]). exact H.
Qed.

(** C9, as the specification has it, fails: for a call to a route that is
    not in the list, in a response without narration, the component shows
    no message at all. *)
Lemma ignored_call_shows_nothing :
  let response := Scenario.navigateTo "/nonexistent" in
  let p' := snd (onResponse Scenario.loaded Scenario.noHost response
                   Scenario.page) in
  chat_text response = ""%string
  /\ messages (ui p') = messages (ui Scenario.page)
  /\ trace (world p') = trace (world Scenario.page).
Proof. cbv zeta. repeat split; vm_compute; reflexivity. Qed.

End Instances.

(* ================================================================== *)
(** ** Further properties of the local store *)
(* ================================================================== *)

Module StoreMore.
Import Types Browser Spec StoreWords.

Section Store.

Variable loaded : Z.
Variable host : string -> option Z.

Lemma seeded_withContacts l s :
  seeded loaded (withContacts l (seeded loaded s))
  = withContacts l (seeded loaded s).
Proof. destruct s as [r e a n c]. reflexivity. Qed.

Lemma seeded_withReports doc s :
  seeded loaded (withReports doc (seeded loaded s))
  = withReports doc (seeded loaded s).
Proof. destruct s as [r e a n c]. reflexivity. Qed.

Lemma contactsOf_withContacts l s :
  contactsOf loaded (withContacts l (seeded loaded s)) = l.
Proof. destruct s as [r e a n c]. reflexivity. Qed.

Lemma reportsOf_withReports doc s :
  reportsOf loaded (withReports doc (seeded loaded s)) = doc.
Proof. destruct s as [r e a n c]. reflexivity. Qed.

Lemma reportsOf_withContacts l s :
  reportsOf loaded (withContacts l (seeded loaded s)) = reportsOf loaded s.
Proof. destruct s as [r e a n c]. destruct r; reflexivity. Qed.

Lemma contactsOf_seeded s :
  contactsOf loaded (seeded loaded s) = contactsOf loaded s.
Proof. unfold contactsOf. rewrite StoreFacts.seeded_idem. reflexivity. Qed.

Lemma reportsOf_seeded s :
  reportsOf loaded (seeded loaded s) = reportsOf loaded s.
Proof. unfold reportsOf. rewrite StoreFacts.seeded_idem. reflexivity. Qed.

Lemma addContact_eq contact w :
  Api.addContact loaded contact w
  = let newContact :=
      {| contact_id := entropy w (drawn w); name := in_name contact;
         relation := in_relation contact; phone := in_phone contact;
         email := in_email contact |} in
    (newContact,
     mkWorld
       (withContacts (contactsOf loaded (localStorage w) ++ [newContact])
                     (seeded loaded (localStorage w)))
       (clock w + 400 + 200) (entropy w) (S (drawn w)) (hash w)
       (speechSynthesis w) (trace w)).
Proof.
  unfold Api.addContact, bind. cbn [delay].
  rewrite StoreFacts.getContacts_eq. reflexivity.
Qed.

Lemma others_spec id l c :
  In c (others id l) <-> In c l /\ contact_id c <> id.
Proof.
  unfold others. rewrite filter_In.
  destruct (String.eqb_spec (contact_id c) id) as [E|E]; cbn [negb].
  - split; [intros [_ H]; discriminate H | intros [_ H]; contradiction].
  - split; intros [H _]; split; auto.
Qed.

Lemma others_idem id l : others id (others id l) = others id l.
Proof.
  unfold others. induction l as [|c l IH]; [reflexivity|].
  cbn [filter].
  destruct (negb (String.eqb (contact_id c) id)) eqn:E; [|exact IH].
  cbn [filter]. rewrite E, IH. reflexivity.
Qed.

(** What the five reads return depends on the seeded store only. *)
Lemma answers_seeded w w' :
  seeded loaded (localStorage w') = seeded loaded (localStorage w) ->
  answers loaded host w' = answers loaded host w.
Proof.
  intros H. unfold answers.
  rewrite !StoreFacts.getReports_eq, !StoreFacts.getResources_eq,
    !StoreFacts.getAlerts_eq, !StoreFacts.getNews_eq,
    !StoreFacts.getContacts_eq.
  unfold reportsOf, contactsOf. cbn [fst]. rewrite H. reflexivity.
Qed.

(** [idIs] on a report that was read is [bears] on the stored one. *)
Lemma idIs_revived reportId r :
  Api.idIs reportId (Api.mapReport (Api.dateReviver host) r)
  = bears reportId r.
Proof.
  unfold Api.idIs, bears, Api.mapReport. cbn [id].
  destruct (id r) as [|s]; [reflexivity|]. cbn [Api.dateReviver].
  destruct (JS.isoPrefix s); cbn [negb];
    rewrite ?Bool.andb_false_r, ?Bool.andb_true_r; reflexivity.
Qed.

Lemma bears_date_shaped reportId r :
  JS.isoPrefix reportId = true -> bears reportId r = false.
Proof.
  intros H. unfold bears. destruct (id r) as [|s]; [reflexivity|].
  destruct (String.eqb_spec s reportId) as [->|]; [|reflexivity].
  rewrite H. reflexivity.
Qed.

(** A text that looks like a date starts with a digit; the year of more
    than four digits starts with a sign. *)
Lemma isoPrefix_first c s :
  JS.isoPrefix (String c s) = true -> JS.is_digit c = true.
Proof.
  destruct s as [|y2 [|y3 [|y4 [|h1 [|o1 [|o2 [|h2 [|d1 [|d2 [|sep rest]]]]]]]]]];
    unfold JS.isoPrefix; try discriminate.
  all: try (destruct h1 as [[] [] [] [] [] [] [] []]; try discriminate).
  all: try (destruct h2 as [[] [] [] [] [] [] [] []]; try discriminate).
  all: try (destruct sep as [[] [] [] [] [] [] [] []]; try discriminate).
  intros H. do 7 (apply andb_prop in H; destruct H as [H _]). exact H.
Qed.

Lemma isoPrefix_signed c s :
  JS.is_digit c = false -> JS.isoPrefix (String c s) = false.
Proof.
  intros H. destruct (JS.isoPrefix (String c s)) eqn:E; [|reflexivity].
  rewrite (isoPrefix_first c s E) in H. discriminate H.
Qed.

Lemma year_beyond t :
  T_MAX < t -> 9999 < JS.fYear (JS.fieldsOfTime t).
Proof.
  unfold T_MAX. intros Ht. cbn [JS.fieldsOfTime JS.fYear].
  pose proof (DateFacts.YearFromDay_bracket (JS.Day t)) as Hy.
  assert (Hd : JS.DayFromYear 10000 <= JS.Day t).
  { unfold JS.Day, JS.msPerDay, JS.DayFromYear.
    Z.div_mod_to_equations. lia. }
  destruct (Z_lt_le_dec 9999 (JS.YearFromDay (JS.Day t))) as [H|H]; [exact H|].
  pose proof (DateFacts.DayFromYear_mono (JS.YearFromDay (JS.Day t) + 1) 10000
                ltac:(lia)).
  lia.
Qed.

Lemma year_before t :
  t < T_MIN -> JS.fYear (JS.fieldsOfTime t) < 0.
Proof.
  unfold T_MIN. intros Ht. cbn [JS.fieldsOfTime JS.fYear].
  pose proof (DateFacts.YearFromDay_bracket (JS.Day t)) as Hy.
  assert (Hd : JS.Day t < JS.DayFromYear 0).
  { unfold JS.Day, JS.msPerDay, JS.DayFromYear.
    Z.div_mod_to_equations. lia. }
  destruct (Z_lt_le_dec (JS.YearFromDay (JS.Day t)) 0) as [H|H]; [exact H|].
  pose proof (DateFacts.DayFromYear_mono 0 (JS.YearFromDay (JS.Day t)) H).
  lia.
Qed.

Lemma isoPrefix_long_year t :
  t < T_MIN \/ T_MAX < t -> JS.isoPrefix (JS.toISOString t) = false.
Proof.
  intros Ht. unfold JS.toISOString, JS.formatFields, JS.isoYear.
  destruct Ht as [Ht|Ht].
  - pose proof (year_before t Ht) as Hy.
    destruct (Z.leb_spec 0 (JS.fYear (JS.fieldsOfTime t))); [lia|].
    cbn [andb].
    destruct (Z.ltb_spec (JS.fYear (JS.fieldsOfTime t)) 0); [|lia].
    apply isoPrefix_signed. reflexivity.
  - pose proof (year_beyond t Ht) as Hy.
    destruct (Z.leb_spec 0 (JS.fYear (JS.fieldsOfTime t))); [|lia].
    destruct (Z.leb_spec (JS.fYear (JS.fieldsOfTime t)) 9999); [lia|].
    cbn [andb].
    destruct (Z.ltb_spec (JS.fYear (JS.fieldsOfTime t)) 0); [lia|].
    apply isoPrefix_signed. reflexivity.
Qed.

End Store.

End StoreMore.

Section StoreFurther.
Import Types Browser Spec StoreWords.

Variable loaded : Z.
Variable host : string -> option Z.

(** X1.  [addContact] stores the contacts that it read followed by one
    new contact, which it returns: the fields of the input under the
    identifier that [crypto.randomUUID] gave.  The reports are as a read
    leaves them, and, unlike [createReport], the call dispatches nothing:
    the trace is as it was. *)
Theorem addContact_appends_contact (contact : ContactInput) (w : World) :
  let c := fst (Api.addContact loaded contact w) in
  let w' := snd (Api.addContact loaded contact w) in
  c = {| contact_id := entropy w (drawn w); name := in_name contact;
         relation := in_relation contact; phone := in_phone contact;
         email := in_email contact |}
  /\ CONTACTS (localStorage w')
     = Some (contactsOf loaded (localStorage w) ++ [c])
  /\ REPORTS (localStorage w') = Some (reportsOf loaded (localStorage w))
  /\ trace w' = trace w
  /\ drawn w' = S (drawn w)
  /\ clock w' = clock w + 600.
Proof.
  intros c w'. subst c w'. rewrite StoreMore.addContact_eq.
  cbv zeta. cbn [fst snd localStorage trace drawn clock].
  unfold withContacts, reportsOf. cbn [CONTACTS REPORTS seeded].
  repeat split. lia.
Qed.

(** X2.  When the identifier that [addContact] draws is borne by no
    stored contact, deleting the contact just added leaves the contacts
    that were stored before the two calls. *)
Theorem addContact_then_deleteContact (contact : ContactInput) (w : World) :
  ~ In (entropy w (drawn w))
       (map contact_id (contactsOf loaded (localStorage w))) ->
  let added := Api.addContact loaded contact w in
  let w'' := snd (Api.deleteContact loaded (contact_id (fst added))
                    (snd added)) in
  CONTACTS (localStorage w'') = Some (contactsOf loaded (localStorage w)).
Proof.
  intros Hn added w''. subst added w''.
  rewrite StoreFacts.deleteContact_eq, StoreMore.addContact_eq.
  cbv zeta. cbn [fst snd localStorage contact_id].
  rewrite StoreMore.contactsOf_withContacts.
  unfold withContacts at 1. cbn [CONTACTS]. f_equal.
  rewrite filter_app. cbn [filter contact_id].
  rewrite String.eqb_refl. cbn [negb]. rewrite app_nil_r.
  apply (StoreFacts.filter_key_absent contact_id). exact Hn.
Qed.

(** X3.  Whatever the store, after [deleteContact] no stored contact
    bears the identifier, also when several did; the contacts kept are
    those that did not bear it; deleting a second time changes nothing in
    localStorage; and the call dispatches nothing. *)
Theorem deleteContact_clears_identifier (id : string) (w : World) :
  let w' := snd (Api.deleteContact loaded id w) in
  let kept := contactsOf loaded (localStorage w') in
  CONTACTS (localStorage w') = Some kept
  /\ ~ In id (map contact_id kept)
  /\ (forall c, In c kept
                <-> In c (contactsOf loaded (localStorage w))
                    /\ contact_id c <> id)
  /\ localStorage (snd (Api.deleteContact loaded id w')) = localStorage w'
  /\ trace w' = trace w.
Proof.
  intros w' kept. subst kept w'. rewrite !StoreFacts.deleteContact_eq.
  cbn [snd localStorage trace].
  rewrite !StoreMore.contactsOf_withContacts, StoreMore.seeded_withContacts.
  fold (others id (contactsOf loaded (localStorage w))).
  fold (others id
          (others id (contactsOf loaded (localStorage w)))).
  rewrite StoreMore.others_idem.
  split; [reflexivity|]. split; [|split; [|split; reflexivity]].
  - intros Hin. apply in_map_iff in Hin. destruct Hin as (c & Hc & Hin).
    apply StoreMore.others_spec in Hin. exact (proj2 Hin Hc).
  - intros c. apply StoreMore.others_spec.
Qed.

(** X4.  A read of the contacts returns what the last write left: after
    [addContact] the contacts that were there and the new one, after
    [deleteContact] the contacts that do not bear the identifier.  A stored
    list that has become empty is read as empty: [init] does not put the
    fixtures back. *)
Theorem getContacts_reads_last_write
    (contact : ContactInput) (id : string) (w : World) :
  fst (Api.getContacts loaded (snd (Api.addContact loaded contact w)))
  = contactsOf loaded (localStorage w)
      ++ [fst (Api.addContact loaded contact w)]
  /\ fst (Api.getContacts loaded (snd (Api.deleteContact loaded id w)))
     = filter (fun c => negb (String.eqb (contact_id c) id))
              (contactsOf loaded (localStorage w))
  /\ (CONTACTS (localStorage w) = Some [] ->
      fst (Api.getContacts loaded w) = []
      /\ CONTACTS (localStorage (snd (Api.getContacts loaded w))) = Some []).
Proof.
  rewrite !StoreFacts.getContacts_eq, StoreFacts.deleteContact_eq,
    StoreMore.addContact_eq.
  cbv zeta. cbn [fst snd localStorage].
  rewrite !StoreMore.contactsOf_withContacts.
  repeat split.
  - unfold contactsOf, seeded. rewrite H. reflexivity.
  - unfold later, seeded. cbn [localStorage CONTACTS]. rewrite H. reflexivity.
Qed.

(** X5.  Whatever the store and the identifier, [verifyReport] keeps the
    number of the reports, their order, their types and their
    coordinates, and sets the flag of exactly the reports on which it finds
    the identifier: a flag that was set stays set.  It finds no identifier
    that looks like a date, so with such an identifier no flag changes. *)
Theorem verifyReport_sets_flags_only (reportId : string) (w : World) :
  let before := reportsOf loaded (localStorage w) in
  let after :=
    reportsOf loaded
      (localStorage (snd (Api.verifyReport loaded host reportId w))) in
  List.length after = List.length before
  /\ map type after = map type before
  /\ map coordinates after = map coordinates before
  /\ map verified after
     = map (fun r => verified r || bears reportId r) before
  /\ (JS.isoPrefix reportId = true ->
      map verified after = map verified before).
Proof.
  intros before after. subst after.
  rewrite StoreFacts.verifyReport_eq. cbv zeta. cbn [snd localStorage].
  rewrite StoreMore.reportsOf_withReports. fold before.
  unfold written, revived.
  set (f := fun r : UserReport =>
              if Api.idIs reportId r then Api.markVerified r else r).
  assert (Hv : map verified
                 (map (Api.mapReport Api.stringify)
                    (map f (map (Api.mapReport (Api.dateReviver host)) before)))
               = map (fun r => verified r || bears reportId r) before).
  { rewrite !map_map. apply map_ext. intros r. subst f. cbv beta.
    rewrite StoreMore.idIs_revived.
    destruct (bears reportId r); cbn [Api.mapReport Api.markVerified verified];
      rewrite ?Bool.orb_true_r, ?Bool.orb_false_r; reflexivity. }
  split; [|split; [|split; [|split]]].
  - rewrite !List.length_map. reflexivity.
  - rewrite !map_map. apply map_ext. intros r. subst f. cbv beta.
    destruct (Api.idIs reportId (Api.mapReport (Api.dateReviver host) r));
      reflexivity.
  - rewrite !map_map. apply map_ext. intros r. subst f. cbv beta.
    destruct (Api.idIs reportId (Api.mapReport (Api.dateReviver host) r));
      reflexivity.
  - exact Hv.
  - intros Hd. rewrite Hv. apply map_ext. intros r.
    rewrite (StoreMore.bears_date_shaped reportId r Hd).
    apply Bool.orb_false_r.
Qed.

(** X6.  A report filed at a time of the years 0000 to 9999, with a
    description and an identifier that do not look like dates, is read
    back as [createReport] returned it: the next [getReports] returns as
    many reports as were stored, followed by that record. *)
Theorem createReport_then_getReports (report : ReportInput) (w : World) :
  T_MIN <= clock w + 900 <= T_MAX ->
  JS.isoPrefix (in_description report) = false ->
  JS.isoPrefix (entropy w (drawn w)) = false ->
  let created := Api.createReport loaded host report w in
  let read := fst (Api.getReports loaded host (snd created)) in
  exists old,
    read = old ++ [fst created]
    /\ List.length old = List.length (reportsOf loaded (localStorage w))
    /\ map type old = map type (reportsOf loaded (localStorage w)).
Proof.
  intros Ht Hd Hu created read. subst read created.
  rewrite StoreFacts.getReports_eq, StoreFacts.createReport_eq.
  cbv zeta. cbn [fst snd localStorage].
  rewrite StoreMore.reportsOf_withReports.
  unfold written at 1. rewrite map_app. unfold revived at 1.
  rewrite map_app. cbn [map].
  eexists. split; [f_equal|split].
  - f_equal. unfold Api.mapReport.
    cbn [id type description timestamp coordinates verified].
    change (Api.stringify (VStr ?s)) with (JStr s).
    cbn [Api.stringify Api.dateReviver]. rewrite Hd, Hu.
    replace (clock w + 600 + 300) with (clock w + 900) by lia.
    pose proof (StoreFacts.revive_date host (clock w + 900) Ht) as Hr.
    cbn [Api.stringify JS.toJSON] in Hr. cbn [JS.toJSON]. rewrite Hr.
    reflexivity.
  - unfold revived. rewrite !List.length_map. reflexivity.
  - unfold revived. rewrite !map_map. apply map_ext. intros r. reflexivity.
Qed.

(** X7.  A Date of the years 0000 to 9999 comes back from the store as
    the Date that went in.  A Date outside these years does not: its text
    starts with a sign, [dateReviver] does not recognise it, and it comes
    back as that text.  An Invalid Date is stored as [null] and comes back
    as [null]. *)
Theorem date_round_trip_needs_four_digit_year (t : Z) :
  (T_MIN <= t <= T_MAX ->
   Api.dateReviver host (Api.stringify (VDate (Some t))) = VDate (Some t))
  /\ (t < T_MIN \/ T_MAX < t ->
      Api.dateReviver host (Api.stringify (VDate (Some t)))
      = VStr (JS.toISOString t))
  /\ Api.dateReviver host (Api.stringify (VDate None)) = VNull.
Proof.
  split; [|split].
  - apply StoreFacts.revive_date.
  - intros Ht. cbn [Api.stringify JS.toJSON Api.dateReviver].
    rewrite (StoreMore.isoPrefix_long_year t Ht). reflexivity.
  - reflexivity.
Qed.

(** X8.  Reads are repeatable.  None of the five reads changes what any
    of the five returns afterwards, whatever the store; a read dispatches
    nothing and draws no identifier. *)
Theorem reads_are_repeatable (w : World) :
  let after (w' : World) :=
    answers loaded host w' = answers loaded host w
    /\ trace w' = trace w /\ drawn w' = drawn w in
  after (snd (Api.getReports loaded host w))
  /\ after (snd (Api.getResources loaded w))
  /\ after (snd (Api.getAlerts loaded host w))
  /\ after (snd (Api.getNews loaded host w))
  /\ after (snd (Api.getContacts loaded w)).
Proof.
  cbv zeta.
  rewrite StoreFacts.getReports_eq, StoreFacts.getResources_eq,
    StoreFacts.getAlerts_eq, StoreFacts.getNews_eq, StoreFacts.getContacts_eq.
  cbn [snd].
  repeat split;
    apply StoreMore.answers_seeded; cbn [later localStorage];
    apply StoreFacts.seeded_idem.
Qed.

(** X9.  Whatever the store, [createReport] leaves as many reports as
    there were, in their order and with their types, coordinates and
    flags, followed by one new record: the one that it returns, with the
    fields of the input, the identifier that [crypto.randomUUID] gave, the
    time 900 ms after the call and the flag false.  It draws one
    identifier and dispatches ['db-reports-updated'] once, at that time. *)
Theorem createReport_adds_one_record (report : ReportInput) (w : World) :
  let created := Api.createReport loaded host report w in
  let before := reportsOf loaded (localStorage w) in
  fst created
  = mkReport (VStr (entropy w (drawn w))) (in_type report)
      (VStr (in_description report)) (VDate (Some (clock w + 900)))
      (in_coordinates report) false
  /\ (exists kept,
        REPORTS (localStorage (snd created))
        = Some (kept ++ [Api.mapReport Api.stringify (fst created)])
        /\ List.length kept = List.length before
        /\ map type kept = map type before
        /\ map coordinates kept = map coordinates before
        /\ map verified kept = map verified before)
  /\ trace (snd created)
     = trace w ++ [(clock w + 900, Dispatched DbReportsUpdated)]
  /\ drawn (snd created) = S (drawn w).
Proof.
  intros created before. subst created.
  rewrite StoreFacts.createReport_eq. cbv zeta.
  cbn [fst snd localStorage trace drawn].
  replace (clock w + 600 + 300) with (clock w + 900) by lia.
  split; [reflexivity|]. split; [|split; reflexivity].
  unfold withReports. cbn [REPORTS]. unfold written. rewrite map_app.
  cbn [map]. eexists. split; [reflexivity|].
  fold before. unfold revived. rewrite !List.length_map, !map_map.
  repeat split; apply map_ext; intros r; reflexivity.
Qed.

End StoreFurther.

(* ================================================================== *)
(** ** Further properties of the AI gateway *)
(* ================================================================== *)

Module GatewayMore.
Import Types Browser Gemini Spec Words GatewayWords.

Lemma sent_app tr tr' : sent (tr ++ tr') = sent tr ++ sent tr'.
Proof.
  induction tr as [|[t e] tr IH]; [reflexivity|].
  destruct e; cbn; rewrite IH; reflexivity.
Qed.

(** [mapFrom] with a callback that may throw. *)
Lemma mapFrom_Forall {A B} (f : A -> Z -> option B) (P : B -> Prop) :
  (forall x i y, f x i = Some y -> P y) ->
  forall l i ys, mapFrom i f l = Some ys -> Forall P ys.
Proof.
  intros Hf. induction l as [|x l IH]; intros i ys; cbn [mapFrom].
  - intros H. injection H as <-. constructor.
  - destruct (f x i) as [y|] eqn:E; [|discriminate].
    destruct (mapFrom (i + 1) f l) as [rest|] eqn:Er; [|discriminate].
    intros H. injection H as <-. constructor.
    + exact (Hf _ _ _ E).
    + exact (IH _ _ Er).
Qed.

Lemma mapFrom_throws {A B} (f : A -> Z -> option B) x :
  (forall i, f x i = None) ->
  forall l i, In x l -> mapFrom i f l = None.
Proof.
  intros Hx. induction l as [|y l IH]; intros i; cbn [mapFrom In]; [tauto|].
  intros [->|Hin].
  - rewrite Hx. reflexivity.
  - destruct (f y i); [|reflexivity]. rewrite (IH _ Hin). reflexivity.
Qed.

Lemma newsItemOfChunk_live hostname t chunk index item :
  newsItemOfChunk hostname t chunk index = Some item -> liveItem t item.
Proof.
  unfold newsItemOfChunk.
  destruct (web chunk) as [[[u|] [ti|]]|]; try discriminate.
  cbn. destruct (hostname u); [|discriminate].
  intros H. injection H as <-. unfold liveItem. cbn.
  repeat split; eexists; reflexivity.
Qed.

Lemma liveItem_link t n : liveItem t n -> hasLink n.
Proof. intros [H _]. exact H. Qed.

(** What [fetchRealTimeNews] returns and what it leaves in the trace. *)
Lemma fetchRealTimeNews_cases API_KEY service hostname w :
  let result := fetchRealTimeNews API_KEY service hostname w in
  fst result = []
  \/ exists items,
       Forall (liveItem (clock w)) items
       /\ fst result = slice_0_10 (unique items)
       /\ snd result
          = mkWorld (localStorage w) (clock w) (entropy w) (drawn w) (hash w)
              (speechSynthesis w) (trace w ++ [(clock w, Sent NewsSearch)]).
Proof.
  unfold fetchRealTimeNews, initializeGemini, send, bind, ret, emit, now.
  destruct API_KEY as [k|]; [destruct (JS.truthy k)|]; cbn [fst];
    try (left; reflexivity).
  match goal with
  | |- context [service ?v NewsSearch] => destruct (service v NewsSearch) as [|r]
  end; [left; reflexivity|].
  destruct (groundingMetadata r) as [[[chunks|]]|]; try (left; reflexivity).
  cbn [clock].
  match goal with
  | |- context [mapFrom 0 ?f ?l] => destruct (mapFrom 0 f l) as [items|] eqn:E
  end; [|left; reflexivity].
  right. exists items. split; [|split; reflexivity].
  revert E. apply mapFrom_Forall. intros x i y.
  apply newsItemOfChunk_live.
Qed.

(** The plan is one of three fixed texts or the text of the reply, never
    the empty string. *)
Lemma plan_truthy API_KEY service context w :
  JS.truthy (fst (generateEmergencyPlanText API_KEY service context w)) = true.
Proof.
  unfold generateEmergencyPlanText, initializeGemini, send, bind, ret, emit.
  destruct API_KEY as [k|]; [destruct (JS.truthy k)|]; cbn [fst];
    try reflexivity.
  match goal with
  | |- context [service ?v ?r] => destruct (service v r) as [|a]
  end; [reflexivity|].
  destruct (text a) as [t|]; [|reflexivity].
  cbn [fst]. destruct t; reflexivity.
Qed.

(** [chatWithAssistant] looks at the first function call only. *)
Lemma chatWithAssistant_first API_KEY service service' history msg loc w :
  (forall v r, agreeOnFirst (service v r) (service' v r)) ->
  chatWithAssistant API_KEY service history msg loc w
  = chatWithAssistant API_KEY service' history msg loc w.
Proof.
  intros H.
  unfold chatWithAssistant, initializeGemini, send, bind, ret, emit.
  destruct API_KEY as [k|]; [destruct (JS.truthy k)|]; try reflexivity.
  match goal with
  | |- context [service ?v ?r] =>
      specialize (H v r); destruct (service v r) as [|a],
        (service' v r) as [|a']
  end; try contradiction; [reflexivity|].
  destruct H as (Ht & Hc & Hg). unfold firstCall in Hc.
  rewrite Ht, Hg.
  replace (match functionCalls a with
           | Some (call :: _) => Some call
           | _ => None
           end)
    with (match functionCalls a' with
          | Some (call :: _) => Some call
          | _ => None
          end).
  reflexivity.
Qed.

End GatewayMore.

Section GatewayFurther.
Import Types Browser Gemini Spec Words GatewayWords.

(** X10.  With a credential and a service that fails, each of the four
    capabilities sends its one request, logs one line and returns its
    neutral value: no prediction, "Error generating plan.", no news,
    "Communication error." without a function call. *)
Theorem service_failure_fallbacks
    (API_KEY : option string) (service : World -> Request -> Reply)
    (hostname : string -> option string)
    (parsePrediction : string -> option PredictionResult)
    (base64Image context newMessage : string) (history : list Turn)
    (userLocation : option Coordinates) (w : World) :
  hasCredential API_KEY = true ->
  (forall v r, service v r = Threw) ->
  let t := clock w in
  let image := analyzeDisasterImage API_KEY service parsePrediction base64Image w in
  let plan := generateEmergencyPlanText API_KEY service context w in
  let news := fetchRealTimeNews API_KEY service hostname w in
  let chat := chatWithAssistant API_KEY service history newMessage userLocation w in
  fst image = None
  /\ fst plan = "Error generating plan."%string
  /\ fst news = []
  /\ fst chat = {| chat_text := "Communication error."; functionCall := None;
                   chat_grounding := None |}
  /\ trace (snd image)
     = trace w ++ [(t, Sent (AnalyzeImage base64Image));
                   (t, Logged "Error analyzing image with Gemini:")]
  /\ trace (snd plan)
     = trace w ++ [(t, Sent (planRequest context)); (t, Logged "error")]
  /\ trace (snd news)
     = trace w ++ [(t, Sent NewsSearch); (t, Logged "News fetch error:")]
  /\ trace (snd chat)
     = trace w ++ [(t, Sent (ChatMessage history newMessage userLocation));
                   (t, Logged "error")].
Proof.
  intros Hk Hs. unfold hasCredential in Hk.
  destruct API_KEY as [k|]; [|discriminate Hk].
  unfold analyzeDisasterImage, generateEmergencyPlanText, fetchRealTimeNews,
    chatWithAssistant, initializeGemini, send, bind, ret, emit, planRequest.
  rewrite Hk, !Hs. cbn [fst snd trace clock].
  rewrite <- !app_assoc. repeat split; reflexivity.
Qed.

(** X11.  Whatever the service answers, a call of one of the four
    capabilities sends exactly one request to the model when a credential
    is configured, and none when it is not. *)
Theorem one_request_per_call
    (API_KEY : option string) (service : World -> Request -> Reply)
    (hostname : string -> option string)
    (parsePrediction : string -> option PredictionResult)
    (base64Image context newMessage : string) (history : list Turn)
    (userLocation : option Coordinates) (w : World) :
  let requests (r : Request) :=
    sent (trace w) ++ (if hasCredential API_KEY then [r] else []) in
  sent (trace (snd (analyzeDisasterImage API_KEY service parsePrediction
                      base64Image w)))
  = requests (AnalyzeImage base64Image)
  /\ sent (trace (snd (generateEmergencyPlanText API_KEY service context w)))
     = requests (planRequest context)
  /\ sent (trace (snd (fetchRealTimeNews API_KEY service hostname w)))
     = requests NewsSearch
  /\ sent (trace (snd (chatWithAssistant API_KEY service history newMessage
                         userLocation w)))
     = requests (ChatMessage history newMessage userLocation).
Proof.
  cbv zeta.
  unfold analyzeDisasterImage, generateEmergencyPlanText, fetchRealTimeNews,
    chatWithAssistant, initializeGemini, send, bind, ret, emit, now,
    planRequest, hasCredential.
  destruct API_KEY as [k|]; [destruct (JS.truthy k)|];
    cbn [fst snd trace clock];
    try (rewrite !GatewayMore.sent_app; cbn [sent];
         repeat split; reflexivity).
  repeat split.
  - match goal with
    | |- context [service ?v ?r] => destruct (service v r) as [|a]
    end;
      [|destruct (text a) as [t|];
        [destruct (JS.truthy t); [destruct (parsePrediction t)|]|]];
      cbn [snd trace]; rewrite !GatewayMore.sent_app; cbn [sent];
      rewrite ?app_nil_r; reflexivity.
  - match goal with
    | |- context [service ?v ?r] => destruct (service v r) as [|a]
    end; [|destruct (text a) as [t|]];
      cbn [snd trace]; rewrite !GatewayMore.sent_app; cbn [sent];
      rewrite ?app_nil_r; reflexivity.
  - match goal with
    | |- context [service ?v ?r] => destruct (service v r) as [|a]
    end; [|destruct (groundingMetadata a) as [[[chunks|]]|]];
      try match goal with
          | |- context [mapFrom 0 ?f ?l] => destruct (mapFrom 0 f l)
          end;
      cbn [snd trace]; rewrite !GatewayMore.sent_app; cbn [sent];
      rewrite ?app_nil_r; reflexivity.
  - match goal with
    | |- context [service ?v ?r] => destruct (service v r) as [|a]
    end;
      cbn [snd trace]; rewrite !GatewayMore.sent_app; cbn [sent];
      rewrite ?app_nil_r; reflexivity.
Qed.


(** X13.  One link that [new URL] rejects discards the whole answer: when
    a chunk with a link and a title has a link that does not parse,
    [fetchRealTimeNews] returns no item at all, whatever the other chunks
    are, and logs the error. *)
Theorem one_bad_link_discards_news
    (API_KEY : option string) (service : World -> Request -> Reply)
    (hostname : string -> option string) (w : World)
    (answer : GenerateContentResponse) (chunks : list Chunk)
    (u ti : string) :
  hasCredential API_KEY = true ->
  (forall v, service v NewsSearch = Answered answer) ->
  groundingMetadata answer = Some {| groundingChunks := Some chunks |} ->
  In {| web := Some {| uri := Some u; chunk_title := Some ti |} |} chunks ->
  JS.truthy u = true -> JS.truthy ti = true ->
  hostname u = None ->
  let result := fetchRealTimeNews API_KEY service hostname w in
  fst result = []
  /\ trace (snd result)
     = trace w ++ [(clock w, Sent NewsSearch);
                   (clock w, Logged "News fetch error:")].
Proof.
  intros Hk Hs Hg Hin Hu Hti Hh result. subst result.
  unfold hasCredential in Hk. destruct API_KEY as [k|]; [|discriminate Hk].
  unfold fetchRealTimeNews, initializeGemini, send, bind, ret, emit, now.
  rewrite Hk, Hs, Hg. cbn [clock].
  rewrite (GatewayMore.mapFrom_throws
             (newsItemOfChunk hostname (clock w))
             {| web := Some {| uri := Some u; chunk_title := Some ti |} |}).
  - cbn [fst snd trace]. rewrite <- app_assoc. split; reflexivity.
  - intros i. unfold newsItemOfChunk. cbn [web uri chunk_title].
    rewrite Hh. reflexivity.
  - apply filter_In. split; [exact Hin|].
    unfold hasUriAndTitle. cbn [web uri chunk_title]. rewrite Hu, Hti.
    reflexivity.
Qed.

End GatewayFurther.

(* ================================================================== *)
(** ** Further properties of the assistant *)
(* ================================================================== *)

Module AidenMore.
Import Types Browser Gemini Aiden Spec Words GatewayWords AidenWords.

Lemma timers_app tr tr' : timers (tr ++ tr') = timers tr ++ timers tr'.
Proof.
  induction tr as [|[t e] tr IH]; [reflexivity|].
  destruct e; cbn; rewrite IH; reflexivity.
Qed.

Lemma navigations_speech sp t text : navigations (speech sp t text) = [].
Proof. apply AidenFacts.quiet_speech. Qed.

Lemma dispatched_speech sp t text : dispatched (speech sp t text) = [].
Proof. apply AidenFacts.quiet_speech. Qed.

Lemma sent_speech sp t text : sent (speech sp t text) = [].
Proof.
  unfold speech. destruct sp; [destruct (JS.truthy text)|]; reflexivity.
Qed.

Lemma timers_speech sp t text : timers (speech sp t text) = [].
Proof.
  unfold speech. destruct sp; [destruct (JS.truthy text)|]; reflexivity.
Qed.

(** Two computations that do the same, step by step. *)
Lemma bind_ext {S A B} (m m' : ST S A) (k k' : A -> ST S B) (q : S) :
  (forall q, m q = m' q) -> (forall a q, k a q = k' a q) ->
  bind m k q = bind m' k' q.
Proof.
  intros Hm Hk. unfold bind. rewrite Hm. destruct (m' q). apply Hk.
Qed.

Lemma lift_ext {A} (m m' : M A) (q : Page) :
  (forall w, m w = m' w) -> lift m q = lift m' q.
Proof. intros H. unfold lift. rewrite H. reflexivity. Qed.

(** White space only: [trim] leaves nothing. *)
Lemma trim_blank s : blank s = true -> JS.trim s = ""%string.
Proof.
  unfold JS.trim. induction s as [|c s IH]; [reflexivity|].
  cbn [blank JS.trimStart]. intros H. apply andb_prop in H.
  destruct H as [Hc Hs]. rewrite Hc. exact (IH Hs).
Qed.

(** A relation between the page before and the page after that every
    step of a computation keeps. *)
Section Frames.

Variable R : Page -> Page -> Prop.
Hypothesis R_refl : forall p, R p p.
Hypothesis R_trans : forall p q r, R p q -> R q r -> R p r.

Lemma keeps_ret {A} (a : A) : keeps R (ret a).
Proof. intros p. apply R_refl. Qed.

Lemma keeps_bind {A B} (c : C A) (k : A -> C B) :
  keeps R c -> (forall a, keeps R (k a)) -> keeps R (bind c k).
Proof.
  intros Hc Hk p. rewrite AidenFacts.bind_eq.
  exact (R_trans _ _ _ (Hc p) (Hk _ _)).
Qed.

Lemma keeps_when b (c : C unit) : keeps R c -> keeps R (when b c).
Proof. intros Hc. destruct b; [exact Hc | apply keeps_ret]. Qed.

End Frames.

(** The structure of a computation, down to its steps. *)
Ltac frame Hrefl Htrans step :=
  repeat first
    [ step
    | apply (keeps_ret _ Hrefl)
    | apply (keeps_bind _ Htrans); [|intros ?]
    | apply (keeps_when _ Hrefl)
    | progress cbv zeta
    | match goal with
      | |- keeps _ (if ?b then _ else _) => destruct b
      | |- keeps _ (match ?o with _ => _ end) => destruct o
      end ].

Ltac handlers :=
  unfold onResponse, onControlApp, onNavigate, onSetAlertMode,
    onSimulationControl, onMapControl, onOpenReport, speak, triggerGuiding,
    notAt.

(** *** The simulation on display *)

Lemma sameSim_refl p : sameSim p p.
Proof. reflexivity. Qed.

Lemma sameSim_trans p q r : sameSim p q -> sameSim q r -> sameSim p r.
Proof. unfold sameSim. intros H1 H2. rewrite H2. exact H1. Qed.

Lemma sameSim_lift {A} (m : M A) : keeps sameSim (lift m).
Proof. intros p. unfold lift, sameSim. destruct (m (world p)). reflexivity. Qed.

Ltac sim_step :=
  first [ apply sameSim_lift | intros ?; reflexivity ].

Lemma onResponse_sameSim loaded host response :
  keeps sameSim (onResponse loaded host response).
Proof.
  handlers. frame sameSim_refl sameSim_trans sim_step.
Qed.

(** *** What a response leaves alone *)

Lemma quiet_refl p : quiet p p.
Proof. repeat split. Qed.

Lemma quiet_trans p q r : quiet p q -> quiet q r -> quiet p r.
Proof.
  unfold quiet. intros (A1 & A2 & A3 & A4 & A5 & A6 & A7 & A8)
                       (B1 & B2 & B3 & B4 & B5 & B6 & B7 & B8).
  repeat split; etransitivity; eassumption.
Qed.

Ltac quiet_step :=
  intros [? [? ? ? ? ? ? ?]]; unfold quiet;
  cbn; rewrite ?GatewayMore.sent_app; cbn [sent]; rewrite ?app_nil_r;
  repeat split; reflexivity.

Lemma onControlApp_quiet response args :
  keeps quiet (onControlApp response args).
Proof.
  handlers. frame quiet_refl quiet_trans quiet_step.
Qed.

(** From the second element on, the filter of [historyOf] keeps every
    message. *)
Lemma filterFrom_later (i : Z) (ms : list Message) :
  0 < i ->
  filterFrom i (fun m i => negb ((i =? 0) && match sender m with
                                             | ai => true
                                             | user => false
                                             end)) ms
  = ms.
Proof.
  revert i. induction ms as [|m ms IH]; intros i Hi; [reflexivity|].
  cbn [filterFrom].
  destruct (Z.eqb_spec i 0) as [E|_]; [lia|]. cbn [andb negb].
  rewrite IH by lia. reflexivity.
Qed.

(** The steps of [handleSend] before the request, on a page. *)
Lemma handleSend_steps loaded host API_KEY service text s w :
  JS.truthy (JS.trim text) = true ->
  handleSend loaded host API_KEY service text (mkPage s w)
  = bind (lift (chatWithAssistant API_KEY service (historyOf (messages s))
                  text (userCoords s)))
         (onResponse loaded host)
         (mkPage
            (mkState (messages s ++ [fromUser text]) (inputText s) true
               (alertMode s) (locationRequest s) (userCoords s) (isGuiding s)
               (keywordMode (JS.toLowerCase text) (simMode s)))
            w).
Proof.
  intros Ht. unfold handleSend, keywordMode, fromUser. rewrite Ht.
  cbn [negb].
  generalize (JS.includes "flood" (JS.toLowerCase text)).
  generalize (JS.includes "fire" (JS.toLowerCase text)
              || JS.includes "wildfire" (JS.toLowerCase text)).
  generalize (JS.includes "storm" (JS.toLowerCase text)
              || JS.includes "hurricane" (JS.toLowerCase text)).
  generalize (JS.includes "stop" (JS.toLowerCase text)
              || JS.includes "clear simulation" (JS.toLowerCase text)).
  intros [] [] [] []; reflexivity.
Qed.

(** Without a credential the gateway answers at once. *)
Lemma chat_offline API_KEY service history msg loc w :
  noCredential API_KEY ->
  chatWithAssistant API_KEY service history msg loc w
  = ({| chat_text := "System offline."; functionCall := None;
        chat_grounding := None |},
     mkWorld (localStorage w) (clock w) (entropy w) (drawn w) (hash w)
       (speechSynthesis w)
       (trace w ++ [(clock w,
                     Logged "API_KEY is missing from environment variables")])).
Proof. intros [-> | ->]; reflexivity. Qed.

(** Every response ends with [setIsProcessing(false)]. *)
Lemma onResponse_done loaded host response p :
  isProcessing (ui (snd (onResponse loaded host response p))) = false.
Proof.
  unfold onResponse. rewrite AidenFacts.bind_eq.
  destruct (functionCall response) as [[args| |ty d|name]|];
    rewrite ?AidenFacts.bind_eq; reflexivity.
Qed.

(** A response without function call, or with one of another name. *)
Lemma onResponse_quiet loaded host response :
  match functionCall response with
  | Some (reportIncident _ _) | Some getUserLocation => False
  | _ => True
  end ->
  keeps quiet (onResponse loaded host response).
Proof.
  unfold onResponse, speak.
  destruct (functionCall response) as [[args| |ty d|name]|];
    intros H; try contradiction;
    frame quiet_refl quiet_trans
      ltac:(first [apply onControlApp_quiet | quiet_step]).
Qed.

(** *** The alert *)

Lemma sameAlert_refl p : sameAlert p p.
Proof. reflexivity. Qed.

Lemma sameAlert_trans p q r : sameAlert p q -> sameAlert q r -> sameAlert p r.
Proof. unfold sameAlert. intros H1 H2. rewrite H2. exact H1. Qed.

Lemma sameAlert_lift {A} (m : M A) : keeps sameAlert (lift m).
Proof. intros p. unfold lift, sameAlert. destruct (m (world p)). reflexivity. Qed.

Ltac alert_step :=
  first [ apply sameAlert_lift | intros ?; reflexivity ].

(** The handlers after [onSetAlertMode], and the one before it. *)
Lemma rest_sameAlert response args fb :
  keeps sameAlert
    (bind (onSimulationControl args fb) (fun fb =>
     bind (onMapControl args fb) (fun fb =>
     bind (onOpenReport args fb) (fun fb =>
     when (negb (JS.truthy (chat_text response)) && JS.truthy fb)
       (bind (addMessage {| msg_text := fb; sender := ai;
                            msg_grounding := None |})
             (fun _ => speak fb)))))).
Proof.
  handlers. frame sameAlert_refl sameAlert_trans alert_step.
Qed.

Lemma onNavigate_sameAlert args fb : keeps sameAlert (onNavigate args fb).
Proof.
  handlers. frame sameAlert_refl sameAlert_trans alert_step.
Qed.

(** The [reportIncident] branch after the narration, on a page. *)
Lemma fileReport_eq loaded host report (m : Message) fb s st clk ent dr h sp tr :
  bind (lift (Api.createReport loaded host report)) (fun _ =>
  bind (addMessage m) (fun _ =>
  bind (speak fb) (fun _ =>
  bind (lift (emit (TimerSet 3000 (NavigateTo "/map")))) (fun _ =>
  setIsProcessing false))))
    (mkPage s (mkWorld st clk ent dr h sp tr))
  = (tt,
     mkPage
       (mkState (messages s ++ [m]) (inputText s) false (alertMode s)
          (locationRequest s) (userCoords s) (isGuiding s) (simMode s))
       (mkWorld
          (withReports
             (written
                (revived host (reportsOf loaded st)
                 ++ [mkReport (VStr (ent dr)) (in_type report)
                       (VStr (in_description report))
                       (VDate (Some (clk + 600 + 300)))
                       (in_coordinates report) false]))
             (seeded loaded st))
          (clk + 600 + 300) ent (S dr) h sp
          (((tr ++ [(clk + 600 + 300, Dispatched DbReportsUpdated)])
            ++ speech sp (clk + 600 + 300) fb)
           ++ [(clk + 600 + 300, TimerSet 3000 (NavigateTo "/map"))]))).
Proof.
  rewrite AidenFacts.bind_eq. unfold lift at 1 2.
  rewrite StoreFacts.createReport_eq. cbv zeta.
  cbn [fst snd world ui localStorage clock entropy drawn hash
       speechSynthesis trace].
  rewrite AidenFacts.bind_eq, AidenFacts.addMessage_eq. cbn [fst snd].
  rewrite AidenFacts.bind_eq, AidenFacts.speak_eq. cbn [fst snd].
  reflexivity.
Qed.

(** Whatever the page and the command, a SIMULATION_CONTROL call
    dispatches its one event. *)
Lemma simulation_dispatch loaded host text g args p :
  action args = "SIMULATION_CONTROL"%string ->
  dispatched
    (trace (world (snd (onResponse loaded host
                          {| chat_text := text;
                             functionCall := Some (controlApp args);
                             chat_grounding := g |} p))))
  = dispatched (trace (world p))
    ++ [AidenSim (simulationCommand args) (intensityValue args)].
Proof.
  intros Ha. destruct p as [s [st clk ent dr h sp tr]].
  cbn [world trace].
  unfold onResponse.
  cbn [chat_text functionCall chat_grounding].
  rewrite AidenFacts.bind_eq.
  pose proof (AidenFacts.show_and_speak s st clk ent dr h sp tr
                (JS.truthy text) text g) as H1.
  unfold fromAssistant in H1. rewrite H1. clear H1. cbn [fst snd].
  rewrite AidenFacts.bind_eq.
  cbn [setIsProcessing setState snd ui world trace].
  unfold onControlApp. cbn [chat_text].
  destruct (JS.truthy text) eqn:Ht.
  all: AidenFacts.handler AidenFacts.onNavigate_skip.
  all: AidenFacts.handler AidenFacts.onSetAlertMode_skip.
  all: match goal with
       | Ha' : action ?a = _
         |- context [bind (onSimulationControl ?a ?fb) _
                       (mkPage ?s1 (mkWorld ?st1 ?c1 ?e1 ?d1 ?h1 ?sp1 ?tr1))] =>
           AidenFacts.handler
             (AidenFacts.onSimulationControl_go s1 st1 c1 e1 d1 h1 sp1 tr1
                a fb Ha')
       end.
  all: destruct (isStr (simulationCommand args) "START"
                 && negb (String.eqb h "#/simulation")).
  all: AidenFacts.handler AidenFacts.onMapControl_skip.
  all: AidenFacts.handler AidenFacts.onOpenReport_skip.
  all: AidenFacts.finish.
  all: unfold orElse; rewrite ?Ht; cbn [negb andb].
  all: try match goal with
           | |- context [JS.truthy (?a ++ ?b)%string] =>
               change (JS.truthy (a ++ b)%string) with true
           end.
  all: cbn [ui world trace].
  all: rewrite ?StoreFacts.dispatched_app, ?dispatched_speech.
  all: cbn [dispatched app]; rewrite ?app_nil_r, <- ?app_assoc.
  all: reflexivity.
Qed.

End AidenMore.

Section AssistantFurther.
Import Types Browser Gemini Aiden Spec Words GatewayWords AidenWords.

Variable loaded : Z.
Variable host : string -> option Z.

(** X14.  A text of white space only is not sent: [handleSend] leaves
    the component and the browser as they were. *)
Theorem handleSend_ignores_blank_text
    (API_KEY : option string) (service : World -> Request -> Reply)
    (text : string) (p : Page) :
  blank text = true ->
  handleSend loaded host API_KEY service text p = (tt, p).
Proof.
  intros H. unfold handleSend. rewrite (AidenMore.trim_blank text H).
  reflexivity.
Qed.

(** X15.  Of the function calls in a reply only the first is looked at:
    with two services whose replies differ at most in the calls after the
    first, [handleSend] does the same, whatever the text and the page. *)
Theorem handleSend_first_call_only
    (API_KEY : option string) (service service' : World -> Request -> Reply)
    (text : string) (p : Page) :
  (forall v r, agreeOnFirst (service v r) (service' v r)) ->
  handleSend loaded host API_KEY service text p
  = handleSend loaded host API_KEY service' text p.
Proof.
  intros H. unfold handleSend.
  destruct (negb (JS.truthy (JS.trim text))); [reflexivity|].
  repeat (apply AidenMore.bind_ext; [reflexivity | intros ? ?]).
  apply AidenMore.bind_ext; [|reflexivity].
  intros ?. apply AidenMore.lift_ext. intros ?.
  apply GatewayMore.chatWithAssistant_first. exact H.
Qed.

(** X16.  The history sent to the model drops a message of the assistant
    at the head of the conversation and nothing else: every later message
    is there, those of the assistant under the role "model". *)
Theorem historyOf_drops_only_leading_assistant
    (m : Message) (ms : list Message) :
  historyOf [] = []
  /\ historyOf (m :: ms)
     = match sender m with
       | ai => map turnOf ms
       | user => turnOf m :: map turnOf ms
       end
  /\ (List.length ms <= List.length (historyOf (m :: ms)))%nat.
Proof.
  split; [reflexivity|].
  assert (H : historyOf (m :: ms)
              = match sender m with
                | ai => map turnOf ms
                | user => turnOf m :: map turnOf ms
                end).
  { unfold historyOf, filteri. cbn [filterFrom Z.eqb andb].
    destruct (sender m); cbn [negb];
      rewrite (AidenMore.filterFrom_later (0 + 1) ms) by lia; reflexivity. }
  split; [exact H|]. rewrite H.
  destruct (sender m); cbn [List.length]; rewrite List.length_map; lia.
Qed.

(** X17.  Whatever the model answers, the simulation on display after
    [handleSend] is the one that the key words of the message select:
    "stop" or "clear simulation" wins over "storm" or "hurricane", these
    over "fire", and "fire" over "flood"; without key word the simulation
    stays as it was. *)
Theorem handleSend_keywords_select_simulation
    (API_KEY : option string) (service : World -> Request -> Reply)
    (text : string) (p : Page) :
  JS.truthy (JS.trim text) = true ->
  simMode (ui (snd (handleSend loaded host API_KEY service text p)))
  = keywordMode (JS.toLowerCase text) (simMode (ui p)).
Proof.
  intros Ht. destruct p as [s w].
  rewrite (AidenMore.handleSend_steps loaded host API_KEY service text s w Ht).
  match goal with
  | |- simMode (ui (snd (bind ?m ?k ?q))) = _ =>
      assert (H : keeps sameSim (bind m k))
  end.
  { apply (AidenMore.keeps_bind _ AidenMore.sameSim_trans).
    - apply AidenMore.sameSim_lift.
    - intros response. apply AidenMore.onResponse_sameSim. }
  rewrite (H _). reflexivity.
Qed.

(** X18.  Without a credential [handleSend] still shows the message of
    the user, then the one message "System offline." of the assistant, and
    speaks it where the browser can speak; it sends nothing to the model,
    leaves the store alone, navigates nowhere and ends with
    [isProcessing] false. *)
Theorem handleSend_offline
    (API_KEY : option string) (service : World -> Request -> Reply)
    (text : string) (p : Page) :
  noCredential API_KEY ->
  JS.truthy (JS.trim text) = true ->
  let p' := snd (handleSend loaded host API_KEY service text p) in
  messages (ui p')
  = messages (ui p) ++ [fromUser text; fromAssistant "System offline." None]
  /\ isProcessing (ui p') = false
  /\ sent (trace (world p')) = sent (trace (world p))
  /\ uttered (trace (world p'))
     = uttered (trace (world p))
       ++ (if speechSynthesis (world p) then ["System offline."%string] else [])
  /\ navigations (trace (world p')) = navigations (trace (world p))
  /\ localStorage (world p') = localStorage (world p).
Proof.
  intros Hk Ht p'. subst p'. destruct p as [s [st clk ent dr h sp tr]].
  rewrite (AidenMore.handleSend_steps loaded host API_KEY service text _ _ Ht).
  rewrite AidenFacts.bind_eq. unfold lift.
  rewrite (AidenMore.chat_offline API_KEY service _ _ _ _ Hk).
  cbn [fst snd world ui localStorage clock entropy drawn hash speechSynthesis
       trace messages inputText alertMode locationRequest userCoords
       isGuiding simMode].
  unfold onResponse. cbn [chat_text functionCall chat_grounding].
  rewrite AidenFacts.bind_eq.
  match goal with
  | |- context [when ?b (bind (addMessage ?m) ?k)
                  (mkPage ?s1 (mkWorld ?st1 ?c1 ?e1 ?d1 ?h1 ?sp1 ?tr1))] =>
      pose proof (AidenFacts.show_and_speak s1 st1 c1 e1 d1 h1 sp1 tr1 b
                    "System offline." None) as H
  end.
  unfold fromAssistant in H. rewrite H. clear H.
  cbn [JS.truthy fst snd setIsProcessing setState ui world messages
       isProcessing trace localStorage].
  rewrite !GatewayMore.sent_app, !AidenFacts.uttered_app,
    !AidenFacts.navigations_app.
  pose proof (AidenFacts.quiet_speech sp clk "System offline.") as [Hn _].
  rewrite Hn. unfold speech. cbn [JS.truthy].
  rewrite <- app_assoc.
  destruct sp; cbn; rewrite ?app_nil_r; repeat split; reflexivity.
Qed.

(** X19.  A [controlApp] call with action MAP_CONTROL or OPEN_REPORT,
    received while the hash is not [#/map]: the component navigates to
    [/map] and, 500 ms later, dispatches the event of the action.  Received
    on the map it dispatches the event at once and navigates nowhere.
    Nothing else in the turn navigates or dispatches. *)
Theorem map_actions_navigate_first
    (text : string) (g : option Grounding) (args : ControlArgs) (p : Page) :
  action args = "MAP_CONTROL"%string \/ action args = "OPEN_REPORT"%string ->
  let response :=
    {| chat_text := text; functionCall := Some (controlApp args);
       chat_grounding := g |} in
  let p' := snd (onResponse loaded host response p) in
  let t := clock (world p) in
  let away := negb (String.eqb (hash (world p)) "#/map") in
  let event :=
    if String.eqb (action args) "MAP_CONTROL"
    then AidenMap (mapCommand args) else AidenReportUi in
  exists before after,
    trace (world p')
    = trace (world p) ++ before
        ++ (if away
            then [(t, Navigated "/map"); (t + 500, Dispatched event)]
            else [(t, Dispatched event)])
        ++ after
    /\ navigations before = [] /\ dispatched before = []
    /\ navigations after = [] /\ dispatched after = []
    /\ hash (world p') = "#/map"%string
    /\ clock (world p') = (if away then t + 500 else t).
Proof.
  intros Ha response p' t away event. subst response p' t away event.
  destruct p as [s [st clk ent dr h sp tr]].
  cbn [world hash clock trace] in *.
  unfold onResponse.
  cbn [chat_text functionCall chat_grounding].
  rewrite AidenFacts.bind_eq.
  pose proof (AidenFacts.show_and_speak s st clk ent dr h sp tr
                (JS.truthy text) text g) as H1.
  unfold fromAssistant in H1. rewrite H1. clear H1. cbn [fst snd].
  rewrite AidenFacts.bind_eq.
  cbn [setIsProcessing setState snd ui world trace hash clock].
  unfold onControlApp. cbn [chat_text].
  assert (Hh : String.eqb h "#/map" = true -> h = "#/map"%string)
    by apply String.eqb_eq.
  destruct Ha as [Ha|Ha].
  - exists (if JS.truthy text then speech sp clk text else []).
    exists (if JS.truthy text then []
            else speech sp (if negb (String.eqb h "#/map") then clk + 500 else clk)
                   ("Map view updating: " ++ showOpt (mapCommand args) ++ ".")).
    destruct (JS.truthy text) eqn:Ht.
    all: AidenFacts.handler AidenFacts.onNavigate_skip.
    all: AidenFacts.handler AidenFacts.onSetAlertMode_skip.
    all: AidenFacts.handler AidenFacts.onSimulationControl_skip.
    all: match goal with
         | Ha' : action ?a = _
           |- context [bind (onMapControl ?a ?fb) _
                         (mkPage ?s1 (mkWorld ?st1 ?c1 ?e1 ?d1 ?h1 ?sp1 ?tr1))] =>
             AidenFacts.handler
               (AidenFacts.onMapControl_go s1 st1 c1 e1 d1 h1 sp1 tr1 a fb Ha')
         end.
    all: AidenFacts.handler AidenFacts.onOpenReport_skip.
    all: rewrite Ha; cbn [String.eqb Ascii.eqb Bool.eqb].
    all: destruct (String.eqb h "#/map") eqn:Eh; cbn [negb].
    all: AidenFacts.finish.
    all: unfold orElse; rewrite ?Ht; cbn [negb andb JS.truthy String.append].
    all: cbn [ui world trace hash clock].
    all: match goal with
         | |- context [speech ?b ?c1 ?t1] =>
             pose proof (AidenFacts.quiet_speech b c1 t1) as [Hn1 Hd1]
         end.
    all: repeat split; try assumption; try reflexivity; try (apply Hh; reflexivity).
    all: rewrite <- ?app_assoc; cbn [app]; rewrite ?app_nil_r; reflexivity.
  - exists (if JS.truthy text then speech sp clk text else []).
    exists (if JS.truthy text then []
            else speech sp (if negb (String.eqb h "#/map") then clk + 500 else clk)
                   "Opening report interface.").
    destruct (JS.truthy text) eqn:Ht.
    all: AidenFacts.handler AidenFacts.onNavigate_skip.
    all: AidenFacts.handler AidenFacts.onSetAlertMode_skip.
    all: AidenFacts.handler AidenFacts.onSimulationControl_skip.
    all: AidenFacts.handler AidenFacts.onMapControl_skip.
    all: match goal with
         | Ha' : action ?a = _
           |- context [bind (onOpenReport ?a ?fb) _
                         (mkPage ?s1 (mkWorld ?st1 ?c1 ?e1 ?d1 ?h1 ?sp1 ?tr1))] =>
             AidenFacts.handler
               (AidenFacts.onOpenReport_go s1 st1 c1 e1 d1 h1 sp1 tr1 a fb Ha')
         end.
    all: rewrite Ha; cbn [String.eqb Ascii.eqb Bool.eqb].
    all: destruct (String.eqb h "#/map") eqn:Eh; cbn [negb].
    all: AidenFacts.finish.
    all: unfold orElse; rewrite ?Ht; cbn [negb andb JS.truthy String.append].
    all: cbn [ui world trace hash clock].
    all: match goal with
         | |- context [speech ?b ?c1 ?t1] =>
             pose proof (AidenFacts.quiet_speech b c1 t1) as [Hn1 Hd1]
         end.
    all: repeat split; try assumption; try reflexivity; try (apply Hh; reflexivity).
    all: rewrite <- ?app_assoc; cbn [app]; rewrite ?app_nil_r; reflexivity.
Qed.

(** X20.  A [controlApp] call with action SIMULATION_CONTROL whose command
    is not START, or that is received on the simulation page, navigates
    nowhere and waits for nothing: it dispatches ['aiden-sim'] with the
    command and the intensity at once, whatever page is on display. *)
Theorem simulation_command_stays_on_page
    (text : string) (g : option Grounding) (args : ControlArgs) (p : Page) :
  action args = "SIMULATION_CONTROL"%string ->
  simulationCommand args <> Some "START"%string
  \/ hash (world p) = "#/simulation"%string ->
  let response :=
    {| chat_text := text; functionCall := Some (controlApp args);
       chat_grounding := g |} in
  let p' := snd (onResponse loaded host response p) in
  navigations (trace (world p')) = navigations (trace (world p))
  /\ dispatched (trace (world p'))
     = dispatched (trace (world p))
       ++ [AidenSim (simulationCommand args) (intensityValue args)]
  /\ In (clock (world p),
         Dispatched (AidenSim (simulationCommand args) (intensityValue args)))
        (trace (world p'))
  /\ hash (world p') = hash (world p)
  /\ clock (world p') = clock (world p).
Proof.
  intros Ha Hc response p'. subst response p'.
  destruct p as [s [st clk ent dr h sp tr]].
  cbn [world hash clock trace] in *.
  assert (Hstay : isStr (simulationCommand args) "START"
                  && negb (String.eqb h "#/simulation") = false).
  { destruct Hc as [Hc| ->]; [|rewrite String.eqb_refl; apply Bool.andb_false_r].
    unfold isStr. destruct (simulationCommand args) as [c|]; [|reflexivity].
    destruct (String.eqb_spec c "START") as [->|]; [|reflexivity].
    contradiction Hc. reflexivity. }
  unfold onResponse.
  cbn [chat_text functionCall chat_grounding].
  rewrite AidenFacts.bind_eq.
  pose proof (AidenFacts.show_and_speak s st clk ent dr h sp tr
                (JS.truthy text) text g) as H1.
  unfold fromAssistant in H1. rewrite H1. clear H1. cbn [fst snd].
  rewrite AidenFacts.bind_eq.
  cbn [setIsProcessing setState snd ui world trace hash clock].
  unfold onControlApp. cbn [chat_text].
  destruct (JS.truthy text) eqn:Ht.
  all: AidenFacts.handler AidenFacts.onNavigate_skip.
  all: AidenFacts.handler AidenFacts.onSetAlertMode_skip.
  all: match goal with
       | Ha' : action ?a = _
         |- context [bind (onSimulationControl ?a ?fb) _
                       (mkPage ?s1 (mkWorld ?st1 ?c1 ?e1 ?d1 ?h1 ?sp1 ?tr1))] =>
           AidenFacts.handler
             (AidenFacts.onSimulationControl_go s1 st1 c1 e1 d1 h1 sp1 tr1
                a fb Ha')
       end.
  all: rewrite Hstay.
  all: AidenFacts.handler AidenFacts.onMapControl_skip.
  all: AidenFacts.handler AidenFacts.onOpenReport_skip.
  all: AidenFacts.finish.
  all: unfold orElse; rewrite ?Ht; cbn [negb andb].
  all: try match goal with
           | |- context [JS.truthy (?a ++ ?b)%string] =>
               change (JS.truthy (a ++ b)%string) with true
           end.
  all: cbn [ui world trace hash clock].
  all: rewrite ?AidenFacts.navigations_app, ?StoreFacts.dispatched_app.
  all: rewrite ?AidenMore.navigations_speech, ?AidenMore.dispatched_speech.
  all: cbn [navigations dispatched app]; rewrite ?app_nil_r.
  all: repeat split; try reflexivity.
  all: repeat (apply in_or_app; first [right; left; reflexivity | left]).
Qed.

(** X21.  Of all [controlApp] calls only those with action SET_ALERT_MODE
    change the alert: such a call turns it on when [alertActive] is
    [true], and off in every other case, also when [alertActive] is
    missing; any other call leaves the alert as it was. *)
Theorem alert_follows_its_action_only
    (text : string) (g : option Grounding) (args : ControlArgs) (p : Page) :
  let response :=
    {| chat_text := text; functionCall := Some (controlApp args);
       chat_grounding := g |} in
  let p' := snd (onResponse loaded host response p) in
  alertMode (ui p')
  = if String.eqb (action args) "SET_ALERT_MODE"
    then match alertActive args with
         | Some true => true
         | _ => false
         end
    else alertMode (ui p).
Proof.
  intros response p'. subst response p'.
  unfold onResponse. cbn [chat_text functionCall chat_grounding].
  rewrite !AidenFacts.bind_eq.
  cbn [setIsProcessing setState snd ui alertMode].
  unfold onControlApp. cbn [chat_text].
  rewrite AidenFacts.bind_eq. cbv beta.
  rewrite AidenFacts.bind_eq. cbv beta.
  match goal with
  | |- alertMode (ui (snd (bind ?m ?k ?q))) = _ =>
      pose proof (AidenMore.rest_sameAlert
                    {| chat_text := text;
                       functionCall := Some (controlApp args);
                       chat_grounding := g |} args
                    (fst (onSetAlertMode args
                            (fst (onNavigate args text
                                    (snd (when (JS.truthy text)
                                            (bind (addMessage
                                                     {| msg_text := text;
                                                        sender := ai;
                                                        msg_grounding := g |})
                                                  (fun _ => speak text)) p))))
                            (snd (onNavigate args text
                                    (snd (when (JS.truthy text)
                                            (bind (addMessage
                                                     {| msg_text := text;
                                                        sender := ai;
                                                        msg_grounding := g |})
                                                  (fun _ => speak text)) p))))))
                    q) as Hrest
  end.
  unfold sameAlert in Hrest. cbn [chat_text] in Hrest. rewrite Hrest.
  clear Hrest.
  assert (Hshow : forall b, keeps sameAlert
            (when b (bind (addMessage {| msg_text := text; sender := ai;
                                         msg_grounding := g |})
                          (fun _ => speak text)))).
  { intros b. unfold speak.
    AidenMore.frame AidenMore.sameAlert_refl AidenMore.sameAlert_trans
      AidenMore.alert_step. }
  unfold onSetAlertMode.
  destruct (String.eqb (action args) "SET_ALERT_MODE").
  - destruct (alertActive args) as [[]|]; reflexivity.
  - cbn [ret snd].
    rewrite (AidenMore.onNavigate_sameAlert args text _).
    exact (Hshow (JS.truthy text) p).
Qed.

(** X22.  A [reportIncident] call files one report through
    [createReport]: of the type and with the description of the call,
    unverified, at the position of the user when it is known and at
    latitude 34.0522, longitude -118.2437 when it is not.  The turn
    dispatches ['db-reports-updated'] once, sets one timer of 3000 ms for the
    navigation to [/map], navigates nowhere itself, and shows the
    narration, when there is one, followed by the feedback. *)
Theorem reportIncident_files_report
    (text : string) (g : option Grounding) (ty : DisasterType)
    (d : string) (p : Page) :
  let response :=
    {| chat_text := text; functionCall := Some (reportIncident ty d);
       chat_grounding := g |} in
  let p' := snd (onResponse loaded host response p) in
  let w := world p in
  let place :=
    match userCoords (ui p) with
    | Some c => c
    | None => {| lat := 34.0522; lng := -118.2437 |}
    end in
  let filed :=
    mkReport (JStr (entropy w (drawn w))) ty (JStr d)
             (JStr (JS.toISOString (clock w + 900))) place false in
  let feedback :=
    orElse text ("Report filed: " ++ showType ty ++ " - " ++ d
                   ++ ". Broadcasted to local network.") in
  (exists before,
     REPORTS (localStorage (world p')) = Some (before ++ [filed])
     /\ List.length before
        = List.length (reportsOf loaded (localStorage w)))
  /\ messages (ui p')
     = messages (ui p) ++ narration text g ++ [fromAssistant feedback None]
  /\ dispatched (trace (world p')) = dispatched (trace w) ++ [DbReportsUpdated]
  /\ timers (trace (world p'))
     = timers (trace w) ++ [(3000, NavigateTo "/map")]
  /\ navigations (trace (world p')) = navigations (trace w)
  /\ hash (world p') = hash w
  /\ isProcessing (ui p') = false.
Proof.
  intros response p' w place filed feedback.
  subst response p' w place filed feedback.
  destruct p as [s [st clk ent dr h sp tr]].
  cbn [world ui hash clock trace entropy drawn localStorage].
  unfold onResponse.
  cbn [chat_text functionCall chat_grounding].
  rewrite AidenFacts.bind_eq.
  pose proof (AidenFacts.show_and_speak s st clk ent dr h sp tr
                (JS.truthy text) text g) as H1.
  unfold fromAssistant in H1. rewrite H1. clear H1. cbn [fst snd].
  rewrite AidenFacts.bind_eq. cbv beta.
  assert (Hc : userCoords (ui (if JS.truthy text
        then mkPage (mkState (messages s ++ [{| msg_text := text; sender := ai;
                                                 msg_grounding := g |}])
                       (inputText s) (isProcessing s) (alertMode s)
                       (locationRequest s) (userCoords s) (isGuiding s)
                       (simMode s))
               (mkWorld st clk ent dr h sp (tr ++ speech sp clk text))
        else mkPage s (mkWorld st clk ent dr h sp tr)))
     = userCoords s) by (destruct (JS.truthy text); reflexivity).
  cbn [getState fst snd]. rewrite Hc. clear Hc.
  unfold narration, fromAssistant.
  destruct (JS.truthy text) eqn:Ht;
    rewrite AidenMore.fileReport_eq;
    cbn [fst snd ui world messages isProcessing trace hash localStorage
         in_type in_description in_coordinates];
    unfold withReports; cbn [REPORTS];
    rewrite ?StoreFacts.dispatched_app, ?AidenMore.timers_app,
      ?AidenFacts.navigations_app, ?AidenMore.navigations_speech,
      ?AidenMore.dispatched_speech, ?AidenMore.timers_speech;
    cbn [dispatched timers navigations app]; rewrite ?app_nil_r;
    (split; [|repeat split; rewrite <- ?app_assoc; reflexivity]);
    unfold written; rewrite map_app; cbn [map];
    eexists; (split; [f_equal; f_equal; f_equal|]).
  all: try (unfold revived; rewrite !List.length_map; reflexivity).
  all: replace (clk + 600 + 300) with (clk + 900) by lia; reflexivity.
Qed.

(** X23.  Of all responses only one with a [reportIncident] call touches
    the store: any other response leaves localStorage and the generator
    alone, sends nothing to the model, and leaves the position of the
    user, the text typed and the simulation as they were.  The request for
    the location is set by a [getUserLocation] call and by nothing else,
    and every response ends with [isProcessing] false. *)
Theorem only_a_report_touches_the_store (response : ChatResponse) (p : Page) :
  (forall ty d, functionCall response <> Some (reportIncident ty d)) ->
  let p' := snd (onResponse loaded host response p) in
  localStorage (world p') = localStorage (world p)
  /\ drawn (world p') = drawn (world p)
  /\ sent (trace (world p')) = sent (trace (world p))
  /\ userCoords (ui p') = userCoords (ui p)
  /\ inputText (ui p') = inputText (ui p)
  /\ simMode (ui p') = simMode (ui p)
  /\ locationRequest (ui p')
     = match functionCall response with
       | Some getUserLocation => true
       | _ => locationRequest (ui p)
       end
  /\ isProcessing (ui p') = false.
Proof.
  intros Hr p'. subst p'.
  pose proof (AidenMore.onResponse_done loaded host response p) as Hdone.
  destruct (functionCall response) as [[args| |ty d|name]|] eqn:Hf.
  3: contradiction (Hr ty d); reflexivity.
  2: { clear Hdone Hr. destruct response as [text fc g]. cbn in Hf. subst fc.
       destruct p as [s [st clk ent dr h sp tr]].
       unfold onResponse.
       cbn [chat_text functionCall chat_grounding].
       rewrite AidenFacts.bind_eq.
       pose proof (AidenFacts.show_and_speak s st clk ent dr h sp tr
                     (JS.truthy text) text g) as H1.
       unfold fromAssistant in H1. rewrite H1. clear H1. cbn [fst snd].
       destruct (JS.truthy text);
         rewrite AidenFacts.bind_eq, AidenFacts.addMessage_eq; cbn [fst snd];
         rewrite AidenFacts.bind_eq, AidenFacts.speak_eq; cbn [fst snd];
         cbn [bind setLocationRequest setIsProcessing setState snd fst ui
              world messages inputText isProcessing alertMode
              locationRequest userCoords isGuiding simMode localStorage
              drawn trace];
         rewrite !GatewayMore.sent_app, !AidenMore.sent_speech,
           ?app_nil_r;
         repeat split; reflexivity. }
  all: assert (Hq : quiet p (snd (onResponse loaded host response p)))
         by (apply AidenMore.onResponse_quiet; rewrite Hf; exact I).
  all: destruct Hq as (Q1 & Q2 & Q3 & Q4 & Q5 & Q6 & Q7 & Q8).
  all: repeat split; assumption.
Qed.

End AssistantFurther.

(* ================================================================== *)
(** ** Further properties of the assistant: the location of the user *)
(* ================================================================== *)

Module LocationMore.
Import Types Browser Gemini Aiden AidenLocation Spec Words GatewayWords
       AidenWords.


Lemma lift_eq {A} (m : M A) p :
  lift m p = (fst (m (world p)), mkPage (ui p) (snd (m (world p)))).
Proof. unfold lift. destruct (m (world p)). reflexivity. Qed.

(** What a request to the model leaves in the world: the trace is longer
    by the request, when there is a credential, and by console lines. *)
Lemma chat_world API_KEY service history msg loc w :
  exists extra,
    snd (chatWithAssistant API_KEY service history msg loc w)
    = mkWorld (localStorage w) (clock w) (entropy w) (drawn w) (hash w)
        (speechSynthesis w) (trace w ++ extra)
    /\ sent extra
       = (if hasCredential API_KEY then [ChatMessage history msg loc] else [])
    /\ navigations extra = [] /\ dispatched extra = []
    /\ uttered extra = [].
Proof.
  unfold chatWithAssistant, initializeGemini, send, bind, ret, emit,
    hasCredential.
  destruct API_KEY as [k|]; [destruct (JS.truthy k)|]; cbn [fst snd].
  2, 3: eexists; split; [reflexivity|]; repeat split; reflexivity.
  match goal with
  | |- context [service ?v ?r] => destruct (service v r) as [|a]
  end; cbn [snd trace localStorage clock entropy drawn hash speechSynthesis].
  - rewrite <- app_assoc. eexists. split; [reflexivity|].
    repeat split; reflexivity.
  - eexists. split; [reflexivity|]. repeat split; reflexivity.
Qed.

Lemma showReply_eq response g s st clk ent dr h sp tr :
  showReply response g (mkPage s (mkWorld st clk ent dr h sp tr))
  = (tt,
     mkPage (mkState (messages s ++ narration (chat_text response) g)
               (inputText s) (isProcessing s) (alertMode s)
               (locationRequest s) (userCoords s) (isGuiding s) (simMode s))
            (mkWorld st clk ent dr h sp
               (tr ++ (if JS.truthy (chat_text response)
                       then speech sp clk (chat_text response) else [])))).
Proof.
  unfold showReply, narration.
  pose proof (AidenFacts.show_and_speak s st clk ent dr h sp tr
                (JS.truthy (chat_text response)) (chat_text response) g) as H.
  unfold fromAssistant in *. rewrite H.
  destruct (JS.truthy (chat_text response)); [reflexivity|].
  rewrite !app_nil_r. destruct s. reflexivity.
Qed.

(** One request to the model and its reply shown, on a page. *)
Lemma ask_and_show API_KEY service history msg loc (withGrounding : bool)
    s st clk ent dr h sp tr :
  exists reply extra,
    bind (lift (chatWithAssistant API_KEY service history msg loc))
         (fun response =>
            showReply response
              (if withGrounding then chat_grounding response else None))
         (mkPage s (mkWorld st clk ent dr h sp tr))
    = (tt,
       mkPage (mkState (messages s
                          ++ narration (chat_text reply)
                               (if withGrounding then chat_grounding reply
                                else None))
                 (inputText s) (isProcessing s) (alertMode s)
                 (locationRequest s) (userCoords s) (isGuiding s) (simMode s))
              (mkWorld st clk ent dr h sp (tr ++ extra)))
    /\ sent extra
       = (if hasCredential API_KEY then [ChatMessage history msg loc] else [])
    /\ navigations extra = [] /\ dispatched extra = []
    /\ uttered extra
       = (if sp && JS.truthy (chat_text reply) then [chat_text reply] else []).
Proof.
  destruct (chat_world API_KEY service history msg loc
              (mkWorld st clk ent dr h sp tr))
    as (extra & Hw & Hs & Hn & Hd & Hu).
  cbn [localStorage clock entropy drawn hash speechSynthesis trace] in Hw.
  exists (fst (chatWithAssistant API_KEY service history msg loc
                 (mkWorld st clk ent dr h sp tr))).
  set (reply := fst (chatWithAssistant API_KEY service history msg loc
                       (mkWorld st clk ent dr h sp tr))).
  exists (extra ++ (if JS.truthy (chat_text reply)
                    then speech sp clk (chat_text reply) else [])).
  split.
  - rewrite AidenFacts.bind_eq, lift_eq. cbn [fst snd world ui].
    fold reply. rewrite Hw, showReply_eq, <- app_assoc. reflexivity.
  - rewrite GatewayMore.sent_app, AidenFacts.navigations_app,
      StoreFacts.dispatched_app, AidenFacts.uttered_app, Hs, Hn, Hd, Hu.
    destruct (JS.truthy (chat_text reply)) eqn:Ht.
    + rewrite AidenMore.sent_speech, AidenMore.navigations_speech,
        AidenMore.dispatched_speech, (AidenFacts.uttered_speech _ _ _ Ht),
        !app_nil_r.
      destruct sp; repeat split; reflexivity.
    + rewrite Bool.andb_false_r, !app_nil_r. repeat split; reflexivity.
Qed.


End LocationMore.

Section LocationFurther.
Import Types Browser Gemini Aiden AidenLocation Spec Words GatewayWords
       AidenWords.

Variable API_KEY : option string.
Variable service : World -> Request -> Reply.
Variable showNumber : Q -> string.



End LocationFurther.

(* ================================================================== *)
(** ** Properties of the pages *)
(* ================================================================== *)

Module PagesMore.
Import Types Browser Gemini React Spec Words GatewayWords PageWords.

Lemma mounted_lift_eq {S A} (m : M A) (p : Mounted S) :
  lift m p = (fst (m (browser p)), mount (state p) (snd (m (browser p)))).
Proof. unfold lift. destruct (m (browser p)). reflexivity. Qed.

(** The gateway leaves localStorage alone. *)
Lemma fetchRealTimeNews_storage API_KEY service hostname w :
  localStorage (snd (fetchRealTimeNews API_KEY service hostname w))
  = localStorage w.
Proof.
  unfold fetchRealTimeNews, initializeGemini, send, bind, ret, emit, now.
  destruct API_KEY as [k|]; [destruct (JS.truthy k)|]; try reflexivity.
  match goal with
  | |- context [service ?v ?r] => destruct (service v r) as [|a]
  end; [reflexivity|].
  destruct (groundingMetadata a) as [[[chunks|]]|]; try reflexivity.
  match goal with
  | |- context [mapFrom 0 ?f ?l] => destruct (mapFrom 0 f l)
  end; reflexivity.
Qed.

Lemma fetchRealTimeNews_offline API_KEY service hostname w :
  hasCredential API_KEY = false ->
  fst (fetchRealTimeNews API_KEY service hostname w) = [].
Proof.
  unfold hasCredential, fetchRealTimeNews, initializeGemini, bind, ret, emit.
  destruct API_KEY as [k|]; [|reflexivity].
  intros ->. reflexivity.
Qed.

Lemma generateEmergencyPlanText_storage API_KEY service context w :
  localStorage (snd (generateEmergencyPlanText API_KEY service context w))
  = localStorage w.
Proof.
  unfold generateEmergencyPlanText, initializeGemini, send, bind, ret, emit.
  destruct API_KEY as [k|]; [destruct (JS.truthy k)|]; try reflexivity.
  match goal with
  | |- context [service ?v ?r] => destruct (service v r) as [|a]
  end; [reflexivity|].
  destruct (text a); reflexivity.
Qed.

End PagesMore.

Section PagesFurther.
Import Types Browser Gemini React Spec Words GatewayWords PageWords.
Import QArith_base.

Variable loaded : Z.
Variable host : string -> option Z.

(** X26.  After [fetchNews] the feed is no longer loading and shows
    either live news or the stored news, and says which: it is marked
    live exactly when [fetchRealTimeNews] returned items, which are then
    shown, at most ten and no two with the same link, and localStorage is
    not touched; otherwise it shows what [api.getNews] reads, the fixtures
    on a store without news.  Without a credential the feed is never
    live. *)
Theorem fetchNews_live_or_stored
    (API_KEY : option string) (service : World -> Request -> Reply)
    (hostname : string -> option string) (p : Mounted NewsFeed.State) :
  let p' := snd (NewsFeed.fetchNews loaded host API_KEY service hostname p) in
  let live := fst (fetchRealTimeNews API_KEY service hostname (browser p)) in
  NewsFeed.isLoading (state p') = false
  /\ NewsFeed.isLive (state p') = (0 <? List.length live)%nat
  /\ (NewsFeed.isLive (state p') = true ->
      NewsFeed.news (state p') = live
      /\ (List.length (NewsFeed.news (state p')) <= 10)%nat
      /\ NoDup (map url (NewsFeed.news (state p')))
      /\ localStorage (browser p') = localStorage (browser p))
  /\ (NewsFeed.isLive (state p') = false ->
      NewsFeed.news (state p') = fst (Api.getNews loaded host (browser p))
      /\ localStorage (browser p')
         = seeded loaded (localStorage (browser p)))
  /\ (hasCredential API_KEY = false -> NewsFeed.isLive (state p') = false).
Proof.
  intros p' live. subst p'.
  destruct p as [s w].
  pose proof (GatewayMore.fetchRealTimeNews_cases API_KEY service hostname w)
    as Hcases.
  pose proof (PagesMore.fetchRealTimeNews_storage API_KEY service hostname w)
    as Hst.
  pose proof (PagesMore.fetchRealTimeNews_offline API_KEY service hostname w)
    as Hoff.
  unfold NewsFeed.fetchNews.
  rewrite AidenFacts.bind_eq. cbv beta.
  cbn [NewsFeed.setIsLoading setState fst snd state browser].
  rewrite AidenFacts.bind_eq, PagesMore.mounted_lift_eq. cbv beta.
  cbn [fst snd state browser] in *. fold live in Hcases, Hoff |- *.
  rewrite AidenFacts.bind_eq.
  destruct live as [|n live'] eqn:El.
  - cbn [List.length Nat.ltb Nat.leb].
    rewrite AidenFacts.bind_eq, PagesMore.mounted_lift_eq. cbv beta.
    cbn [fst snd state browser NewsFeed.setNews NewsFeed.setIsLive
         NewsFeed.setIsLoading setState bind NewsFeed.news NewsFeed.isLive
         NewsFeed.isLoading].
    rewrite !StoreFacts.getNews_eq. cbn [fst snd later localStorage].
    rewrite Hst.
    repeat split; try reflexivity; try discriminate.
  - cbn [List.length Nat.ltb Nat.leb].
    cbn [fst snd state browser NewsFeed.setNews NewsFeed.setIsLive
         NewsFeed.setIsLoading setState bind NewsFeed.news NewsFeed.isLive
         NewsFeed.isLoading].
    assert (Hprops : (List.length (n :: live') <= 10)%nat
                     /\ NoDup (map url (n :: live'))).
    { destruct Hcases as [H|(items & Hl & Hr & _)]; [discriminate H|].
      rewrite Hr.
      assert (Hlinks : Forall hasLink items).
      { revert Hl. apply Forall_impl. intros x.
        apply GatewayMore.liveItem_link. }
      unfold slice_0_10. split; [apply firstn_le_length|].
      rewrite <- firstn_map. apply GatewayFacts.NoDup_firstn.
      rewrite (GatewayFacts.unique_firstOccurrences items Hlinks).
      apply GatewayFacts.firstOccurrences_distinct, Hlinks. }
    destruct Hprops as [Hlen Hnd].
    split; [reflexivity|]. split; [reflexivity|].
    split; [intros _; repeat split; assumption|].
    split; [discriminate|].
    intros Hk. specialize (Hoff Hk). discriminate Hoff.
Qed.

(** X27.  On the contacts page the list shown after a handler is the list
    stored.  [handleAddContact] with a name and a phone number stores the
    contacts that were there followed by the new one, shows them, clears
    the form and closes it; without a name or without a phone number it
    does nothing at all.  [handleDelete] does nothing when the user does
    not confirm; when the user confirms it stores and shows the contacts
    that do not bear the identifier. *)
Theorem contacts_page_shows_the_stored_list
    (confirm : string -> bool) (id : string)
    (p : Mounted ContactsPage.State) :
  let form := ContactsPage.newContact (state p) in
  let stored (q : Mounted ContactsPage.State) :=
    CONTACTS (localStorage (browser q)) in
  let before := contactsOf loaded (localStorage (browser p)) in
  let added := snd (ContactsPage.handleAddContact loaded p) in
  let deleted := snd (ContactsPage.handleDelete loaded confirm id p) in
  (if filled form then
     exists c,
       c = {| contact_id := entropy (browser p) (drawn (browser p));
              name := in_name form; Types.relation := in_relation form;
              phone := in_phone form; email := in_email form |}
       /\ stored added = Some (before ++ [c])
       /\ ContactsPage.contacts (state added) = before ++ [c]
       /\ ContactsPage.newContact (state added) = emptyForm
       /\ ContactsPage.isAdding (state added) = false
       /\ ContactsPage.loading (state added) = false
   else added = p)
  /\ (if confirm "Are you sure you want to delete this contact?" then
        stored deleted = Some (StoreWords.others id before)
        /\ ContactsPage.contacts (state deleted) = StoreWords.others id before
        /\ ContactsPage.loading (state deleted) = false
      else deleted = p).
Proof.
  intros form stored before added deleted.
  subst form stored before added deleted.
  destruct p as [s w]. cbn [state browser]. split.
  - unfold ContactsPage.handleAddContact, filled.
    rewrite AidenFacts.bind_eq. cbv beta. cbn [getState fst snd state].
    destruct (JS.truthy (in_name (ContactsPage.newContact s)));
      [destruct (JS.truthy (in_phone (ContactsPage.newContact s)))|];
      cbn [negb orb andb]; try reflexivity.
    unfold ContactsPage.loadContacts.
    rewrite AidenFacts.bind_eq, PagesMore.mounted_lift_eq. cbv beta.
    cbn [fst snd state browser].
    rewrite StoreMore.addContact_eq. cbv zeta. cbn [fst snd].
    rewrite !AidenFacts.bind_eq. cbv beta.
    cbn [ContactsPage.setNewContact ContactsPage.setIsAdding
         ContactsPage.setLoading setState fst snd state browser].
    rewrite PagesMore.mounted_lift_eq, StoreFacts.getContacts_eq.
    cbn [fst snd state browser localStorage later].
    rewrite StoreMore.contactsOf_withContacts, StoreMore.seeded_withContacts.
    eexists. split; [reflexivity|].
    cbn [ContactsPage.setContacts ContactsPage.setLoading setState fst snd
         state browser ContactsPage.contacts ContactsPage.newContact
         ContactsPage.isAdding ContactsPage.loading localStorage].
    unfold withContacts. cbn [CONTACTS]. repeat split; reflexivity.
  - unfold ContactsPage.handleDelete.
    destruct (confirm "Are you sure you want to delete this contact?");
      [|reflexivity].
    unfold ContactsPage.loadContacts.
    rewrite AidenFacts.bind_eq, PagesMore.mounted_lift_eq. cbv beta.
    cbn [fst snd state browser].
    rewrite StoreFacts.deleteContact_eq. cbn [fst snd].
    rewrite !AidenFacts.bind_eq. cbv beta.
    cbn [ContactsPage.setLoading setState fst snd state browser].
    rewrite PagesMore.mounted_lift_eq, StoreFacts.getContacts_eq.
    cbn [fst snd state browser localStorage later].
    rewrite StoreMore.contactsOf_withContacts, StoreMore.seeded_withContacts.
    cbn [ContactsPage.setContacts ContactsPage.setLoading setState fst snd
         state browser ContactsPage.contacts ContactsPage.loading
         localStorage].
    unfold withContacts. cbn [CONTACTS]. repeat split; reflexivity.
Qed.

(** X28.  [handleGenerate] does nothing without a description of the
    situation.  With one it always ends with a plan on display that is not
    empty, whatever the credential and the service: the text of the model,
    or one of the three fixed texts that [generateEmergencyPlanText]
    returns in its place; the page is no longer loading, and localStorage
    is not touched. *)
Theorem handleGenerate_always_shows_a_plan
    (API_KEY : option string) (service : World -> Request -> Reply)
    (p : Mounted EmergencyPlan.State) :
  let p' := snd (EmergencyPlan.handleGenerate API_KEY service p) in
  if JS.truthy (EmergencyPlan.context (state p)) then
    EmergencyPlan.plan (state p')
    = fst (generateEmergencyPlanText API_KEY service
             (EmergencyPlan.context (state p)) (browser p))
    /\ JS.truthy (EmergencyPlan.plan (state p')) = true
    /\ EmergencyPlan.loading (state p') = false
    /\ EmergencyPlan.context (state p') = EmergencyPlan.context (state p)
    /\ localStorage (browser p') = localStorage (browser p)
  else p' = p.
Proof.
  intros p'. subst p'. destruct p as [s w]. cbn [state browser].
  unfold EmergencyPlan.handleGenerate.
  rewrite AidenFacts.bind_eq. cbv beta. cbn [getState fst snd state].
  destruct (JS.truthy (EmergencyPlan.context s)); cbn [negb];
    [|reflexivity].
  rewrite !AidenFacts.bind_eq. cbv beta.
  cbn [EmergencyPlan.setLoading setState fst snd state browser].
  rewrite PagesMore.mounted_lift_eq.
  cbn [EmergencyPlan.setPlan EmergencyPlan.setLoading setState fst snd state
       browser EmergencyPlan.plan EmergencyPlan.loading
       EmergencyPlan.context].
  split; [reflexivity|]. split; [apply GatewayMore.plan_truthy|].
  split; [reflexivity|]. split; [reflexivity|].
  apply PagesMore.generateEmergencyPlanText_storage.
Qed.

(** X29.  The command of the assistant reaches the simulation.  A
    [controlApp] call with action SIMULATION_CONTROL dispatches one event,
    and the listener of the simulation page, given that event, starts the
    simulation on START, stops it on STOP, puts the intensity to 0 on
    RESET, and on SET_INTENSITY takes the intensity of the call as it is,
    whatever its value; a SET_INTENSITY without intensity, and any other
    command, change nothing.  Events of other names are not listened
    to. *)
Theorem assistant_commands_drive_the_simulation
    (text : string) (g : option Grounding) (args : ControlArgs)
    (p : Aiden.Page) (q : Mounted Simulation.State) :
  action args = "SIMULATION_CONTROL"%string ->
  let p' := snd (Aiden.onResponse loaded host
                   {| chat_text := text;
                      functionCall := Some (controlApp args);
                      chat_grounding := g |} p) in
  let command := simulationCommand args in
  exists e,
    dispatched (trace (Aiden.world p'))
    = dispatched (trace (Aiden.world p)) ++ [e]
    /\ Simulation.isPlaying (state (snd (Simulation.onWindowEvent e q)))
       = (if Aiden.isStr command "STOP" then false
          else if Aiden.isStr command "START" then true
          else Simulation.isPlaying (state q))
    /\ Simulation.intensity (state (snd (Simulation.onWindowEvent e q)))
       = (if Aiden.isStr command "SET_INTENSITY" then
            match intensityValue args with
            | Some v => v
            | None => Simulation.intensity (state q)
            end
          else if Aiden.isStr command "RESET" then 0%Q
          else Simulation.intensity (state q))
    /\ snd (Simulation.onWindowEvent DbReportsUpdated q) = q
    /\ snd (Simulation.onWindowEvent AidenReportUi q) = q
    /\ (forall c, snd (Simulation.onWindowEvent (AidenMap c) q) = q).
Proof.
  intros Ha p' command. subst p' command.
  exists (AidenSim (simulationCommand args) (intensityValue args)).
  split; [exact (AidenMore.simulation_dispatch loaded host text g args p Ha)|].
  destruct q as [[i pl] w].
  unfold Simulation.onWindowEvent, Simulation.handleAIControl,
    Simulation.commandIs, Aiden.isStr.
  destruct (simulationCommand args) as [c|], (intensityValue args) as [v|].
  1, 2: destruct (String.eqb_spec c "START") as [->|];
        [|destruct (String.eqb_spec c "STOP") as [->|];
          [|destruct (String.eqb_spec c "RESET") as [->|];
            [|destruct (String.eqb_spec c "SET_INTENSITY") as [->|]]]].
  all: repeat split; reflexivity.
Qed.

(** X30.  The interval of the simulation, started at intensity 0, raises
    the intensity by one half per turn up to 100 and then starts again at
    0: after [n] turns the intensity is half the remainder of [n] by 201,
    so it never leaves the range from 0 to 100; the turns change nothing
    else. *)
Theorem interval_cycles_through_the_range
    (n : nat) (p : Mounted Simulation.State) :
  (Simulation.intensity (state p) == 0)%Q ->
  let p' := snd (ticks n p) in
  (Simulation.intensity (state p') == inject_Z (Z.of_nat n mod 201)%Z / 2)%Q
  /\ (0 <= Simulation.intensity (state p') <= 100)%Q
  /\ Simulation.isPlaying (state p') = Simulation.isPlaying (state p)
  /\ browser p' = browser p.
Proof.
  intros H0 p'. subst p'.
  assert (Hmain :
    (Simulation.intensity (state (snd (ticks n p)))
     == inject_Z (Z.of_nat n mod 201)%Z / 2)%Q
    /\ Simulation.isPlaying (state (snd (ticks n p)))
       = Simulation.isPlaying (state p)
    /\ browser (snd (ticks n p)) = browser p).
  { induction n as [|n IH].
    - cbn [ticks ret snd]. split; [|split; reflexivity].
      rewrite H0. reflexivity.
    - destruct IH as (Hi & Hp & Hb).
      cbn [ticks]. rewrite AidenFacts.bind_eq.
      unfold Simulation.tick, Simulation.setIntensity.
      cbn [setState snd state browser Simulation.intensity
           Simulation.isPlaying].
      split; [|split; assumption].
      set (x := Simulation.intensity (state (snd (ticks n p)))) in *.
      pose proof (Z.mod_pos_bound (Z.of_nat n) 201%Z ltac:(lia)) as Hr.
      set (z := (Z.of_nat n mod 201)%Z) in *.
      assert (Hs : (Z.of_nat (S n) mod 201
                    = if z =? 200 then 0 else z + 1)%Z).
      { replace (Z.of_nat (S n)) with (Z.of_nat n + 1)%Z by lia.
        rewrite <- Zplus_mod_idemp_l. fold z.
        destruct (Z.eqb_spec z 200%Z) as [->|Hz]; [reflexivity|].
        apply Z.mod_small. lia. }
      rewrite Hs.
      destruct (Qle_bool 100 x) eqn:E.
      + apply Qle_bool_iff in E. rewrite Hi in E.
        assert (Hz : z = 200%Z).
        { unfold Qle, Qdiv, Qmult, Qinv, inject_Z in E. cbn in E. lia. }
        rewrite Hz. reflexivity.
      + assert (Hz : z <> 200%Z).
        { intros Hz. assert (Hle : (100 <= x)%Q).
          { rewrite Hi, Hz. unfold Qle. cbn. lia. }
          apply Qle_bool_iff in Hle. congruence. }
        destruct (Z.eqb_spec z 200%Z) as [|_]; [contradiction|].
        rewrite Hi. unfold Qeq, Qplus, Qdiv, Qmult, Qinv, inject_Z. cbn. lia. }
  destruct Hmain as (Hi & Hp & Hb).
  split; [exact Hi|]. split; [|split; assumption].
  pose proof (Z.mod_pos_bound (Z.of_nat n) 201%Z ltac:(lia)) as Hr.
  rewrite Hi. unfold Qle, Qdiv, Qmult, Qinv, inject_Z. cbn. lia.
Qed.

End PagesFurther.

(* ================================================================== *)
(** ** The further properties at work *)
(* ================================================================== *)

Section FurtherInstances.
Import Types Browser Gemini Aiden AidenLocation React Spec Words StoreWords
       GatewayWords AidenWords PageWords.

(** In the example browser the first identifier drawn is borne by neither
    of the two contacts of the fixtures. *)
Lemma addContact_then_deleteContact_witness :
  ~ In (entropy Scenario.start (drawn Scenario.start))
       (map contact_id
            (contactsOf Scenario.loaded (localStorage Scenario.start)))
  /\ CONTACTS
       (localStorage
          (snd (Api.deleteContact Scenario.loaded
                  "3b241101-e2bb-4255-8caf-4136c566a962"
                  (snd (Api.addContact Scenario.loaded Scenes.ripley
                          Scenario.start)))))
     = Some Constants.MOCK_CONTACTS.
Proof.
  assert (H : ~ In (entropy Scenario.start (drawn Scenario.start))
                   (map contact_id
                        (contactsOf Scenario.loaded
                                    (localStorage Scenario.start)))).
  { cbn. intros [H|[H|[]]]; discriminate H. }
  split; [exact H|].
  apply (addContact_then_deleteContact Scenario.loaded Scenes.ripley
           Scenario.start H).
Defined.

(** The report of the example is filed in 2024 and is read back. *)
Lemma createReport_then_getReports_witness :
  (T_MIN <= clock Scenario.start + 900 <= T_MAX)
  /\ JS.isoPrefix (in_description Scenario.smoke) = false
  /\ JS.isoPrefix (entropy Scenario.start (drawn Scenario.start)) = false
  /\ exists old,
       fst (Api.getReports Scenario.loaded Scenario.noHost
              (snd (Api.createReport Scenario.loaded Scenario.noHost
                      Scenario.smoke Scenario.start)))
       = old ++ [fst (Api.createReport Scenario.loaded Scenario.noHost
                        Scenario.smoke Scenario.start)].
Proof.
  assert (Ht : T_MIN <= clock Scenario.start + 900 <= T_MAX).
  { unfold T_MIN, T_MAX. cbn. lia. }
  split; [exact Ht|]. split; [reflexivity|]. split; [reflexivity|].
  destruct (createReport_then_getReports Scenario.loaded Scenario.noHost
              Scenario.smoke Scenario.start Ht eq_refl eq_refl)
    as (old & Hr & _).
  exists old. exact Hr.
Defined.

(** A configured key and a service that is down. *)
Lemma service_failure_fallbacks_witness :
  hasCredential (Some "key"%string) = true
  /\ (forall (v : World) (r : Request), Scenes.down v r = Threw)
  /\ fst (generateEmergencyPlanText (Some "key"%string) Scenes.down
            "river flooding downtown" Scenario.start)
     = "Error generating plan."%string.
Proof.
  assert (Hs : forall (v : World) (r : Request), Scenes.down v r = Threw)
    by reflexivity.
  split; [reflexivity|]. split; [exact Hs|].
  apply (service_failure_fallbacks (Some "key"%string) Scenes.down
           (fun _ => None) (fun _ => None) "" "river flooding downtown" ""
           [] None Scenario.start eq_refl Hs).
Defined.

(** Two chunks, the second with a link that is no URL. *)
Lemma one_bad_link_discards_news_witness :
  hasCredential (Some "key"%string) = true
  /\ In (Scenes.chunkOf Scenes.badLink) Scenes.badChunks
  /\ Scenes.strictHostnames Scenes.badLink = None
  /\ fst (fetchRealTimeNews (Some "key"%string)
            (fun _ _ => Answered Scenes.badAnswer) Scenes.strictHostnames
            Scenario.start)
     = [].
Proof.
  assert (Hin : In (Scenes.chunkOf Scenes.badLink) Scenes.badChunks)
    by (right; left; reflexivity).
  split; [reflexivity|]. split; [exact Hin|]. split; [reflexivity|].
  apply (one_bad_link_discards_news (Some "key"%string)
           (fun _ _ => Answered Scenes.badAnswer) Scenes.strictHostnames
           Scenario.start Scenes.badAnswer Scenes.badChunks Scenes.badLink
           "Breaking"%string eq_refl (fun _ => eq_refl) eq_refl Hin
           eq_refl eq_refl eq_refl).
Defined.

(** Two spaces are not a message. *)
Lemma handleSend_ignores_blank_text_witness :
  blank "  " = true
  /\ handleSend Scenario.loaded Scenario.noHost None Scenes.down "  "
       Scenario.page
     = (tt, Scenario.page).
Proof.
  split; [reflexivity|].
  apply (handleSend_ignores_blank_text Scenario.loaded Scenario.noHost None
           Scenes.down "  " Scenario.page eq_refl).
Defined.

(** The report that follows the navigation in the reply is not filed. *)
Lemma handleSend_first_call_only_witness :
  (forall v r, agreeOnFirst (Scenes.twoCalls v r) (Scenes.oneCall v r))
  /\ handleSend Scenario.loaded Scenario.noHost (Some "key"%string)
       Scenes.twoCalls "show me the map" Scenario.page
     = handleSend Scenario.loaded Scenario.noHost (Some "key"%string)
         Scenes.oneCall "show me the map" Scenario.page.
Proof.
  assert (H : forall v r, agreeOnFirst (Scenes.twoCalls v r)
                                       (Scenes.oneCall v r)).
  { intros v r. cbn. repeat split; reflexivity. }
  split; [exact H|].
  apply (handleSend_first_call_only Scenario.loaded Scenario.noHost
           (Some "key"%string) Scenes.twoCalls Scenes.oneCall
           "show me the map" Scenario.page H).
Defined.

(** "Stop the fire" stops the simulation. *)
Lemma handleSend_keywords_select_simulation_witness :
  JS.truthy (JS.trim "Stop the fire") = true
  /\ simMode (ui (snd (handleSend Scenario.loaded Scenario.noHost None
                         Scenes.down "Stop the fire" Scenario.page)))
     = SIM_NONE.
Proof.
  split; [reflexivity|].
  rewrite (handleSend_keywords_select_simulation Scenario.loaded
             Scenario.noHost None Scenes.down "Stop the fire" Scenario.page
             eq_refl).
  reflexivity.
Defined.

(** Without a key the turn ends and the component is ready again. *)
Lemma handleSend_offline_witness :
  noCredential None
  /\ JS.truthy (JS.trim "hello") = true
  /\ isProcessing (ui (snd (handleSend Scenario.loaded Scenario.noHost None
                              Scenes.down "hello" Scenario.page)))
     = false.
Proof.
  assert (Hk : noCredential None) by (left; reflexivity).
  split; [exact Hk|]. split; [reflexivity|].
  destruct (handleSend_offline Scenario.loaded Scenario.noHost None
              Scenes.down "hello" Scenario.page Hk eq_refl)
    as (_ & H & _).
  exact H.
Defined.

(** From the dashboard, a zoom takes the component to the map. *)
Lemma map_actions_navigate_first_witness :
  (action Scenes.zoomIn = "MAP_CONTROL"%string
   \/ action Scenes.zoomIn = "OPEN_REPORT"%string)
  /\ hash (world (snd (onResponse Scenario.loaded Scenario.noHost
                         (Scenes.calling Scenes.zoomIn) Scenario.page)))
     = "#/map"%string.
Proof.
  assert (Ha : action Scenes.zoomIn = "MAP_CONTROL"%string
               \/ action Scenes.zoomIn = "OPEN_REPORT"%string)
    by (left; reflexivity).
  split; [exact Ha|].
  destruct (map_actions_navigate_first Scenario.loaded Scenario.noHost
              "" None Scenes.zoomIn Scenario.page Ha)
    as (before & after & _ & _ & _ & _ & _ & Hh & _).
  exact Hh.
Defined.

(** From the dashboard, a STOP stays on the dashboard. *)
Lemma simulation_command_stays_on_page_witness :
  action (Scenes.simulation "STOP") = "SIMULATION_CONTROL"%string
  /\ (simulationCommand (Scenes.simulation "STOP") <> Some "START"%string
      \/ hash (world Scenario.page) = "#/simulation"%string)
  /\ hash (world (snd (onResponse Scenario.loaded Scenario.noHost
                         (Scenes.calling (Scenes.simulation "STOP"))
                         Scenario.page)))
     = hash (world Scenario.page).
Proof.
  assert (Hc : simulationCommand (Scenes.simulation "STOP")
               <> Some "START"%string
               \/ hash (world Scenario.page) = "#/simulation"%string)
    by (left; discriminate).
  split; [reflexivity|]. split; [exact Hc|].
  destruct (simulation_command_stays_on_page Scenario.loaded Scenario.noHost
              "" None (Scenes.simulation "STOP") Scenario.page eq_refl Hc)
    as (_ & _ & _ & Hh & _).
  exact Hh.
Defined.

(** A navigation stores nothing. *)
Lemma only_a_report_touches_the_store_witness :
  (forall ty d,
     functionCall (Scenario.navigateTo "/map") <> Some (reportIncident ty d))
  /\ localStorage (world (snd (onResponse Scenario.loaded Scenario.noHost
                                 (Scenario.navigateTo "/map") Scenario.page)))
     = localStorage (world Scenario.page).
Proof.
  assert (H : forall ty d,
             functionCall (Scenario.navigateTo "/map")
             <> Some (reportIncident ty d))
    by (intros ty d; discriminate).
  split; [exact H|].
  destruct (only_a_report_touches_the_store Scenario.loaded Scenario.noHost
              (Scenario.navigateTo "/map") Scenario.page H)
    as (Hs & _).
  exact Hs.
Defined.



(** A START of the assistant is dispatched as one event. *)
Lemma assistant_commands_drive_the_simulation_witness :
  action (Scenes.simulation "START") = "SIMULATION_CONTROL"%string
  /\ exists e,
       dispatched
         (trace (world (snd (onResponse Scenario.loaded Scenario.noHost
                               (Scenes.calling (Scenes.simulation "START"))
                               Scenario.page))))
       = dispatched (trace (world Scenario.page)) ++ [e].
Proof.
  split; [reflexivity|].
  destruct (assistant_commands_drive_the_simulation Scenario.loaded
              Scenario.noHost "" None (Scenes.simulation "START")
              Scenario.page
              (mount (Simulation.mkState 0 false) Scenario.start) eq_refl)
    as (e & He & _).
  exists e. exact He.
Defined.

(** After 201 turns the intensity is 0 again. *)
Lemma interval_cycles_through_the_range_witness :
  Qeq (Simulation.intensity
         (state (mount (Simulation.mkState 0 true) Scenario.start))) 0
  /\ Qeq (Simulation.intensity
            (state (snd (ticks 201
                           (mount (Simulation.mkState 0 true)
                                  Scenario.start)))))
         (inject_Z (Z.of_nat 201 mod 201) / 2).
Proof.
  assert (H : Qeq (Simulation.intensity
                     (state (mount (Simulation.mkState 0 true)
                                   Scenario.start))) 0)
    by reflexivity.
  split; [exact H|].
  destruct (interval_cycles_through_the_range 201
              (mount (Simulation.mkState 0 true) Scenario.start) H)
    as (Hi & _).
  exact Hi.
Defined.

End FurtherInstances.
